(** * VeriTrade: the hardware-in-the-loop harness and the pricing bridge

    A shallow embedding of
    - [src/obj_dir/Vhjb_calculator*]: the Verilated pricing unit,
    - [src/cpp_wrapper/hjb_wrapper.cpp]: the blocking bridge around it,
    - [src/cpp_testbench/fpga_trading_system_test.cpp]: the clock-stepped
      test harness and its latency statistics,
    - [src/cpp_testbench/market_data_generator.cpp]: the symbol table,
    followed by the properties of these programs. *)

From Stdlib Require Import ZArith List Lia Bool String Ascii.
From Stdlib Require Import Sorting.Sorted Sorting.Permutation.
From Stdlib Require Import Floats.
Import ListNotations.
Open Scope Z_scope.

(** Decimal double literals such as [0.95] stand for the nearest binary64
    value, as in C++. *)
Set Warnings "-inexact-float".

(** ** Machine integers and control flow *)

(** Unsigned w-bit wrap-around ([uint8_t], [uint32_t]/[IData],
    [uint64_t]/[QData]). *)
Definition wrap8 (z : Z) : Z := z mod 2 ^ 8.
Definition wrap32 (z : Z) : Z := z mod 2 ^ 32.
Definition wrap64 (z : Z) : Z := z mod 2 ^ 64.

(** [UINT64_MAX]. *)
Definition UINT64_MAX : Z := 2 ^ 64 - 1.

(** A call that may abort the process (Verilator's [VL_FATAL_MT]) or, in a
    loop run on fuel, run out of it: [None]. *)
Definition bind {A B : Type} (m : option A) (k : A -> option B) : option B :=
  match m with
  | Some a => k a
  | None => None
  end.

Declare Scope run_scope.
Delimit Scope run_scope with run.
Notation "x <- m ;; k" := (bind m (fun x => k))
  (at level 61, m at next level, right associativity) : run_scope.
Notation "' p <- m ;; k" := (bind m (fun x => let p := x in k))
  (at level 61, p pattern, m at next level, right associativity) : run_scope.
Open Scope run_scope.

(** [for (int i = 0; i < n; i++) body]. *)
Fixpoint repeatM {S : Type} (n : nat) (body : S -> option S) (s : S) : option S :=
  match n with
  | O => Some s
  | Datatypes.S n' => s' <- body s ;; repeatM n' body s'
  end.

(** ** IEEE-754 binary64 values and their bit patterns

    The bridge never computes with the doubles it is handed: it moves their
    64 bits to and from the device through
    [union { double d; uint64_t i; }].  A [double] that crosses the bridge
    is therefore modelled as those 64 bits, sign and NaN payload included.
    Where the harness and the generator compute with doubles, these are
    Rocq's primitive binary64 floats; [encode] and [decode] relate the two
    (the primitive floats have one NaN, encoded as the quiet NaN). *)
Module Double.

(** A [double] object: its 64 bits. *)
Record double := mkDouble { bits : Z }.      (* 63:0 *)

Definition sign_bit (s : bool) : Z := if s then 2 ^ 63 else 0.

(** The 64 bits of the double that holds the value [x]. *)
Definition encode (x : float) : Z :=
  match Prim2SF x with
  | S754_zero s => sign_bit s
  | S754_infinity s => sign_bit s + 0x7FF0000000000000
  | S754_nan => 0x7FF8000000000000
  | S754_finite s m e =>
      sign_bit s +
      (if Zpos m <? 2 ^ 52 then Zpos m
       else (e + 1075) * 2 ^ 52 + (Zpos m - 2 ^ 52))
  end.


(** [conv.d = x; return conv.i]: the bits of [x], unchanged. *)
Definition to_bits (x : double) : Z := wrap64 (bits x).

(** [conv.i = b; return conv.d]: the double with the bits [b]. *)
Definition of_bits (b : Z) : double := mkDouble b.

(** A double constant of the program text, and the value a double holds. *)
Definition of_float (x : float) : double := mkDouble (encode x).

(** [static_cast<double>(n)] for a [uint64_t]/[size_t]: round to nearest,
    ties to even.  Values of 63 bits convert directly; a larger one is
    halved with its lowest bit kept sticky, converted and doubled. *)
Definition of_u64 (n : Z) : float :=
  if n <? 2 ^ 63 then of_uint63 (Uint63.of_Z n)
  else
    let h := Z.lor (Z.shiftr n 1) (Z.land n 1) in
    (of_uint63 (Uint63.of_Z h) * 2)%float.

(** [static_cast<size_t>(x)]: truncation toward zero of a finite
    non-negative double below 2^64 (anything else is undefined in C++:
    [None]). *)
Definition to_u64 (x : float) : option Z :=
  match Prim2SF x with
  | S754_zero _ => Some 0
  | S754_finite false m e =>
      let z := if 0 <=? e then Z.shiftl (Zpos m) e else Z.shiftr (Zpos m) (- e) in
      if z <? 2 ^ 64 then Some z else None
  | S754_finite true m e =>
      if Z.shiftr (Zpos m) (- e) =? 0 then Some 0 else None
  | _ => None
  end.

End Double.

(** ** The Verilated pricing unit ([src/obj_dir]) *)
Module Vhjb_calculator.

(** [VlTriggerVec<2>]: bit 0 is [@(posedge clk)], bit 1 is
    [@(negedge rst_n)]. *)
Record VlTriggerVec := mkTrig { posedge_clk : bool; negedge_rst_n : bool }.

Definition trig_any (t : VlTriggerVec) : bool := posedge_clk t || negedge_rst_n t.
Definition trig_thisOr (t u : VlTriggerVec) : VlTriggerVec :=
  mkTrig (posedge_clk t || posedge_clk u) (negedge_rst_n t || negedge_rst_n u).
Definition trig_clear : VlTriggerVec := mkTrig false false.

(** [Vhjb_calculator___024root] together with [__Vm_didInit] of the symbol
    table.  One-bit signals are booleans; wider ones are unsigned integers of
    the width in the comment. *)
Record root := mkRoot {
  clk : bool;
  rst_n : bool;
  calculate_en : bool;
  calculation_done : bool;
  state : Z;                       (* 2:0 *)
  prev_clk : bool;                 (* __Vtrigprevexpr___TOP__clk__0 *)
  prev_rst_n : bool;               (* __Vtrigprevexpr___TOP__rst_n__0 *)
  VactContinue : bool;
  inventory : Z;                   (* 31:0 *)
  latency_cycles : Z;              (* 31:0 *)
  cycle_counter : Z;               (* 31:0 *)
  VactIterCount : Z;               (* 31:0 *)
  mid_price : Z;                   (* 63:0 *)
  volatility : Z;                  (* 63:0 *)
  optimal_bid : Z;                 (* 63:0 *)
  optimal_ask : Z;                 (* 63:0 *)
  reservation_price : Z;           (* 63:0 *)
  spread : Z;                      (* 63:0 *)
  VactTriggered : VlTriggerVec;
  VnbaTriggered : VlTriggerVec;
  Vm_didInit : bool
}.

(** Field assignments. *)
Definition set_clk (x : bool) (v : root) : root :=
  mkRoot x (rst_n v) (calculate_en v) (calculation_done v) (state v) (prev_clk v)
    (prev_rst_n v) (VactContinue v) (inventory v) (latency_cycles v)
    (cycle_counter v) (VactIterCount v) (mid_price v) (volatility v)
    (optimal_bid v) (optimal_ask v) (reservation_price v) (spread v)
    (VactTriggered v) (VnbaTriggered v) (Vm_didInit v).
Definition set_rst_n (x : bool) (v : root) : root :=
  mkRoot (clk v) x (calculate_en v) (calculation_done v) (state v) (prev_clk v)
    (prev_rst_n v) (VactContinue v) (inventory v) (latency_cycles v)
    (cycle_counter v) (VactIterCount v) (mid_price v) (volatility v)
    (optimal_bid v) (optimal_ask v) (reservation_price v) (spread v)
    (VactTriggered v) (VnbaTriggered v) (Vm_didInit v).
Definition set_calculate_en (x : bool) (v : root) : root :=
  mkRoot (clk v) (rst_n v) x (calculation_done v) (state v) (prev_clk v)
    (prev_rst_n v) (VactContinue v) (inventory v) (latency_cycles v)
    (cycle_counter v) (VactIterCount v) (mid_price v) (volatility v)
    (optimal_bid v) (optimal_ask v) (reservation_price v) (spread v)
    (VactTriggered v) (VnbaTriggered v) (Vm_didInit v).
Definition set_calculation_done (x : bool) (v : root) : root :=
  mkRoot (clk v) (rst_n v) (calculate_en v) x (state v) (prev_clk v)
    (prev_rst_n v) (VactContinue v) (inventory v) (latency_cycles v)
    (cycle_counter v) (VactIterCount v) (mid_price v) (volatility v)
    (optimal_bid v) (optimal_ask v) (reservation_price v) (spread v)
    (VactTriggered v) (VnbaTriggered v) (Vm_didInit v).
Definition set_state (x : Z) (v : root) : root :=
  mkRoot (clk v) (rst_n v) (calculate_en v) (calculation_done v) x (prev_clk v)
    (prev_rst_n v) (VactContinue v) (inventory v) (latency_cycles v)
    (cycle_counter v) (VactIterCount v) (mid_price v) (volatility v)
    (optimal_bid v) (optimal_ask v) (reservation_price v) (spread v)
    (VactTriggered v) (VnbaTriggered v) (Vm_didInit v).
Definition set_prev (c r : bool) (v : root) : root :=
  mkRoot (clk v) (rst_n v) (calculate_en v) (calculation_done v) (state v) c
    r (VactContinue v) (inventory v) (latency_cycles v)
    (cycle_counter v) (VactIterCount v) (mid_price v) (volatility v)
    (optimal_bid v) (optimal_ask v) (reservation_price v) (spread v)
    (VactTriggered v) (VnbaTriggered v) (Vm_didInit v).
Definition set_VactContinue (x : bool) (v : root) : root :=
  mkRoot (clk v) (rst_n v) (calculate_en v) (calculation_done v) (state v)
    (prev_clk v) (prev_rst_n v) x (inventory v) (latency_cycles v)
    (cycle_counter v) (VactIterCount v) (mid_price v) (volatility v)
    (optimal_bid v) (optimal_ask v) (reservation_price v) (spread v)
    (VactTriggered v) (VnbaTriggered v) (Vm_didInit v).
Definition set_inventory (x : Z) (v : root) : root :=
  mkRoot (clk v) (rst_n v) (calculate_en v) (calculation_done v) (state v)
    (prev_clk v) (prev_rst_n v) (VactContinue v) x (latency_cycles v)
    (cycle_counter v) (VactIterCount v) (mid_price v) (volatility v)
    (optimal_bid v) (optimal_ask v) (reservation_price v) (spread v)
    (VactTriggered v) (VnbaTriggered v) (Vm_didInit v).
Definition set_latency_cycles (x : Z) (v : root) : root :=
  mkRoot (clk v) (rst_n v) (calculate_en v) (calculation_done v) (state v)
    (prev_clk v) (prev_rst_n v) (VactContinue v) (inventory v) x
    (cycle_counter v) (VactIterCount v) (mid_price v) (volatility v)
    (optimal_bid v) (optimal_ask v) (reservation_price v) (spread v)
    (VactTriggered v) (VnbaTriggered v) (Vm_didInit v).
Definition set_cycle_counter (x : Z) (v : root) : root :=
  mkRoot (clk v) (rst_n v) (calculate_en v) (calculation_done v) (state v)
    (prev_clk v) (prev_rst_n v) (VactContinue v) (inventory v) (latency_cycles v)
    x (VactIterCount v) (mid_price v) (volatility v)
    (optimal_bid v) (optimal_ask v) (reservation_price v) (spread v)
    (VactTriggered v) (VnbaTriggered v) (Vm_didInit v).
Definition set_VactIterCount (x : Z) (v : root) : root :=
  mkRoot (clk v) (rst_n v) (calculate_en v) (calculation_done v) (state v)
    (prev_clk v) (prev_rst_n v) (VactContinue v) (inventory v) (latency_cycles v)
    (cycle_counter v) x (mid_price v) (volatility v)
    (optimal_bid v) (optimal_ask v) (reservation_price v) (spread v)
    (VactTriggered v) (VnbaTriggered v) (Vm_didInit v).
Definition set_mid_price (x : Z) (v : root) : root :=
  mkRoot (clk v) (rst_n v) (calculate_en v) (calculation_done v) (state v)
    (prev_clk v) (prev_rst_n v) (VactContinue v) (inventory v) (latency_cycles v)
    (cycle_counter v) (VactIterCount v) x (volatility v)
    (optimal_bid v) (optimal_ask v) (reservation_price v) (spread v)
    (VactTriggered v) (VnbaTriggered v) (Vm_didInit v).
Definition set_volatility (x : Z) (v : root) : root :=
  mkRoot (clk v) (rst_n v) (calculate_en v) (calculation_done v) (state v)
    (prev_clk v) (prev_rst_n v) (VactContinue v) (inventory v) (latency_cycles v)
    (cycle_counter v) (VactIterCount v) (mid_price v) x
    (optimal_bid v) (optimal_ask v) (reservation_price v) (spread v)
    (VactTriggered v) (VnbaTriggered v) (Vm_didInit v).
Definition set_optimal_bid (x : Z) (v : root) : root :=
  mkRoot (clk v) (rst_n v) (calculate_en v) (calculation_done v) (state v)
    (prev_clk v) (prev_rst_n v) (VactContinue v) (inventory v) (latency_cycles v)
    (cycle_counter v) (VactIterCount v) (mid_price v) (volatility v)
    x (optimal_ask v) (reservation_price v) (spread v)
    (VactTriggered v) (VnbaTriggered v) (Vm_didInit v).
Definition set_optimal_ask (x : Z) (v : root) : root :=
  mkRoot (clk v) (rst_n v) (calculate_en v) (calculation_done v) (state v)
    (prev_clk v) (prev_rst_n v) (VactContinue v) (inventory v) (latency_cycles v)
    (cycle_counter v) (VactIterCount v) (mid_price v) (volatility v)
    (optimal_bid v) x (reservation_price v) (spread v)
    (VactTriggered v) (VnbaTriggered v) (Vm_didInit v).
Definition set_reservation_price (x : Z) (v : root) : root :=
  mkRoot (clk v) (rst_n v) (calculate_en v) (calculation_done v) (state v)
    (prev_clk v) (prev_rst_n v) (VactContinue v) (inventory v) (latency_cycles v)
    (cycle_counter v) (VactIterCount v) (mid_price v) (volatility v)
    (optimal_bid v) (optimal_ask v) x (spread v)
    (VactTriggered v) (VnbaTriggered v) (Vm_didInit v).
Definition set_spread (x : Z) (v : root) : root :=
  mkRoot (clk v) (rst_n v) (calculate_en v) (calculation_done v) (state v)
    (prev_clk v) (prev_rst_n v) (VactContinue v) (inventory v) (latency_cycles v)
    (cycle_counter v) (VactIterCount v) (mid_price v) (volatility v)
    (optimal_bid v) (optimal_ask v) (reservation_price v) x
    (VactTriggered v) (VnbaTriggered v) (Vm_didInit v).
Definition set_VactTriggered (x : VlTriggerVec) (v : root) : root :=
  mkRoot (clk v) (rst_n v) (calculate_en v) (calculation_done v) (state v)
    (prev_clk v) (prev_rst_n v) (VactContinue v) (inventory v) (latency_cycles v)
    (cycle_counter v) (VactIterCount v) (mid_price v) (volatility v)
    (optimal_bid v) (optimal_ask v) (reservation_price v) (spread v)
    x (VnbaTriggered v) (Vm_didInit v).
Definition set_VnbaTriggered (x : VlTriggerVec) (v : root) : root :=
  mkRoot (clk v) (rst_n v) (calculate_en v) (calculation_done v) (state v)
    (prev_clk v) (prev_rst_n v) (VactContinue v) (inventory v) (latency_cycles v)
    (cycle_counter v) (VactIterCount v) (mid_price v) (volatility v)
    (optimal_bid v) (optimal_ask v) (reservation_price v) (spread v)
    (VactTriggered v) x (Vm_didInit v).
Definition set_Vm_didInit (x : bool) (v : root) : root :=
  mkRoot (clk v) (rst_n v) (calculate_en v) (calculation_done v) (state v)
    (prev_clk v) (prev_rst_n v) (VactContinue v) (inventory v) (latency_cycles v)
    (cycle_counter v) (VactIterCount v) (mid_price v) (volatility v)
    (optimal_bid v) (optimal_ask v) (reservation_price v) (spread v)
    (VactTriggered v) (VnbaTriggered v) x.

(** [VL_SHIFTR_QQI(64,64,32, lhs, rhs)] and [VL_SHIFTL_QQI(64,64,32, lhs, rhs)]
    of the Verilator run-time library. *)
Definition VL_SHIFTR_QQI (lhs rhs : Z) : Z :=
  if rhs <? 64 then Z.shiftr lhs rhs else 0.
Definition VL_SHIFTL_QQI (lhs rhs : Z) : Z :=
  if rhs <? 64 then wrap64 (Z.shiftl lhs rhs) else 0.

(** [VL_SCOPED_RAND_RESET_I/Q(width, scopeHash, salt)]: an unspecified value
    of the given width, drawn by [rnd] from the salt. *)
Definition VL_SCOPED_RAND_RESET (rnd : Z -> Z) (width salt : Z) : Z :=
  Z.land (rnd salt) (2 ^ width - 1).
Definition VL_SCOPED_RAND_RESET_1 (rnd : Z -> Z) (salt : Z) : bool :=
  Z.odd (rnd salt).

(** [Vhjb_calculator___024root___ctor_var_reset], for a freshly constructed
    model (trigger vectors cleared, [__Vm_didInit = false]). *)
Definition ctor_var_reset (rnd : Z -> Z) : root :=
  {| clk := VL_SCOPED_RAND_RESET_1 rnd 16707436170211756652;
     rst_n := VL_SCOPED_RAND_RESET_1 rnd 1638864771569018232;
     mid_price := VL_SCOPED_RAND_RESET rnd 64 1238515469326370040;
     inventory := VL_SCOPED_RAND_RESET rnd 32 4593177094152973812;
     volatility := VL_SCOPED_RAND_RESET rnd 64 9570938037459815655;
     calculate_en := VL_SCOPED_RAND_RESET_1 rnd 16856200205308978235;
     optimal_bid := VL_SCOPED_RAND_RESET rnd 64 5123714553762186701;
     optimal_ask := VL_SCOPED_RAND_RESET rnd 64 14926302866087035526;
     calculation_done := VL_SCOPED_RAND_RESET_1 rnd 12411805887749505188;
     latency_cycles := VL_SCOPED_RAND_RESET rnd 32 16032696644669046232;
     reservation_price := VL_SCOPED_RAND_RESET rnd 64 12047297646447673156;
     spread := VL_SCOPED_RAND_RESET rnd 64 17564236540106298882;
     cycle_counter := VL_SCOPED_RAND_RESET rnd 32 3891055716330192009;
     state := VL_SCOPED_RAND_RESET rnd 3 6401177674272159377;
     prev_clk := VL_SCOPED_RAND_RESET_1 rnd 9526919608049418986;
     prev_rst_n := VL_SCOPED_RAND_RESET_1 rnd 14803524876191471008;
     VactContinue := false;
     VactIterCount := 0;
     VactTriggered := trig_clear;
     VnbaTriggered := trig_clear;
     Vm_didInit := false |}.

(** [Vhjb_calculator___024root___eval_static]. *)
Definition eval_static (v : root) : root := set_prev (clk v) (rst_n v) v.

(** [Vhjb_calculator___024root___nba_sequent__TOP__0]: the clocked process
    of the design.  The two [__Vdly__] locals are threaded beside the
    model. *)
Definition nba_sequent__TOP__0 (v : root) : root :=
  let Vdly_state := state v in
  let Vdly_cycle_counter := cycle_counter v in
  let '(Vdly_state, Vdly_cycle_counter, v) :=
    if rst_n v then
      if negb (Z.land 4 (state v) =? 0) then
        if negb (Z.land 2 (state v) =? 0) then
          (0, Vdly_cycle_counter, v)
        else if negb (Z.land 1 (state v) =? 0) then
          (0, Vdly_cycle_counter, v)
        else
          let v := set_calculation_done true v in
          let v := set_latency_cycles (cycle_counter v) v in
          if negb (calculate_en v) then (0, Vdly_cycle_counter, v)
          else (Vdly_state, Vdly_cycle_counter, v)
      else if negb (Z.land 2 (state v) =? 0) then
        if negb (Z.land 1 (state v) =? 0) then
          let Vdly_cycle_counter := wrap32 (1 + cycle_counter v) in
          let v := set_optimal_bid
                     (wrap64 (reservation_price v - VL_SHIFTR_QQI (spread v) 1)) v in
          let v := set_optimal_ask
                     (wrap64 (reservation_price v + VL_SHIFTR_QQI (spread v) 1)) v in
          (4, Vdly_cycle_counter, v)
        else
          let Vdly_cycle_counter := wrap32 (1 + cycle_counter v) in
          let v := set_spread (VL_SHIFTR_QQI (mid_price v) 7) v in
          (3, Vdly_cycle_counter, v)
      else if negb (Z.land 1 (state v) =? 0) then
        let Vdly_cycle_counter := wrap32 (1 + cycle_counter v) in
        let v := set_reservation_price
                   (wrap64 (mid_price v - VL_SHIFTL_QQI (wrap32 (inventory v)) 10)) v in
        (2, Vdly_cycle_counter, v)
      else
        let Vdly_cycle_counter := 0 in
        let v := set_calculation_done false v in
        if calculate_en v then (1, wrap32 (1 + cycle_counter v), v)
        else (Vdly_state, Vdly_cycle_counter, v)
    else
      let v := set_optimal_bid 0 v in
      let v := set_optimal_ask 0 v in
      let v := set_calculation_done false v in
      let v := set_latency_cycles 0 v in
      (0, 0, v)
  in
  set_cycle_counter Vdly_cycle_counter (set_state Vdly_state v).

(** [Vhjb_calculator___024root___eval_act]: empty. *)
Definition eval_act (v : root) : root := v.

(** [Vhjb_calculator___024root___eval_nba]:
    [if (3ULL & __VnbaTriggered.word(0)) nba_sequent__TOP__0(vlSelf)]. *)
Definition eval_nba (v : root) : root :=
  if trig_any (VnbaTriggered v) then nba_sequent__TOP__0 v else v.

(** Modelled from the spec: the body of
    [Vhjb_calculator___024root___eval_triggers__act] is not in the source
    tree (only its declaration and its call are).  The device is an
    edge-triggered design with an active-low reset; the two triggers are the
    ones [dump_triggers__act] names, [@(posedge clk)] and [@(negedge rst_n)],
    each computed against the previous value that [eval_static] initialises,
    which is then refreshed. *)
Definition eval_triggers__act (v : root) : root :=
  let v := set_VactTriggered
             (mkTrig (clk v && negb (prev_clk v))
                     (negb (rst_n v) && prev_rst_n v)) v in
  set_prev (clk v) (rst_n v) v.

(** [Vhjb_calculator___024root___eval_phase__act]. *)
Definition eval_phase__act (v : root) : bool * root :=
  let v := eval_triggers__act v in
  let VactExecute := trig_any (VactTriggered v) in
  if VactExecute then
    let v := set_VnbaTriggered (trig_thisOr (VnbaTriggered v) (VactTriggered v)) v in
    (VactExecute, eval_act v)
  else (VactExecute, v).

(** [Vhjb_calculator___024root___eval_phase__nba]. *)
Definition eval_phase__nba (v : root) : bool * root :=
  let VnbaExecute := trig_any (VnbaTriggered v) in
  if VnbaExecute then
    let v := eval_nba v in
    (VnbaExecute, set_VnbaTriggered trig_clear v)
  else (VnbaExecute, v).

(** The inner loop of [___eval]: [while (__VactContinue) ...].  [None] is
    [VL_FATAL_MT(..., "Active region did not converge.")]; the fuel only
    makes the recursion structural, the count check fires first. *)
Fixpoint eval_act_region (fuel : nat) (v : root) : option root :=
  if VactContinue v then
    match fuel with
    | O => None
    | S fuel' =>
        if 0x64 <? VactIterCount v then None
        else
          let v := set_VactIterCount (wrap32 (1 + VactIterCount v)) v in
          let v := set_VactContinue false v in
          let '(executed, v) := eval_phase__act v in
          eval_act_region fuel' (if executed then set_VactContinue true v else v)
    end
  else Some v.

(** The outer loop of [___eval]: [while (__VnbaContinue) ...], with its two
    locals.  [None] is a [VL_FATAL_MT] of either region. *)
Fixpoint eval_nba_region (fuel : nat) (VnbaIterCount : Z) (VnbaContinue : bool)
    (v : root) : option root :=
  if VnbaContinue then
    match fuel with
    | O => None
    | S fuel' =>
        if 0x64 <? VnbaIterCount then None
        else
          let VnbaIterCount := wrap32 (1 + VnbaIterCount) in
          let v := set_VactIterCount 0 v in
          let v := set_VactContinue true v in
          v <- eval_act_region 102 v ;;
          let '(executed, v) := eval_phase__nba v in
          eval_nba_region fuel' VnbaIterCount executed v
    end
  else Some v.

(** [Vhjb_calculator___024root___eval]. *)
Definition eval_root (v : root) : option root := eval_nba_region 102 0 true v.

(** [Vhjb_calculator::eval_step], what [eval()] runs. *)
Definition eval (v : root) : option root :=
  let v :=
    if negb (Vm_didInit v) then
      let v := set_Vm_didInit true v in
      eval_static v      (* [eval_initial] and [eval_settle] are empty *)
    else v in
  eval_root v.

End Vhjb_calculator.

(** ** The synchronous calculation bridge ([src/cpp_wrapper/hjb_wrapper.cpp]) *)
Module hjb_wrapper.
Import Vhjb_calculator.

(** [struct HJBResult]. *)
Record HJBResult := mkResult {
  bid : Double.double;
  ask : Double.double;
  latency_ns : Z                   (* uint32_t *)
}.

(** The two file-level statics: [hjb_module] ([None] is [nullptr]) and
    [main_time]. *)
Record Bridge := mkBridge { hjb_module : option root; main_time : Z }.

(** The body shared by the two clocking loops:
    [clk = !clk; eval(); main_time++]. *)
Definition toggle_clock (st : root * Z) : option (root * Z) :=
  let '(m, t) := st in
  m <- eval (set_clk (negb (clk m)) m) ;;
  Some (m, wrap64 (t + 1)).

(** [hjb_init]; [rnd] supplies the unspecified start values of the new
    model.  Returns the status and the statics. *)
Definition hjb_init (rnd : Z -> Z) (b : Bridge) : option (Z * Bridge) :=
  match hjb_module b with
  | Some _ => Some (0, b)
  | None =>
      let m := ctor_var_reset rnd in
      let m := set_rst_n false m in
      let m := set_clk false m in
      let m := set_calculate_en false m in
      m <- eval m ;;
      '(m, t) <- repeatM 5 toggle_clock (m, main_time b) ;;
      let m := set_rst_n true m in
      m <- eval m ;;
      Some (0, mkBridge (Some m) t)
  end.

(** [while (!calculation_done && (main_time - start_time) < 1000)] with the
    loop body [toggle_clock].  [None]: the model aborted, or the fuel ran
    out before the guard failed. *)
Fixpoint clock_until_done (fuel : nat) (start_time : Z) (st : root * Z)
    : option (root * Z) :=
  if negb (calculation_done (fst st)) && (wrap64 (snd st - start_time) <? 1000) then
    match fuel with
    | O => None
    | S fuel' => st' <- toggle_clock st ;; clock_until_done fuel' start_time st'
    end
  else Some st.

(** [hjb_calculate]; [result] is the caller's structure, written only on
    success.  Returns the status, the structure and the statics. *)
Definition hjb_calculate (fuel : nat) (mid_price : Double.double) (inventory : Z)
    (volatility : Double.double) (result : HJBResult) (b : Bridge)
    : option (Z * HJBResult * Bridge) :=
  match hjb_module b with
  | None => Some (-1, result, b)
  | Some m =>
      let start_time := main_time b in
      let m := set_mid_price (Double.to_bits mid_price) m in
      let m := set_inventory (wrap32 inventory) m in
      let m := set_volatility (Double.to_bits volatility) m in
      let m := set_calculate_en true m in
      m <- eval m ;;
      '(m, t) <- clock_until_done fuel start_time (m, main_time b) ;;
      if calculation_done m then
        let result :=
          mkResult (Double.of_bits (optimal_bid m))
                   (Double.of_bits (optimal_ask m))
                   (wrap32 (latency_cycles m * 4)) in
        let m := set_calculate_en false m in
        m <- eval m ;;
        Some (0, result, mkBridge (Some m) t)
      else Some (-1, result, mkBridge (Some m) t)
  end.

(** [hjb_cleanup]. *)
Definition hjb_cleanup (b : Bridge) : Bridge :=
  match hjb_module b with
  | Some _ => mkBridge None (main_time b)
  | None => b
  end.

(** The loop bound of [hjb_calculate], as fuel. *)
Definition CALCULATE_BOUND : nat := 1000.

End hjb_wrapper.

(** ** The symbol table of the generator
    ([src/cpp_testbench/market_data_generator.cpp]) *)
Module MarketDataGenerator.

(** [struct Symbol], the fields the harness shares: name and code. *)
Record Symbol := mkSymbol { name : string; code : Z }.

(** [MarketDataGenerator::initializeSymbols]. *)
Definition initializeSymbols : list Symbol :=
  [ mkSymbol "AAPL" 0x41415054;
    mkSymbol "GOOGL" 0x474f4f47;
    mkSymbol "MSFT" 0x4d534654;
    mkSymbol "TSLA" 0x54534c41;
    mkSymbol "NVDA" 0x4e564441 ].

(** The members of [struct Symbol] beside the name and the code, which
    [generateTick] reads and updates. *)
Record Quote := mkQuote {
  price : float;
  volatility : float;
  avg_volume : Z;                  (* uint32_t *)
  tick_size : Z                    (* uint32_t *)
}.

(** The vector [symbols] with all members, as [initializeSymbols] fills
    it. *)
Definition initial_symbols : list (Symbol * Quote) :=
  combine initializeSymbols
    [ mkQuote 150.0 0.02 1000 1;
      mkQuote 2800.0 0.025 500 1;
      mkQuote 300.0 0.02 800 1;
      mkQuote 800.0 0.04 1200 1;
      mkQuote 500.0 0.035 900 1 ].

(** [struct MarketTick]. *)
Record MarketTick := mkTick {
  symbol_code : Z;
  tick_price : Z;                  (* the member [price] *)
  volume : Z;
  bid : Z;
  ask : Z;
  msg_type : Z;
  timestamp : Z
}.

(** [symbols[i] = x]. *)
Fixpoint set_nth {A : Type} (i : nat) (x : A) (l : list A) : list A :=
  match l, i with
  | [], _ => []
  | _ :: rest, O => x :: rest
  | y :: rest, S i' => y :: set_nth i' x rest
  end.

(** The kind drawn from [rand_val]. *)
Definition msg_type_of (rand_val : float) : Z :=
  if (rand_val <? 0.7)%float then 0x41
  else if (rand_val <? 0.85)%float then 0x45
  else if (rand_val <? 0.95)%float then 0x58
  else 0x44.

Section Generator.

(** The random engine with its three distributions, and the steady clock,
    are the world the generator draws from: each draw returns a value and
    the world afterwards. *)
Variable World : Type.
Variable price_change_dist : World -> float * World.
Variable volume_dist : World -> float * World.
Variable uniform_dist : World -> float * World.
Variable steady_clock_now : World -> Z * World.

(** [static_cast<uint32_t>(x)]: the truncation when it fits.  Any other
    conversion is left open by the language; [undefined_cast] stands for
    what the implementation yields. *)
Variable undefined_cast : float -> Z.

Definition to_u32 (x : float) : Z :=
  match Double.to_u64 x with
  | Some z => if z <? 2 ^ 32 then z else wrap32 (undefined_cast x)
  | None => wrap32 (undefined_cast x)
  end.

(** The members of the class that [generateTick] uses. *)
Record Generator := mkGenerator {
  symbols : list (Symbol * Quote);
  world : World
}.

(** [generateTick(symbol_idx)]; [None]: [symbols[0]] of an empty vector. *)
Definition generateTick (symbol_idx : Z) (g : Generator)
    : option (MarketTick * Generator) :=
  let symbol_idx :=
    if symbol_idx >=? Z.of_nat (List.length (symbols g)) then 0 else symbol_idx in
  s <- nth_error (symbols g) (Z.to_nat symbol_idx) ;;
  let sym := fst s in
  let q := snd s in
  let '(z, w) := price_change_dist (world g) in
  let price_change := (z * volatility q)%float in
  let p := (price q + price_change)%float in
  let p := if (p <? 1.0)%float then 1.0%float else p in
  let '(v, w) := volume_dist w in
  let volume := to_u32 (Double.of_u64 (avg_volume q) * v)%float in
  let spread := (p * 0.001)%float in
  let bid := to_u32 ((p - spread / 2) * 1000000)%float in
  let ask := to_u32 ((p + spread / 2) * 1000000)%float in
  let '(rand_val, w) := uniform_dist w in
  let msg_type := msg_type_of rand_val in
  let '(now, w) := steady_clock_now w in
  Some (mkTick (code sym) (to_u32 (p * 1000000)%float) volume bid ask msg_type
          (wrap64 now),
        mkGenerator
          (set_nth (Z.to_nat symbol_idx)
             (sym, mkQuote p (volatility q) (avg_volume q) (tick_size q))
             (symbols g))
          w).

(** The loop of [generateBurst], from [i] for [n] iterations. *)
Fixpoint burst_loop (n : nat) (i : Z) (g : Generator) (ticks : list MarketTick)
    : option (list MarketTick * Generator) :=
  match n with
  | O => Some (ticks, g)
  | S n' =>
      let symbol_idx := i mod Z.of_nat (List.length (symbols g)) in
      r <- generateTick symbol_idx g ;;
      burst_loop n' (i + 1) (snd r) (ticks ++ [fst r])
  end.

(** [generateBurst(num_ticks)]. *)
Definition generateBurst (num_ticks : nat) (g : Generator)
    : option (list MarketTick * Generator) :=
  burst_loop num_ticks 0 g [].

End Generator.

End MarketDataGenerator.

(** ** The test harness ([src/cpp_testbench/fpga_trading_system_test.cpp]) *)
Module FPGATradingSystemTest.

Definition CLOCK_PERIOD : Z := 4.

(** The symbol table of the class. *)
Definition symbols : list string := ["AAPL"; "GOOGL"; "MSFT"; "TSLA"; "NVDA"]%string.

(** [static_cast<uint32_t>(symbol[i])]: [char] is signed on the target, so a
    character above 127 is sign-extended. *)
Definition char_to_uint32 (c : ascii) : Z :=
  let n := Z.of_N (N_of_ascii c) in
  if n <? 128 then n else wrap32 (n - 256).

(** The inner loop of [initializeSymbolCodes], from index [i] on:
    [code |= static_cast<uint32_t>(symbol[i]) << (24 - i * 8)]. *)
Fixpoint pack_from (i : Z) (chars : list ascii) (code : Z) : Z :=
  match chars with
  | [] => code
  | c :: rest =>
      pack_from (i + 1) rest
        (Z.lor code (wrap32 (Z.shiftl (char_to_uint32 c) (24 - i * 8))))
  end.

(** The code of one symbol: the loop runs for
    [i < std::min(symbol.length(), 4UL)]. *)
Definition symbol_code (symbol : string) : Z :=
  pack_from 0 (firstn (Nat.min (String.length symbol) 4)
                 (list_ascii_of_string symbol)) 0.

(** The input ports of [Vfpga_trading_system_tb] that the harness drives. *)
Record Inputs := mkInputs {
  clk : bool;
  rst_n : bool;
  market_data_valid : bool;
  market_data_in : Z;              (* 63:0 *)
  market_data_type : Z             (* 7:0 *)
}.

(** [std::sort] on the latency vector: insertion into an ascending list. *)
Fixpoint insert_sorted (x : Z) (l : list Z) : list Z :=
  match l with
  | [] => [x]
  | y :: l' => if x <=? y then x :: l else y :: insert_sorted x l'
  end.
Definition std_sort (l : list Z) : list Z := fold_right insert_sorted [] l.

(** What the statistics block of [runLatencyBenchmark] prints, in cycles. *)
Record LatencyStatistics := mkStats {
  avg_latency : float;
  p50_latency : Z;
  p95_latency : Z;
  p99_latency : Z;
  front : Z;
  back : Z
}.

(** [latencies[i]]; an index past the end is undefined ([None]). *)
Definition at_index (latencies : list Z) (i : Z) : option Z :=
  nth_error latencies (Z.to_nat i).

(** [static_cast<size_t>(latencies.size() * q)] for a [double] constant [q]. *)
Definition percentile_index (size : Z) (q : float) : option Z :=
  Double.to_u64 (Double.of_u64 size * q)%float.

(** The statistics block of [runLatencyBenchmark] on a non-empty vector. *)
Definition latency_statistics (latencies : list Z) : option LatencyStatistics :=
  let latencies := std_sort latencies in
  let sum := fold_left (fun sum lat => wrap64 (sum + lat)) latencies 0 in
  let size := Z.of_nat (List.length latencies) in
  let avg_latency := (Double.of_u64 sum / Double.of_u64 size)%float in
  p50_latency <- at_index latencies (size / 2) ;;
  i95 <- percentile_index size 0.95 ;;
  p95_latency <- at_index latencies i95 ;;
  i99 <- percentile_index size 0.99 ;;
  p99_latency <- at_index latencies i99 ;;
  front <- hd_error latencies ;;
  back <- at_index latencies (size - 1) ;;
  Some (mkStats avg_latency p50_latency p95_latency p99_latency front back).

(** [if (!latencies.empty()) { ... }]: [Some None] when nothing is printed,
    [None] when the block would index past the end. *)
Definition report_statistics (latencies : list Z)
    : option (option LatencyStatistics) :=
  match latencies with
  | [] => Some None
  | _ => s <- latency_statistics latencies ;; Some (Some s)
  end.

Section Testbench.

(** The device under test, [Vfpga_trading_system_tb], is not part of the
    source tree: its state (outputs and internals), its [eval] and the one
    output the harness branches on are parameters. *)
Variable Dut : Type.
Variable eval : Inputs -> Dut -> Dut.
Variable order_execution_valid : Dut -> bool.

(** One sample of the waveform sink: [trace->dump(time)]. *)
Record Sample := mkSample { time : Z; ports : Inputs; model : Dut }.

(** The members of the class. *)
Record Harness := mkHarness {
  inputs : Inputs;
  dut : Dut;
  trace : list Sample;
  cycle_count : Z;
  total_ticks : Z;
  total_executions : Z;
  total_latency : Z;
  max_latency : Z;
  min_latency : Z;
  symbol_codes : list Z
}.

Definition set_inputs (x : Inputs) (h : Harness) : Harness :=
  mkHarness x (dut h) (trace h) (cycle_count h) (total_ticks h)
    (total_executions h) (total_latency h) (max_latency h) (min_latency h)
    (symbol_codes h).
Definition set_total_ticks (x : Z) (h : Harness) : Harness :=
  mkHarness (inputs h) (dut h) (trace h) (cycle_count h) x
    (total_executions h) (total_latency h) (max_latency h) (min_latency h)
    (symbol_codes h).
Definition set_symbol_codes (x : list Z) (h : Harness) : Harness :=
  mkHarness (inputs h) (dut h) (trace h) (cycle_count h) (total_ticks h)
    (total_executions h) (total_latency h) (max_latency h) (min_latency h) x.

Definition set_clk (x : bool) (i : Inputs) : Inputs :=
  mkInputs x (rst_n i) (market_data_valid i) (market_data_in i) (market_data_type i).
Definition set_rst_n (x : bool) (i : Inputs) : Inputs :=
  mkInputs (clk i) x (market_data_valid i) (market_data_in i) (market_data_type i).
Definition set_market_data_valid (x : bool) (i : Inputs) : Inputs :=
  mkInputs (clk i) (rst_n i) x (market_data_in i) (market_data_type i).
Definition set_market_data_in (x : Z) (i : Inputs) : Inputs :=
  mkInputs (clk i) (rst_n i) (market_data_valid i) x (market_data_type i).
Definition set_market_data_type (x : Z) (i : Inputs) : Inputs :=
  mkInputs (clk i) (rst_n i) (market_data_valid i) (market_data_in i) x.

(** [initializeSymbolCodes]. *)
Definition initializeSymbolCodes (h : Harness) : Harness :=
  set_symbol_codes (symbol_codes h ++ map symbol_code symbols) h.

(** The constructor, on a freshly built device with ports [i] and state
    [d]. *)
Definition construct (i : Inputs) (d : Dut) : Harness :=
  initializeSymbolCodes (mkHarness i d [] 0 0 0 0 0 UINT64_MAX []).

(** One half period: drive [clk], [dut->eval()], [trace->dump(t)]. *)
Definition half_cycle (level : bool) (t : Z) (h : Harness) : Harness :=
  let i := set_clk level (inputs h) in
  let d := eval i (dut h) in
  mkHarness i d (trace h ++ [mkSample t i d]) (cycle_count h) (total_ticks h)
    (total_executions h) (total_latency h) (max_latency h) (min_latency h)
    (symbol_codes h).

(** [clockCycle]. *)
Definition clockCycle (h : Harness) : Harness :=
  let h := half_cycle false (wrap64 (cycle_count h * CLOCK_PERIOD)) h in
  let h := half_cycle true
             (wrap64 (wrap64 (cycle_count h * CLOCK_PERIOD) + CLOCK_PERIOD / 2)) h in
  mkHarness (inputs h) (dut h) (trace h) (wrap64 (cycle_count h + 1))
    (total_ticks h) (total_executions h) (total_latency h) (max_latency h)
    (min_latency h) (symbol_codes h).

(** [reset]. *)
Definition reset (h : Harness) : Harness :=
  let h := set_inputs (set_rst_n false (inputs h)) h in
  let h := set_inputs (set_clk false (inputs h)) h in
  let h := set_inputs (set_market_data_valid false (inputs h)) h in
  let h := set_inputs (set_market_data_in 0 (inputs h)) h in
  let h := set_inputs (set_market_data_type 0 (inputs h)) h in
  let h := Nat.iter 5 clockCycle h in
  let h := set_inputs (set_rst_n true (inputs h)) h in
  clockCycle h.

(** The first phase of [reset]: reset asserted, every input cleared. *)
Definition clear_inputs (h : Harness) : Harness :=
  set_inputs (mkInputs false false false 0 0) h.

(** The third phase of [reset]: [dut->rst_n = 1]. *)
Definition release_reset (h : Harness) : Harness :=
  set_inputs (set_rst_n true (inputs h)) h.

(** [sendMarketData(symbol_code, price, volume, msg_type)]. *)
Definition sendMarketData (symbol_code price volume msg_type : Z) (h : Harness)
    : Harness :=
  let h := set_inputs (set_market_data_type msg_type (inputs h)) h in
  let h := set_inputs
             (set_market_data_in
                (Z.lor (wrap64 (Z.shiftl symbol_code 32)) price) (inputs h)) h in
  let h := set_inputs (set_market_data_valid true (inputs h)) h in
  let h := clockCycle h in
  let h := set_inputs (set_market_data_valid false (inputs h)) h in
  set_total_ticks (wrap64 (total_ticks h + 1)) h.

(** The loop of [waitForExecution]:
    [while (!dut->order_execution_valid && wait_cycles < max_cycles)].
    [None]: the fuel ran out before the guard failed. *)
Fixpoint wait_loop (fuel : nat) (max_cycles wait_cycles : Z) (h : Harness)
    : option (Z * Harness) :=
  if negb (order_execution_valid (dut h)) && (wait_cycles <? max_cycles) then
    match fuel with
    | O => None
    | S fuel' => wait_loop fuel' max_cycles (wrap32 (wait_cycles + 1)) (clockCycle h)
    end
  else Some (wait_cycles, h).

(** [waitForExecution(max_cycles)]. *)
Definition waitForExecution (fuel : nat) (max_cycles : Z) (h : Harness)
    : option Harness :=
  let start_cycle := cycle_count h in
  '(_, h) <- wait_loop fuel max_cycles 0 h ;;
  if order_execution_valid (dut h) then
    let latency := wrap64 (cycle_count h - start_cycle) in
    Some (mkHarness (inputs h) (dut h) (trace h) (cycle_count h) (total_ticks h)
            (wrap64 (total_executions h + 1))
            (wrap64 (total_latency h + latency))
            (if latency >? max_latency h then latency else max_latency h)
            (if latency <? min_latency h then latency else min_latency h)
            (symbol_codes h))
  else Some h.

(** The sampling loop of [runLatencyBenchmark], from iteration [i] for [n]
    iterations: the harness and the latency vector. *)
Fixpoint collect_latencies (fuel : nat) (n : nat) (i : Z) (st : Harness * list Z)
    : option (Harness * list Z) :=
  match n with
  | O => Some st
  | S n' =>
      let '(h, latencies) := st in
      let start_cycle := cycle_count h in
      let h := sendMarketData (nth 0 (symbol_codes h) 0)
                 (wrap32 (0x96000000 + i)) 0x64000000 0x41 h in
      h <- waitForExecution fuel 100 h ;;
      let latencies :=
        if order_execution_valid (dut h)
        then latencies ++ [wrap64 (cycle_count h - start_cycle)]
        else latencies in
      let h := Nat.iter 5 clockCycle h in
      collect_latencies fuel n' (i + 1) (h, latencies)
  end.

(** [runLatencyBenchmark]: the harness afterwards and what is printed. *)
Definition runLatencyBenchmark (fuel : nat) (h : Harness)
    : option (Harness * option LatencyStatistics) :=
  '(h, latencies) <- collect_latencies fuel 1000 0 (h, []) ;;
  r <- report_statistics latencies ;;
  Some (h, r).

(** [symbol_codes[i]]; an index past the end is undefined ([None]). *)
Definition symbol_code_at (i : Z) (h : Harness) : option Z :=
  nth_error (symbol_codes h) (Z.to_nat i).

(** [runBasicFunctionalTest]; what it prints is read off the device and
    changes nothing. *)
Definition runBasicFunctionalTest (fuel : nat) (h : Harness) : option Harness :=
  code <- symbol_code_at 0 h ;;
  let h := sendMarketData code 0x96000000 0x64000000 0x41 h in
  h <- waitForExecution fuel 100 h ;;
  Some (Nat.iter 10 clockCycle h).

(** The loop of [runMultiSymbolTest], from index [i] for [n] iterations;
    price and volume are computed in [size_t] and narrowed. *)
Fixpoint multi_symbol_loop (n : nat) (i : Z) (h : Harness) : option Harness :=
  match n with
  | O => Some h
  | S n' =>
      let price := wrap32 (0x96000000 + i * 0x01000000) in
      let volume := wrap32 (0x64000000 + i * 0x10000000) in
      code <- symbol_code_at i h ;;
      let h := sendMarketData code price volume 0x41 h in
      let h := Nat.iter 5 clockCycle h in
      multi_symbol_loop n' (i + 1) h
  end.

(** [runMultiSymbolTest]. *)
Definition runMultiSymbolTest (h : Harness) : option Harness :=
  multi_symbol_loop (List.length symbols) 0 h.

(** The result of an [int] operation.  One that does not fit is left open
    by the language; [overflow] stands for what the implementation makes of
    it. *)
Variable overflow : Z -> Z.

Definition int_result (z : Z) : Z :=
  if (- 2 ^ 31 <=? z) && (z <? 2 ^ 31) then z else overflow z.

(** The loop of [runHighFrequencyTest], from [i] for [n] iterations ([i] is
    an [int] that is never negative). *)
Fixpoint high_frequency_loop (n : nat) (i : Z) (h : Harness) : option Harness :=
  match n with
  | O => Some h
  | S n' =>
      let symbol_idx := wrap32 (i mod Z.of_nat (List.length symbols)) in
      let price := wrap32 (0x96000000 + i mod 1000) in
      let volume :=
        wrap32 (int_result (0x64000000 + int_result ((i mod 100) * 0x01000000))) in
      code <- symbol_code_at symbol_idx h ;;
      let h := sendMarketData code price volume 0x41 h in
      let h := if i mod 100 =? 0 then clockCycle h else h in
      high_frequency_loop n' (i + 1) h
  end.

(** [runHighFrequencyTest]: the harness afterwards and the printed average
    number of cycles per tick (the wall-clock figures are not modelled). *)
Definition runHighFrequencyTest (h : Harness) : option (Harness * float) :=
  let start_cycle := cycle_count h in
  h <- high_frequency_loop (Z.to_nat 10000) 0 h ;;
  let end_cycle := cycle_count h in
  let cycles_per_tick :=
    (Double.of_u64 (wrap64 (end_cycle - start_cycle)) / 10000)%float in
  Some (h, cycles_per_tick).

(** The message kind of iteration [i] of [runStressTest]. *)
Definition stress_msg_type (i : Z) : Z :=
  let msg_type := 0x41 in
  let msg_type := if i mod 10 =? 0 then 0x45 else msg_type in
  let msg_type := if i mod 15 =? 0 then 0x58 else msg_type in
  msg_type.

(** The loop of [runStressTest], from [i] for [n] iterations. *)
Fixpoint stress_loop (n : nat) (i : Z) (h : Harness) : option Harness :=
  match n with
  | O => Some h
  | S n' =>
      let symbol_idx := wrap32 (i mod Z.of_nat (List.length symbols)) in
      let price := wrap32 (0x96000000 + i mod 10000) in
      let volume :=
        wrap32 (int_result (0x64000000 + int_result ((i mod 1000) * 0x01000000))) in
      let msg_type := stress_msg_type i in
      code <- symbol_code_at symbol_idx h ;;
      let h := sendMarketData code price volume msg_type h in
      stress_loop n' (i + 1) h
  end.

(** [runStressTest]. *)
Definition runStressTest (h : Harness) : option Harness :=
  stress_loop (Z.to_nat 50000) 0 h.

(** [runAllTests], up to [generateReport], which prints the counters and
    changes none. *)
Definition runAllTests (fuel : nat) (h : Harness) : option Harness :=
  let h := reset h in
  h <- runBasicFunctionalTest fuel h ;;
  h <- runMultiSymbolTest h ;;
  r <- runHighFrequencyTest h ;;
  r <- runLatencyBenchmark fuel (fst r) ;;
  runStressTest (fst r).

(** What [generateReport] prints, before formatting; a line that is not
    printed is [None]. *)
Record Report := mkReport {
  report_cycles : Z;
  report_ticks : Z;
  report_executions : Z;
  execution_rate : option float;
  average_latency_cycles : option float;
  average_latency_ns : option float;
  max_latency_cycles : option Z;
  max_latency_ns : option Z;
  min_latency_cycles : option Z;
  min_latency_ns : option Z;
  simulated_time_us : float;
  effective_frequency : float
}.

(** [generateReport]. *)
Definition generateReport (h : Harness) : Report :=
  let executed := total_executions h >? 0 in
  let average :=
    (Double.of_u64 (total_latency h) / Double.of_u64 (total_executions h))%float in
  let simulated_time_ns := Double.of_u64 (wrap64 (cycle_count h * CLOCK_PERIOD)) in
  let simulated_frequency_mhz :=
    (Double.of_u64 (cycle_count h) / (simulated_time_ns / 1000))%float in
  mkReport (cycle_count h) (total_ticks h) (total_executions h)
    (if total_ticks h >? 0
     then Some (Double.of_u64 (total_executions h) / Double.of_u64 (total_ticks h)
                * 100)%float
     else None)
    (if executed then Some average else None)
    (if executed then Some (average * Double.of_u64 CLOCK_PERIOD)%float else None)
    (if executed then Some (max_latency h) else None)
    (if executed then Some (wrap64 (max_latency h * CLOCK_PERIOD)) else None)
    (if executed then Some (min_latency h) else None)
    (if executed then Some (wrap64 (min_latency h * CLOCK_PERIOD)) else None)
    (simulated_time_ns / 1000)%float
    simulated_frequency_mhz.

End Testbench.

End FPGATradingSystemTest.

(** ** Example devices and states *)
Module Examples.
Import FPGATradingSystemTest.

(** A trading pipeline that never answers: no state, output-valid low. *)
Definition silent_eval (i : Inputs) (d : unit) : unit := d.
Definition silent_valid (d : unit) : bool := false.

(** The harness as constructed around the silent device. *)
Definition silent_harness : Harness unit :=
  construct unit (mkInputs false true false 0 0) tt.

(** A pipeline that answers every valid input [n] rising edges later: its
    state is the number of edges left, if a response is pending. *)
Definition delay_eval (n : nat) (i : Inputs) (d : option nat * bool)
    : option nat * bool :=
  let '(pending, prev_clk) := d in
  if clk i && negb prev_clk then
    if negb (rst_n i) then (None, clk i)
    else if market_data_valid i then (Some n, clk i)
    else (match pending with
          | Some (S k) => Some k
          | _ => None
          end, clk i)
  else (pending, clk i).
Definition delay_valid (d : option nat * bool) : bool :=
  match fst d with
  | Some O => true
  | _ => false
  end.

(** The random-reset sources of a fresh pricing unit: all zeros, all ones. *)
Definition rand_zeros (salt : Z) : Z := 0.
Definition rand_ones (salt : Z) : Z := -1.

(** The bridge before [hjb_init]. *)
Definition no_handle : hjb_wrapper.Bridge := hjb_wrapper.mkBridge None 0.

(** A pricing unit held in reset: a fresh one with [rst_n] low. *)
Definition held_in_reset : Vhjb_calculator.root :=
  Vhjb_calculator.set_rst_n false (Vhjb_calculator.ctor_var_reset rand_zeros).

(** A world for the generator: the draws are fixed (a price change of -10
    standard deviations, 1.5 mean volumes, 0.9), the clock counts. *)
Definition falling_price (w : nat) : float * nat := ((-10000)%float, S w).
Definition steady_volume (w : nat) : float * nat := (1.5%float, S w).
Definition steady_uniform (w : nat) : float * nat := (0.9%float, S w).
Definition counting_clock (w : nat) : Z * nat := (Z.of_nat w, S w).
Definition cast_to_zero (x : float) : Z := 0.

(** The generator as constructed, in that world. *)
Definition fresh_generator : MarketDataGenerator.Generator nat :=
  MarketDataGenerator.mkGenerator nat MarketDataGenerator.initial_symbols 0%nat.

(** An implementation on which [int] arithmetic wraps around. *)
Definition int_wraps (z : Z) : Z := (z + 2 ^ 31) mod 2 ^ 32 - 2 ^ 31.

(** A result structure of the caller before any call. *)
Definition blank_result : hjb_wrapper.HJBResult :=
  hjb_wrapper.mkResult (Double.of_bits 0) (Double.of_bits 0) 0.

End Examples.

(** ** Vocabulary of the statements *)

(** The unsigned code of a character. *)
Definition char_code (c : ascii) : Z := Z.of_N (N_of_ascii c).

(** Byte [k] of the big-endian word of a character list. *)
Definition byte_at (cs : list ascii) (k : nat) : Z :=
  match nth_error cs k with
  | Some c => char_code c
  | None => 0
  end.

Definition big_endian (cs : list ascii) : Z :=
  byte_at cs 0 * 2 ^ 24 + byte_at cs 1 * 2 ^ 16 + byte_at cs 2 * 2 ^ 8
  + byte_at cs 3.

(** [P] holds of every integer from 1 to [n]. *)
Fixpoint check_upto (n : nat) (P : Z -> bool) : bool :=
  match n with
  | O => true
  | S n' => P (Z.of_nat n) && check_upto n' P
  end.

(** The percentile index computed in binary64 is the integer quotient. *)
Definition percentile_index_exact (q : float) (percent size : Z) : bool :=
  match FPGATradingSystemTest.percentile_index size q with
  | Some i => i =? size * percent / 100
  | None => false
  end.

(** The triggers one evaluation of the pricing unit detects. *)
Definition edge (v : Vhjb_calculator.root) : Vhjb_calculator.VlTriggerVec :=
  Vhjb_calculator.mkTrig
    (Vhjb_calculator.clk v && negb (Vhjb_calculator.prev_clk v))
    (negb (Vhjb_calculator.rst_n v) && Vhjb_calculator.prev_rst_n v).

(** The model once the active region of an evaluation has converged: one
    pass when no trigger fires, two when one does. *)
Definition act_settled (v : Vhjb_calculator.root) : Vhjb_calculator.root :=
  let fired := Vhjb_calculator.trig_any (edge v) in
  Vhjb_calculator.mkRoot
    (Vhjb_calculator.clk v) (Vhjb_calculator.rst_n v)
    (Vhjb_calculator.calculate_en v) (Vhjb_calculator.calculation_done v)
    (Vhjb_calculator.state v)
    (Vhjb_calculator.clk v) (Vhjb_calculator.rst_n v)
    false
    (Vhjb_calculator.inventory v) (Vhjb_calculator.latency_cycles v)
    (Vhjb_calculator.cycle_counter v)
    (if fired then 2 else 1)
    (Vhjb_calculator.mid_price v) (Vhjb_calculator.volatility v)
    (Vhjb_calculator.optimal_bid v) (Vhjb_calculator.optimal_ask v)
    (Vhjb_calculator.reservation_price v) (Vhjb_calculator.spread v)
    Vhjb_calculator.trig_clear
    (if fired
     then Vhjb_calculator.trig_thisOr (Vhjb_calculator.VnbaTriggered v) (edge v)
     else Vhjb_calculator.VnbaTriggered v)
    (Vhjb_calculator.Vm_didInit v).

(** The model after a whole [___eval]: the clocked process runs once when a
    trigger is pending. *)
Definition eval_closed (v : Vhjb_calculator.root) : Vhjb_calculator.root :=
  let v1 := act_settled v in
  if Vhjb_calculator.trig_any (Vhjb_calculator.VnbaTriggered v1)
  then act_settled
         (Vhjb_calculator.set_VnbaTriggered Vhjb_calculator.trig_clear
            (Vhjb_calculator.nba_sequent__TOP__0 v1))
  else v1.

(** [eval()] as a total function: the first-call initialisation, then
    [___eval]. *)
Definition eval_pure (v : Vhjb_calculator.root) : Vhjb_calculator.root :=
  eval_closed
    (if negb (Vhjb_calculator.Vm_didInit v)
     then Vhjb_calculator.eval_static (Vhjb_calculator.set_Vm_didInit true v)
     else v).

(** One clock toggle of the model, and [n] of them while done is low. *)
Definition toggle (m : Vhjb_calculator.root) : Vhjb_calculator.root :=
  eval_pure (Vhjb_calculator.set_clk (negb (Vhjb_calculator.clk m)) m).

Fixpoint quiet_toggles (n : nat) (m : Vhjb_calculator.root)
    : option Vhjb_calculator.root :=
  match n with
  | O => Some m
  | S n' =>
      if Vhjb_calculator.calculation_done m then None
      else quiet_toggles n' (toggle m)
  end.

(** Nothing is pending in the model: the state every [eval()] leaves. *)
Definition settled (v : Vhjb_calculator.root) : Prop :=
  Vhjb_calculator.Vm_didInit v = true /\
  Vhjb_calculator.prev_clk v = Vhjb_calculator.clk v /\
  Vhjb_calculator.prev_rst_n v = Vhjb_calculator.rst_n v /\
  Vhjb_calculator.VnbaTriggered v = Vhjb_calculator.trig_clear.

(** What [hjb_calculate] writes into the caller's structure when the
    outputs of the model are those of [m]. *)
Definition result_of (m : Vhjb_calculator.root) : hjb_wrapper.HJBResult :=
  hjb_wrapper.mkResult
    (Double.of_bits (Vhjb_calculator.optimal_bid m))
    (Double.of_bits (Vhjb_calculator.optimal_ask m))
    (wrap32 (Vhjb_calculator.latency_cycles m * 4)).

(** The model as [hjb_calculate] drives it before its first [eval()]. *)
Definition drive_request (mid_price : Double.double) (inventory : Z)
    (volatility : Double.double) (m : Vhjb_calculator.root) : Vhjb_calculator.root :=
  Vhjb_calculator.set_calculate_en true
    (Vhjb_calculator.set_volatility (Double.to_bits volatility)
       (Vhjb_calculator.set_inventory (wrap32 inventory)
          (Vhjb_calculator.set_mid_price (Double.to_bits mid_price) m))).

(** [n] clock toggles of the model alone. *)
Fixpoint run_toggles (n : nat) (m : Vhjb_calculator.root)
    : option Vhjb_calculator.root :=
  match n with
  | O => Some m
  | S n' =>
      m' <- Vhjb_calculator.eval
              (Vhjb_calculator.set_clk (negb (Vhjb_calculator.clk m)) m) ;;
      run_toggles n' m'
  end.

(** [n] clock toggles during which the done signal is low before each. *)
Fixpoint quiet_run (n : nat) (m : Vhjb_calculator.root)
    : option Vhjb_calculator.root :=
  match n with
  | O => Some m
  | S n' =>
      if Vhjb_calculator.calculation_done m then None
      else
        m' <- Vhjb_calculator.eval
                (Vhjb_calculator.set_clk (negb (Vhjb_calculator.clk m)) m) ;;
        quiet_run n' m'
  end.

(** The clock levels that [n] toggles drive, from the level [c]; a rising
    edge, which starts a clock cycle, is a toggle to [true]. *)
Fixpoint driven_levels (n : nat) (c : bool) : list bool :=
  match n with
  | O => []
  | S n' => negb c :: driven_levels n' (negb c)
  end.
Definition rising_edges (n : nat) (c : bool) : Z :=
  Z.of_nat (count_occ Bool.bool_dec (driven_levels n c) true).

(** [main_time++]. *)
Definition tick (t : Z) : Z := wrap64 (t + 1).

(** The model [hjb_init] leaves, built from the fresh model [m0]: reset, out
    of reset, clock high; the data inputs and the two internal data
    registers are whatever [m0] held. *)
Definition after_reset (m0 : Vhjb_calculator.root) : Vhjb_calculator.root :=
  Vhjb_calculator.mkRoot true true false false 0 true true false
    (Vhjb_calculator.inventory m0) 0 0 1
    (Vhjb_calculator.mid_price m0) (Vhjb_calculator.volatility m0) 0 0
    (Vhjb_calculator.reservation_price m0) (Vhjb_calculator.spread m0)
    Vhjb_calculator.trig_clear Vhjb_calculator.trig_clear true.

(** The bit patterns the pricing unit computes from the bit patterns of the
    mid price and the (zero-extended) inventory. *)
Definition priced_bid (mid inventory : Z) : Z :=
  wrap64 (wrap64 (mid - Vhjb_calculator.VL_SHIFTL_QQI (wrap32 inventory) 10)
          - Vhjb_calculator.VL_SHIFTR_QQI (Vhjb_calculator.VL_SHIFTR_QQI mid 7) 1).
Definition priced_ask (mid inventory : Z) : Z :=
  wrap64 (wrap64 (mid - Vhjb_calculator.VL_SHIFTL_QQI (wrap32 inventory) 10)
          + Vhjb_calculator.VL_SHIFTR_QQI (Vhjb_calculator.VL_SHIFTR_QQI mid 7) 1).

(** The model after the first request since reset has completed (before and
    after compute-enable is dropped, [en]), for input bit patterns [mid],
    [inventory], [volatility]. *)
Definition after_first_request (en : bool) (iter : Z) (mid inventory volatility : Z)
    : Vhjb_calculator.root :=
  Vhjb_calculator.mkRoot true true en true 4 true true false
    inventory 4 4 iter mid volatility
    (priced_bid mid inventory) (priced_ask mid inventory)
    (wrap64 (mid - Vhjb_calculator.VL_SHIFTL_QQI (wrap32 inventory) 10))
    (Vhjb_calculator.VL_SHIFTR_QQI mid 7)
    Vhjb_calculator.trig_clear Vhjb_calculator.trig_clear true.

(** The status a call of [hjb_calculate] returned. *)
Definition status_of (o : option (Z * hjb_wrapper.HJBResult * hjb_wrapper.Bridge))
    : option Z :=
  match o with
  | Some (rc, _, _) => Some rc
  | None => None
  end.

(** The reset protocol of the harness, as a statement about [hjb_init] on a
    bridge without a handle: every data input cleared, and six clock cycles
    (five with reset held, one after its release) of [toggles_per_cycle]
    clock toggles each; [main_time] counts the toggles.  A full clock period
    is two toggles. *)
Definition bridge_reset_as_harness (toggles_per_cycle : Z) (rnd : Z -> Z)
    (b : hjb_wrapper.Bridge) : Prop :=
  exists m t',
    hjb_wrapper.hjb_init rnd b = Some (0, hjb_wrapper.mkBridge (Some m) t') /\
    Vhjb_calculator.mid_price m = 0 /\
    Vhjb_calculator.inventory m = 0 /\
    Vhjb_calculator.volatility m = 0 /\
    Vhjb_calculator.calculate_en m = false /\
    wrap64 (t' - hjb_wrapper.main_time b) = 6 * toggles_per_cycle.

(** The word [sendMarketData] drives on the data input. *)
Definition message_word (symbol_code price : Z) : Z :=
  Z.lor (wrap64 (Z.shiftl symbol_code 32)) price.

(** The input ports at the two evaluations of one clock cycle. *)
Definition cycle_ports (rst_n valid : bool) (word type : Z)
    : list FPGATradingSystemTest.Inputs :=
  [ FPGATradingSystemTest.mkInputs false rst_n valid word type;
    FPGATradingSystemTest.mkInputs true rst_n valid word type ].

(** [i; i + 1; ...], [n] numbers. *)
Fixpoint Z_range (i : Z) (n : nat) : list Z :=
  match n with
  | O => []
  | S n' => i :: Z_range (i + 1) n'
  end.

(** Between [h] and [h'] the device was evaluated at exactly the input
    ports [ps], in this order. *)
Definition drives {Dut : Type} (h h' : FPGATradingSystemTest.Harness Dut)
    (ps : list FPGATradingSystemTest.Inputs) : Prop :=
  exists samples,
    FPGATradingSystemTest.trace Dut h'
    = FPGATradingSystemTest.trace Dut h ++ samples /\
    map (FPGATradingSystemTest.ports Dut) samples = ps.

(** A 64-bit counter went from [c] to [c'] by [k] increments. *)
Definition counts_to (c c' k : Z) : Prop :=
  wrap64 c' = wrap64 (c + k) /\
  (0 <= c < 2 ^ 64 -> 0 <= c' < 2 ^ 64).

(** The times at which [n] clock cycles dump the waveform, from cycle
    count [c] on: two samples per cycle. *)
Fixpoint cycle_times (c : Z) (n : nat) : list Z :=
  match n with
  | O => []
  | S n' =>
      wrap64 (c * FPGATradingSystemTest.CLOCK_PERIOD)
      :: wrap64 (wrap64 (c * FPGATradingSystemTest.CLOCK_PERIOD)
                 + FPGATradingSystemTest.CLOCK_PERIOD / 2)
      :: cycle_times (c + 1) n'
  end.

(** Between [h] and [h'] the waveform grew by the samples of [k] clock
    cycles, and by nothing else. *)
Definition clocked {Dut : Type} (k : Z)
    (h h' : FPGATradingSystemTest.Harness Dut) : Prop :=
  0 <= k /\
  exists samples,
    FPGATradingSystemTest.trace Dut h'
    = FPGATradingSystemTest.trace Dut h ++ samples /\
    map (FPGATradingSystemTest.time Dut) samples
    = cycle_times (FPGATradingSystemTest.cycle_count Dut h) (Z.to_nat k).

(** Between [h] and [h'] [k] clock cycles were run, the tick counter
    advanced by [n] and the execution counter by [e]; the table of symbol
    codes is the same. *)
Definition advances {Dut : Type} (k n e : Z)
    (h h' : FPGATradingSystemTest.Harness Dut) : Prop :=
  counts_to (FPGATradingSystemTest.cycle_count Dut h)
    (FPGATradingSystemTest.cycle_count Dut h') k /\
  counts_to (FPGATradingSystemTest.total_ticks Dut h)
    (FPGATradingSystemTest.total_ticks Dut h') n /\
  counts_to (FPGATradingSystemTest.total_executions Dut h)
    (FPGATradingSystemTest.total_executions Dut h') e /\
  FPGATradingSystemTest.symbol_codes Dut h'
  = FPGATradingSystemTest.symbol_codes Dut h /\
  clocked k h h'.

(** Between [h] and [h'] no response was recorded. *)
Definition unrecorded {Dut : Type} (h h' : FPGATradingSystemTest.Harness Dut)
    : Prop :=
  FPGATradingSystemTest.total_executions Dut h'
  = FPGATradingSystemTest.total_executions Dut h /\
  FPGATradingSystemTest.total_latency Dut h'
  = FPGATradingSystemTest.total_latency Dut h /\
  FPGATradingSystemTest.max_latency Dut h'
  = FPGATradingSystemTest.max_latency Dut h /\
  FPGATradingSystemTest.min_latency Dut h'
  = FPGATradingSystemTest.min_latency Dut h.

(** The harness after [waitForExecution] has recorded a response of the
    given latency. *)
Definition recorded {Dut : Type} (latency : Z)
    (h : FPGATradingSystemTest.Harness Dut) : FPGATradingSystemTest.Harness Dut :=
  FPGATradingSystemTest.mkHarness Dut
    (FPGATradingSystemTest.inputs Dut h) (FPGATradingSystemTest.dut Dut h)
    (FPGATradingSystemTest.trace Dut h) (FPGATradingSystemTest.cycle_count Dut h)
    (FPGATradingSystemTest.total_ticks Dut h)
    (wrap64 (FPGATradingSystemTest.total_executions Dut h + 1))
    (wrap64 (FPGATradingSystemTest.total_latency Dut h + latency))
    (Z.max latency (FPGATradingSystemTest.max_latency Dut h))
    (Z.min latency (FPGATradingSystemTest.min_latency Dut h))
    (FPGATradingSystemTest.symbol_codes Dut h).

(** [P] holds of [i], ..., [i + n - 1]. *)
Fixpoint check_from (n : nat) (i : Z) (P : Z -> bool) : bool :=
  match n with
  | O => true
  | S n' => if P i then check_from n' (i + 1) P else false
  end.

(** The execution rate printed for [e] executions in 61006 ticks is at most
    1.65 (per cent). *)
Definition rate_bounded (e : Z) : bool :=
  (Double.of_u64 e / Double.of_u64 61006 * 100 <=? 1.65)%float.

(** The effective frequency printed after [c] cycles is 250 MHz up to
    rounding. *)
Definition frequency_constant (c : Z) : bool :=
  let f := (Double.of_u64 c
            / (Double.of_u64 (wrap64 (c * FPGATradingSystemTest.CLOCK_PERIOD))
               / 1000))%float in
  ((249.999999 <? f) && (f <? 250.000001))%float.

(** What [runMultiSymbolTest] applies for symbol [i]: the message for one
    cycle, then five cycles with input-valid low. *)
Definition multi_symbol_stimulus (rst_n : bool) (codes : list Z) (i : Z)
    : list FPGATradingSystemTest.Inputs :=
  let w := message_word (nth (Z.to_nat i) codes 0)
             (wrap32 (0x96000000 + i * 0x01000000)) in
  cycle_ports rst_n true w 0x41
  ++ List.concat (repeat (cycle_ports rst_n false w 0x41) 5).

(** What [runStressTest] applies in iteration [i]: one cycle. *)
Definition stress_stimulus (rst_n : bool) (codes : list Z) (i : Z)
    : list FPGATradingSystemTest.Inputs :=
  cycle_ports rst_n true
    (message_word (nth (Z.to_nat (i mod 5)) codes 0)
       (wrap32 (0x96000000 + i mod 10000)))
    (FPGATradingSystemTest.stress_msg_type i).

(** The number of iterations among [i], ..., [i + n - 1] after which
    [runHighFrequencyTest] runs an extra cycle. *)
Definition extra_cycles (i : Z) (n : nat) : Z :=
  Z.of_nat (List.length (filter (fun j => j mod 100 =? 0) (Z_range i n))).

(** One clock period of the pricing unit: clock low, [eval()], clock high,
    [eval()]. *)
Definition clock_period (v : Vhjb_calculator.root) : option Vhjb_calculator.root :=
  v1 <- Vhjb_calculator.eval (Vhjb_calculator.set_clk false v) ;;
  Vhjb_calculator.eval (Vhjb_calculator.set_clk true v1).

(** Clock periods of the pricing unit, the data inputs and compute-enable
    being driven anew before each: (mid price, inventory, enable). *)
Fixpoint run_periods (inputs : list (Z * Z * bool)) (v : Vhjb_calculator.root)
    : option Vhjb_calculator.root :=
  match inputs with
  | [] => Some v
  | (mid, inv, en) :: rest =>
      v' <- clock_period
              (Vhjb_calculator.set_calculate_en en
                 (Vhjb_calculator.set_inventory inv
                    (Vhjb_calculator.set_mid_price mid v))) ;;
      run_periods rest v'
  end.

(** The calls a client of the bridge can make, and what each returns. *)
Inductive api_call :=
| Init (rnd : Z -> Z)
| Calculate (mid_price : Double.double) (inventory : Z) (volatility : Double.double)
| Cleanup.

Inductive reply :=
| InitStatus (status : Z)
| CalculateStatus (status : Z) (result : hjb_wrapper.HJBResult)
| Cleaned.

(** A client session: the calls run in order on the bridge, every
    [hjb_calculate] being handed a structure holding [res]. *)
Fixpoint run_calls (fuel : nat) (res : hjb_wrapper.HJBResult)
    (calls : list api_call) (b : hjb_wrapper.Bridge)
    : option (list reply * hjb_wrapper.Bridge) :=
  match calls with
  | [] => Some ([], b)
  | Init rnd :: rest =>
      st <- hjb_wrapper.hjb_init rnd b ;;
      out <- run_calls fuel res rest (snd st) ;;
      Some (InitStatus (fst st) :: fst out, snd out)
  | Calculate mid inv vol :: rest =>
      st <- hjb_wrapper.hjb_calculate fuel mid inv vol res b ;;
      out <- run_calls fuel res rest (snd st) ;;
      Some (CalculateStatus (fst (fst st)) (snd (fst st)) :: fst out, snd out)
  | Cleanup :: rest =>
      out <- run_calls fuel res rest (hjb_wrapper.hjb_cleanup b) ;;
      Some (Cleaned :: fst out, snd out)
  end.

(** The answer of the pricing unit to a request, as the bridge reports it. *)
Definition priced (mid_price : Double.double) (inventory : Z) : hjb_wrapper.HJBResult :=
  hjb_wrapper.mkResult
    (Double.of_bits (priced_bid (Double.to_bits mid_price) (wrap32 inventory)))
    (Double.of_bits (priced_ask (Double.to_bits mid_price) (wrap32 inventory)))
    16.

(** The bridge seen from outside: no handle, a handle that has answered no
    request yet, or a handle that has answered one. *)
Inductive handle_state :=
| NoHandle
| Fresh
| Answered (first : hjb_wrapper.HJBResult).

(** What a call returns in a handle state, the state it leaves and the
    number of clock toggles it performs. *)
Definition machine_step (res : hjb_wrapper.HJBResult) (a : handle_state)
    (c : api_call) : reply * handle_state * Z :=
  match c, a with
  | Init _, NoHandle => (InitStatus 0, Fresh, 5)
  | Init _, _ => (InitStatus 0, a, 0)
  | Cleanup, _ => (Cleaned, NoHandle, 0)
  | Calculate _ _ _, NoHandle => (CalculateStatus (-1) res, NoHandle, 0)
  | Calculate mid inv _, Fresh =>
      (CalculateStatus 0 (priced mid inv), Answered (priced mid inv), 10)
  | Calculate _ _ _, Answered first => (CalculateStatus 0 first, a, 0)
  end.

Fixpoint machine_run (res : hjb_wrapper.HJBResult) (a : handle_state)
    (calls : list api_call) : list reply * handle_state * Z :=
  match calls with
  | [] => ([], a, 0)
  | c :: rest =>
      let '(r, a', n) := machine_step res a c in
      let '(rs, a'', n') := machine_run res a' rest in
      (r :: rs, a'', n + n')
  end.

(** How the statics of the bridge stand in each state of the machine. *)
Definition stands (a : handle_state) (b : hjb_wrapper.Bridge) : Prop :=
  match a with
  | NoHandle => hjb_wrapper.hjb_module b = None
  | Fresh => exists m0, hjb_wrapper.hjb_module b = Some (after_reset m0)
  | Answered first =>
      exists m, hjb_wrapper.hjb_module b = Some m /\ settled m /\
                Vhjb_calculator.calculation_done m = true /\ result_of m = first
  end.

(** * Properties *)

(** ** Wrap-around arithmetic *)

Lemma pow64_nz : 2 ^ 64 <> 0.
Proof. discriminate. Qed.

Lemma wrap64_range (z : Z) : 0 <= wrap64 z < 2 ^ 64.
Proof. unfold wrap64. apply Z.mod_pos_bound. reflexivity. Qed.

Lemma wrap64_small (z : Z) : 0 <= z < 2 ^ 64 -> wrap64 z = z.
Proof. intros H. unfold wrap64. apply Z.mod_small. exact H. Qed.

Lemma wrap32_small (z : Z) : 0 <= z < 2 ^ 32 -> wrap32 z = z.
Proof. intros H. unfold wrap32. apply Z.mod_small. exact H. Qed.

Lemma wrap64_idem (z : Z) : wrap64 (wrap64 z) = wrap64 z.
Proof. apply wrap64_small, wrap64_range. Qed.

Lemma wrap64_add_l (a b : Z) : wrap64 (wrap64 a + b) = wrap64 (a + b).
Proof. unfold wrap64. apply Z.add_mod_idemp_l. exact pow64_nz. Qed.


Lemma wrap64_succ (t k : Z) : wrap64 (wrap64 (t + k) + 1) = wrap64 (t + (k + 1)).
Proof.
  unfold wrap64. rewrite Z.add_mod_idemp_l by exact pow64_nz. f_equal. lia.
Qed.

Lemma wrap64_elapsed (t t0 : Z) :
  wrap64 (wrap64 (t + 1) - t0) = wrap64 (wrap64 (t - t0) + 1).
Proof.
  unfold wrap64.
  rewrite Z.add_mod_idemp_l by exact pow64_nz.
  rewrite Zminus_mod_idemp_l. f_equal. lia.
Qed.

(** ** Sequencing *)

Lemma bind_Some {A B : Type} (a : A) (k : A -> option B) :
  bind (Some a) k = k a.
Proof. reflexivity. Qed.

Lemma bind_inv {A B : Type} (m : option A) (k : A -> option B) (b : B) :
  bind m k = Some b -> exists a, m = Some a /\ k a = Some b.
Proof.
  destruct m as [a |]; intros H; [exists a; split; [reflexivity | exact H] |].
  discriminate H.
Qed.

(** A word made of a high and a low half. *)
Lemma lor_halves (hi lo k : Z) :
  0 <= k -> 0 <= hi -> 0 <= lo < 2 ^ k ->
  Z.lor (Z.shiftl hi k) lo = hi * 2 ^ k + lo.
Proof.
  intros Hk Hhi Hlo.
  rewrite Z.shiftl_mul_pow2 by assumption.
  assert (Hdisj : Z.land (hi * 2 ^ k) lo = 0).
  { apply Z.bits_inj'; intros n Hn. rewrite Z.land_spec, Z.bits_0.
    destruct (Z.lt_ge_cases n k) as [Hlt | Hge].
    - rewrite Z.mul_pow2_bits_low by assumption. reflexivity.
    - destruct (Z.eq_dec lo 0) as [-> | Hnz].
      + rewrite Z.bits_0. apply andb_false_r.
      + rewrite (Z.bits_above_log2 lo n), andb_false_r; [reflexivity | lia | ].
        apply Z.lt_le_trans with k; [ | exact Hge].
        apply Z.log2_lt_pow2; lia. }
  rewrite <- Z.lxor_lor by exact Hdisj.
  symmetry. apply Z.add_nocarry_lxor. exact Hdisj.
Qed.

(** ** The harness: clock driver, injector, collector *)
Section TestbenchFacts.

Import FPGATradingSystemTest.

Context {Dut : Type}.
Variable eval : Inputs -> Dut -> Dut.
Variable order_execution_valid : Dut -> bool.

#[local] Abbreviation Harness := (Harness Dut).
#[local] Abbreviation clockCycle := (clockCycle Dut eval).
#[local] Abbreviation sendMarketData := (sendMarketData Dut eval).
#[local] Abbreviation waitForExecution :=
  (waitForExecution Dut eval order_execution_valid).
#[local] Abbreviation wait_loop := (wait_loop Dut eval order_execution_valid).

Lemma clockCycle_cycle_count (h : Harness) :
  cycle_count Dut (clockCycle h) = wrap64 (cycle_count Dut h + 1).
Proof. reflexivity. Qed.

Lemma iter_clockCycle_shift (n : nat) (h : Harness) :
  Nat.iter (S n) clockCycle h = Nat.iter n clockCycle (clockCycle h).
Proof.
  induction n as [| n IH]; [reflexivity |].
  change (Nat.iter (S (S n)) clockCycle h)
    with (clockCycle (Nat.iter (S n) clockCycle h)).
  rewrite IH. reflexivity.
Qed.

Lemma iter_clockCycle_cycle_count (n : nat) (h : Harness) :
  wrap64 (cycle_count Dut (Nat.iter n clockCycle h))
  = wrap64 (cycle_count Dut h + Z.of_nat n).
Proof.
  induction n as [| n IH].
  - simpl. rewrite Z.add_0_r. reflexivity.
  - change (Nat.iter (S n) clockCycle h)
      with (clockCycle (Nat.iter n clockCycle h)).
    change (cycle_count Dut (clockCycle (Nat.iter n clockCycle h)))
      with (wrap64 (cycle_count Dut (Nat.iter n clockCycle h) + 1)).
    rewrite wrap64_idem, <- wrap64_add_l, IH, wrap64_add_l.
    f_equal. lia.
Qed.

Lemma iter_clockCycle_counters (n : nat) (h : Harness) :
  let h' := Nat.iter n clockCycle h in
  total_ticks Dut h' = total_ticks Dut h /\
  total_executions Dut h' = total_executions Dut h /\
  total_latency Dut h' = total_latency Dut h /\
  max_latency Dut h' = max_latency Dut h /\
  min_latency Dut h' = min_latency Dut h.
Proof.
  induction n as [| n IH]; [simpl; auto |].
  exact IH.
Qed.

(** The wait loop on a device that stays silent for the [n] cycles that
    are left: it runs them all. *)
Lemma wait_loop_silent (max_cycles : Z) (n : nat) :
  forall (fuel : nat) (wait_cycles : Z) (h : Harness),
    (n <= fuel)%nat ->
    0 <= wait_cycles ->
    wait_cycles + Z.of_nat n = max_cycles ->
    max_cycles < 2 ^ 32 ->
    (forall k, (k <= n)%nat ->
               order_execution_valid (dut Dut (Nat.iter k clockCycle h)) = false) ->
    wait_loop fuel max_cycles wait_cycles h
    = Some (max_cycles, Nat.iter n clockCycle h).
Proof.
  induction n as [| n IH]; intros fuel w h Hfuel Hw Hsum Hmax Hsilent.
  - assert (w = max_cycles) as -> by lia.
    destruct fuel; simpl; rewrite Z.ltb_irrefl, andb_false_r; reflexivity.
  - destruct fuel as [| fuel]; [lia |].
    simpl wait_loop.
    pose proof (Hsilent 0%nat ltac:(lia)) as H0. simpl in H0.
    rewrite H0. simpl negb.
    replace (w <? max_cycles) with true by (symmetry; apply Z.ltb_lt; lia).
    simpl andb. cbv iota.
    rewrite wrap32_small by lia.
    rewrite iter_clockCycle_shift.
    apply IH; try lia.
    intros k Hk. rewrite <- iter_clockCycle_shift. apply Hsilent. lia.
Qed.

(** C1: when the device never asserts its output-valid signal during the
    wait, [waitForExecution max_cycles] returns (with any fuel of at least
    [max_cycles]) after exactly [max_cycles] calls of [clockCycle]; the cycle
    counter has grown by exactly [max_cycles] (modulo 2^64, and as an integer
    when the sum fits), the output-valid signal is still low ("no response"),
    and no counter other than the cycle counter has changed.  The call
    returns a harness, not an error. *)
Theorem waitForExecution_no_response
    (max_cycles : Z) (fuel : nat) (h : Harness) :
  0 <= max_cycles < 2 ^ 32 ->
  (Z.to_nat max_cycles <= fuel)%nat ->
  0 <= cycle_count Dut h < 2 ^ 64 ->
  (forall k, (k <= Z.to_nat max_cycles)%nat ->
             order_execution_valid (dut Dut (Nat.iter k clockCycle h)) = false) ->
  exists h',
    waitForExecution fuel max_cycles h = Some h' /\
    h' = Nat.iter (Z.to_nat max_cycles) clockCycle h /\
    cycle_count Dut h' = wrap64 (cycle_count Dut h + max_cycles) /\
    (cycle_count Dut h + max_cycles < 2 ^ 64 ->
     cycle_count Dut h' = cycle_count Dut h + max_cycles) /\
    order_execution_valid (dut Dut h') = false /\
    total_ticks Dut h' = total_ticks Dut h /\
    total_executions Dut h' = total_executions Dut h /\
    total_latency Dut h' = total_latency Dut h /\
    max_latency Dut h' = max_latency Dut h /\
    min_latency Dut h' = min_latency Dut h.
Proof.
  intros Hmax Hfuel Hcc Hsilent.
  exists (Nat.iter (Z.to_nat max_cycles) clockCycle h).
  assert (Hcount :
    cycle_count Dut (Nat.iter (Z.to_nat max_cycles) clockCycle h)
    = wrap64 (cycle_count Dut h + max_cycles)).
  { destruct (Z.to_nat max_cycles) as [| n] eqn:En.
    - assert (max_cycles = 0) as -> by lia.
      simpl. rewrite Z.add_0_r, wrap64_small; [reflexivity | exact Hcc].
    - pose proof (iter_clockCycle_cycle_count (S n) h) as Hit.
      change (Nat.iter (S n) clockCycle h)
        with (clockCycle (Nat.iter n clockCycle h)) in *.
      change (cycle_count Dut (clockCycle (Nat.iter n clockCycle h)))
        with (wrap64 (cycle_count Dut (Nat.iter n clockCycle h) + 1)) in *.
      rewrite wrap64_idem in Hit. rewrite Hit. f_equal. lia. }
  split.
  - unfold FPGATradingSystemTest.waitForExecution.
    rewrite (wait_loop_silent max_cycles (Z.to_nat max_cycles)); try lia;
      [ | exact Hsilent].
    simpl bind. rewrite (Hsilent (Z.to_nat max_cycles)) by lia. reflexivity.
  - split; [reflexivity |].
    split; [exact Hcount |].
    split; [intros Hfit; rewrite Hcount; apply wrap64_small; lia |].
    split; [apply Hsilent; lia |].
    apply (iter_clockCycle_counters (Z.to_nat max_cycles) h).
Qed.

(** C2: [sendMarketData] drives the 64-bit input word with the entity code
    in its high and the price in its low 32 bits and the message kind on its
    own input; the device sees input-valid asserted during exactly one
    [clockCycle] (its two half-period evaluations, the only samples added to
    the trace); afterwards input-valid is low, the cycle counter has advanced
    by one and the total-events counter by one, whatever the device does. *)
Theorem sendMarketData_one_cycle_pulse
    (symbol_code price volume msg_type : Z) (h : Harness) :
  0 <= symbol_code < 2 ^ 32 ->
  0 <= price < 2 ^ 32 ->
  let word := symbol_code * 2 ^ 32 + price in
  let driven := mkInputs (clk (inputs Dut h)) (rst_n (inputs Dut h))
                  true word msg_type in
  let low := set_clk false driven in
  let high := set_clk true driven in
  let d1 := eval low (dut Dut h) in
  let d2 := eval high d1 in
  let h' := sendMarketData symbol_code price volume msg_type h in
  Z.shiftr word 32 = symbol_code /\
  Z.land word (2 ^ 32 - 1) = price /\
  inputs Dut h' = set_market_data_valid false high /\
  market_data_in (inputs Dut h') = word /\
  market_data_type (inputs Dut h') = msg_type /\
  market_data_valid (inputs Dut h') = false /\
  dut Dut h' = d2 /\
  trace Dut h'
  = trace Dut h
    ++ [ mkSample Dut (wrap64 (cycle_count Dut h * CLOCK_PERIOD)) low d1;
         mkSample Dut (wrap64 (wrap64 (cycle_count Dut h * CLOCK_PERIOD)
                               + CLOCK_PERIOD / 2)) high d2 ] /\
  h' = set_total_ticks Dut (wrap64 (total_ticks Dut h + 1))
         (set_inputs Dut (set_market_data_valid false high)
            (clockCycle (set_inputs Dut driven h))) /\
  cycle_count Dut h' = wrap64 (cycle_count Dut h + 1) /\
  total_ticks Dut h' = wrap64 (total_ticks Dut h + 1) /\
  (0 <= total_ticks Dut h < 2 ^ 64 - 1 ->
   total_ticks Dut h' = total_ticks Dut h + 1) /\
  total_executions Dut h' = total_executions Dut h /\
  total_latency Dut h' = total_latency Dut h /\
  max_latency Dut h' = max_latency Dut h /\
  min_latency Dut h' = min_latency Dut h.
Proof.
  intros Hsym Hprice word driven low high d1 d2 h'.
  assert (Hword : Z.lor (wrap64 (Z.shiftl symbol_code 32)) price = word).
  { rewrite wrap64_small.
    - apply lor_halves; lia.
    - rewrite Z.shiftl_mul_pow2 by lia. lia. }
  assert (Hh' : h' = set_total_ticks Dut (wrap64 (total_ticks Dut h + 1))
         (set_inputs Dut (set_market_data_valid false high)
            (clockCycle (set_inputs Dut driven h)))).
  { subst h'. unfold FPGATradingSystemTest.sendMarketData.
    cbn -[wrap64 Z.lor Z.shiftl Z.mul Z.add Z.pow Z.div].
    rewrite Hword. subst high driven.
    cbn -[wrap64 Z.lor Z.shiftl Z.mul Z.add Z.pow Z.div]. reflexivity. }
  split.
  { subst word. rewrite Z.shiftr_div_pow2 by lia.
    rewrite Z.div_add_l by lia. rewrite Z.div_small by lia. lia. }
  split.
  { subst word. change (2 ^ 32 - 1) with (Z.ones 32).
    rewrite Z.land_ones by lia.
    rewrite Z.add_comm, Z.mod_add by lia. apply Z.mod_small. lia. }
  rewrite Hh'.
  repeat split; try reflexivity.
  - cbn -[wrap64 Z.mul Z.add Z.div]. rewrite <- app_assoc. reflexivity.
  - intros Hfit. cbn -[wrap64]. apply wrap64_small. lia.
Qed.

(** C10: the [volume] argument of [sendMarketData] reaches nothing: two
    calls that differ only in it leave identical harnesses, hence identical
    device inputs, device state, trace, cycle counter and session counters. *)
Theorem sendMarketData_volume_noninterference
    (symbol_code price msg_type volume1 volume2 : Z) (h : Harness) :
  sendMarketData symbol_code price volume1 msg_type h
  = sendMarketData symbol_code price volume2 msg_type h.
Proof. reflexivity. Qed.

Lemma clockCycle_trace (h : Harness) :
  exists s1 s2,
    trace Dut (clockCycle h) = trace Dut h ++ [s1; s2] /\
    ports Dut s1 = set_clk false (inputs Dut h) /\
    ports Dut s2 = set_clk true (inputs Dut h).
Proof.
  eexists. eexists. split.
  - cbn [FPGATradingSystemTest.clockCycle half_cycle trace].
    rewrite <- app_assoc. reflexivity.
  - split; reflexivity.
Qed.

Lemma clockCycle_inputs (h : Harness) :
  inputs Dut (clockCycle h) = set_clk true (inputs Dut h).
Proof. reflexivity. Qed.

(** [n] clock cycles add [2 n] samples: the inputs with the clock low,
    then high, [n] times over. *)
Lemma iter_clockCycle_trace (n : nat) (h : Harness) :
  exists samples,
    trace Dut (Nat.iter n clockCycle h) = trace Dut h ++ samples /\
    map (ports Dut) samples
    = List.concat
        (repeat [set_clk false (inputs Dut h); set_clk true (inputs Dut h)] n) /\
    set_clk true (inputs Dut (Nat.iter n clockCycle h))
    = set_clk true (inputs Dut h) /\
    (n <> 0%nat ->
     inputs Dut (Nat.iter n clockCycle h) = set_clk true (inputs Dut h)).
Proof.
  induction n as [| n IH].
  - exists []. cbn [Nat.iter nat_rect repeat List.concat map].
    rewrite app_nil_r. repeat split. intros H. congruence.
  - destruct IH as (samples & Htrace & Hports & Hclk & _).
    change (Nat.iter (S n) clockCycle h)
      with (clockCycle (Nat.iter n clockCycle h)).
    destruct (clockCycle_trace (Nat.iter n clockCycle h))
      as (s1 & s2 & Hstep & Hp1 & Hp2).
    exists (samples ++ [s1; s2]).
    rewrite clockCycle_inputs.
    assert (Hlow : set_clk false (inputs Dut (Nat.iter n clockCycle h))
                   = set_clk false (inputs Dut h)).
    { apply (f_equal (set_clk false)) in Hclk. exact Hclk. }
    split; [rewrite Hstep, Htrace, app_assoc; reflexivity |].
    split.
    { rewrite map_app, Hports. cbn [map]. rewrite Hp1, Hp2, Hlow, Hclk.
      replace (S n) with (n + 1)%nat by lia.
      rewrite repeat_app, List.concat_app. cbn [repeat List.concat app].
      reflexivity. }
    split; [ | intros _]; rewrite Hclk; reflexivity.
Qed.

(** [reset] as its three phases. *)
Lemma reset_unfold (h : Harness) :
  reset Dut eval h
  = clockCycle
      (release_reset Dut
         (Nat.iter 5 clockCycle (clear_inputs Dut h))).
Proof. reflexivity. Qed.

(** The last cycle of [reset], after any harness [h5] whose inputs are the
    cleared ones with the clock high. *)
Lemma release_cycle_spec (h5 : Harness) :
  inputs Dut h5 = mkInputs true false false 0 0 ->
  let h' := clockCycle (release_reset Dut h5) in
  inputs Dut h' = mkInputs true true false 0 0 /\
  (exists s1 s2,
     trace Dut h' = trace Dut h5 ++ [s1; s2] /\
     ports Dut s1 = mkInputs false true false 0 0 /\
     ports Dut s2 = mkInputs true true false 0 0) /\
  cycle_count Dut h' = wrap64 (cycle_count Dut h5 + 1) /\
  total_ticks Dut h' = total_ticks Dut h5 /\
  total_executions Dut h' = total_executions Dut h5 /\
  total_latency Dut h' = total_latency Dut h5 /\
  max_latency Dut h' = max_latency Dut h5 /\
  min_latency Dut h' = min_latency Dut h5.
Proof.
  intros Hin h'.
  assert (Hrel : inputs Dut (release_reset Dut h5) = mkInputs true true false 0 0).
  { unfold release_reset. cbn [inputs set_inputs]. rewrite Hin. reflexivity. }
  split; [subst h'; rewrite clockCycle_inputs, Hrel; reflexivity |].
  split.
  { destruct (clockCycle_trace (release_reset Dut h5))
      as (s1 & s2 & Hstep & Hp1 & Hp2).
    exists s1, s2. rewrite Hrel in Hp1, Hp2.
    split; [exact Hstep | split; assumption]. }
  repeat split.
Qed.

(** The reset operation of the harness. *)
Lemma reset_spec (h : Harness) :
  let h' := reset Dut eval h in
  let held c := mkInputs c false false 0 0 in
  let released c := mkInputs c true false 0 0 in
  inputs Dut h' = released true /\
  (exists samples,
     trace Dut h' = trace Dut h ++ samples /\
     map (ports Dut) samples
     = [held false; held true; held false; held true; held false; held true;
        held false; held true; held false; held true;
        released false; released true]) /\
  cycle_count Dut h' = wrap64 (cycle_count Dut h + 6) /\
  total_ticks Dut h' = total_ticks Dut h /\
  total_executions Dut h' = total_executions Dut h /\
  total_latency Dut h' = total_latency Dut h /\
  max_latency Dut h' = max_latency Dut h /\
  min_latency Dut h' = min_latency Dut h.
Proof.
  cbv zeta. rewrite reset_unfold.
  destruct (iter_clockCycle_trace 5 (clear_inputs Dut h))
    as (samples & Htrace & Hports & _ & Hinputs).
  specialize (Hinputs ltac:(discriminate)).
  pose proof (iter_clockCycle_cycle_count 5 (clear_inputs Dut h)) as Hcount.
  destruct (iter_clockCycle_counters 5 (clear_inputs Dut h))
    as (A & B & C & D & E).
  destruct (release_cycle_spec
              (Nat.iter 5 clockCycle (clear_inputs Dut h)) Hinputs)
    as (Hin' & (s1 & s2 & Htrace' & Hp1 & Hp2) & Hcount' & A' & B' & C' & D' & E').
  split; [exact Hin' |].
  split.
  { exists (samples ++ [s1; s2]). split.
    - rewrite Htrace', Htrace, app_assoc. reflexivity.
    - rewrite map_app, Hports. cbn [map]. rewrite Hp1, Hp2. reflexivity. }
  split.
  { rewrite Hcount', <- wrap64_add_l, Hcount, wrap64_succ. reflexivity. }
  rewrite A', B', C', D', E'.
  repeat split; assumption.
Qed.

(** The sampling loop of the benchmark adds at most one sample per
    iteration. *)
Lemma collect_latencies_length (fuel n : nat) :
  forall (i : Z) (h h' : Harness) (l l' : list Z),
    collect_latencies Dut eval order_execution_valid fuel n i (h, l)
    = Some (h', l') ->
    (List.length l' <= List.length l + n)%nat.
Proof.
  induction n as [| n IH]; intros i h h' l l' Hrun.
  - cbn [collect_latencies] in Hrun. injection Hrun as _ <-. lia.
  - cbn [collect_latencies] in Hrun. cbv zeta in Hrun.
    apply bind_inv in Hrun. destruct Hrun as (h1 & _ & Hrun).
    apply IH in Hrun.
    destruct (order_execution_valid (dut Dut h1));
      [rewrite length_app in Hrun; cbn [List.length] in Hrun |]; lia.
Qed.

Lemma runLatencyBenchmark_samples (fuel : nat) (h h' : Harness) (l : list Z) :
  collect_latencies Dut eval order_execution_valid fuel 1000 0 (h, [])
  = Some (h', l) ->
  (List.length l <= 1000)%nat.
Proof.
  intros Hrun. apply collect_latencies_length in Hrun. exact Hrun.
Qed.

End TestbenchFacts.

(** A device that answers three rising edges after an event: the wait ends
    after three cycles and the latency is recorded. *)
Example waitForExecution_response_recorded :
  let eval := Examples.delay_eval 3 in
  let h1 := FPGATradingSystemTest.reset _ eval
              (FPGATradingSystemTest.construct _
                 (FPGATradingSystemTest.mkInputs false true false 0 0)
                 (None, false)) in
  let h2 := FPGATradingSystemTest.sendMarketData _ eval
              0x4141504C 150000000 100 0x41 h1 in
  option_map
    (fun h => (FPGATradingSystemTest.cycle_count _ h,
               FPGATradingSystemTest.total_executions _ h,
               FPGATradingSystemTest.total_latency _ h,
               FPGATradingSystemTest.max_latency _ h,
               FPGATradingSystemTest.min_latency _ h))
    (FPGATradingSystemTest.waitForExecution _ eval Examples.delay_valid 100 100 h2)
  = Some (10, 1, 3, 3, 3).
Proof. vm_compute. reflexivity. Qed.

(** The silent device of [Examples] never responds: 100 cycles pass. *)
Lemma waitForExecution_no_response_witness :
  exists h',
    FPGATradingSystemTest.waitForExecution unit Examples.silent_eval
      Examples.silent_valid 100 100 Examples.silent_harness = Some h' /\
    FPGATradingSystemTest.cycle_count unit h' = 100 /\
    FPGATradingSystemTest.total_executions unit h' = 0 /\
    FPGATradingSystemTest.min_latency unit h' = UINT64_MAX.
Proof.
  destruct (waitForExecution_no_response Examples.silent_eval
              Examples.silent_valid 100 100 Examples.silent_harness)
    as (h' & Hrun & _ & Hcount & _ & _ & _ & Hexec & _ & _ & Hmin).
  - lia.
  - lia.
  - simpl. lia.
  - intros k _. reflexivity.
  - exists h'. split; [exact Hrun |]. split; [exact Hcount |].
    split; [exact Hexec | exact Hmin].
Defined.

(** One AAPL event at price 150000000 into the silent device. *)
Lemma sendMarketData_one_cycle_pulse_witness :
  let h' := FPGATradingSystemTest.sendMarketData unit Examples.silent_eval
              0x4141504C 150000000 100 0x41 Examples.silent_harness in
  FPGATradingSystemTest.market_data_in (FPGATradingSystemTest.inputs unit h')
  = 0x4141504C08F0D180 /\
  FPGATradingSystemTest.market_data_valid (FPGATradingSystemTest.inputs unit h')
  = false /\
  map (fun s => FPGATradingSystemTest.market_data_valid
                  (FPGATradingSystemTest.ports unit s))
      (FPGATradingSystemTest.trace unit h') = [true; true] /\
  FPGATradingSystemTest.cycle_count unit h' = 1 /\
  FPGATradingSystemTest.total_ticks unit h' = 1.
Proof.
  pose proof (sendMarketData_one_cycle_pulse Examples.silent_eval
                0x4141504C 150000000 100 0x41 Examples.silent_harness
                ltac:(lia) ltac:(lia)) as H.
  cbv zeta in H.
  destruct H as (_ & _ & _ & Hin & _ & Hvalid & _ & Htrace & _ & Hcc & Htt & _).
  cbv zeta.
  split; [rewrite Hin; reflexivity |].
  split; [exact Hvalid |].
  split; [rewrite Htrace; reflexivity |].
  split; [rewrite Hcc; reflexivity | rewrite Htt; reflexivity].
Defined.

(** ** Entity codes *)
Section SymbolCodes.

Import FPGATradingSystemTest.

Lemma char_code_range (c : ascii) : 0 <= char_code c < 256.
Proof.
  unfold char_code. pose proof (N_ascii_bounded c) as H. lia.
Qed.

Lemma char_to_uint32_ascii (c : ascii) :
  char_code c < 128 -> char_to_uint32 c = char_code c.
Proof.
  intros H. unfold char_to_uint32. fold (char_code c).
  destruct (char_code c <? 128) eqn:E; [reflexivity |].
  apply Z.ltb_ge in E. lia.
Qed.

Lemma length_list_ascii_of_string (s : string) :
  List.length (list_ascii_of_string s) = String.length s.
Proof. induction s as [| c s IH]; simpl; congruence. Qed.

Lemma symbol_code_firstn (s : string) :
  symbol_code s = pack_from 0 (firstn 4 (list_ascii_of_string s)) 0.
Proof.
  unfold symbol_code. f_equal.
  rewrite <- length_list_ascii_of_string.
  destruct (Nat.le_ge_cases (List.length (list_ascii_of_string s)) 4) as [H | H].
  - rewrite Nat.min_l by exact H.
    rewrite firstn_all. symmetry. apply firstn_all2. exact H.
  - rewrite Nat.min_r by exact H. reflexivity.
Qed.

(** One step of the packing loop adds a byte below what is there. *)
Lemma lor_byte (acc n shift : Z) :
  0 <= shift <= 24 -> 0 <= n < 256 -> 0 <= acc < 2 ^ 32 ->
  acc mod 2 ^ (shift + 8) = 0 ->
  Z.lor acc (wrap32 (Z.shiftl n shift)) = acc + n * 2 ^ shift.
Proof.
  intros Hs Hn Hacc Hmod.
  assert (Hpow : 2 ^ (shift + 8) = 2 ^ shift * 256)
    by (rewrite Z.pow_add_r by lia; reflexivity).
  assert (Hpos : 0 < 2 ^ shift) by (apply Z.pow_pos_nonneg; lia).
  assert (Hle : 2 ^ shift <= 2 ^ 24) by (apply Z.pow_le_mono_r; lia).
  rewrite Z.shiftl_mul_pow2 by lia.
  rewrite wrap32_small by (change (2 ^ 32) with (256 * 2 ^ 24); nia).
  apply Z.mod_divide in Hmod; [ | lia].
  destruct Hmod as [q Hq]. subst acc.
  replace (Z.lor (q * 2 ^ (shift + 8)) (n * 2 ^ shift))
    with (Z.lor (Z.shiftl q (shift + 8)) (n * 2 ^ shift))
    by (rewrite Z.shiftl_mul_pow2 by lia; reflexivity).
  apply lor_halves; [lia | | nia].
  rewrite Hpow in Hacc. nia.
Qed.

Ltac pack_byte :=
  match goal with
  | |- context [Z.lor ?acc (wrap32 (Z.shiftl ?n ?shift))] =>
      lazymatch acc with
      | context [Z.lor] => fail
      | _ => rewrite (lor_byte acc n shift)
      end
  end;
  [ | lia | apply char_code_range
    | repeat match goal with
             | c : ascii |- _ =>
                 lazymatch goal with
                 | H : 0 <= char_code c < 256 |- _ => fail
                 | _ => pose proof (char_code_range c)
                 end
             end; lia
    | repeat match goal with
             | c : ascii |- _ =>
                 lazymatch goal with
                 | H : 0 <= char_code c < 256 |- _ => fail
                 | _ => pose proof (char_code_range c)
                 end
             end; Z.div_mod_to_equations; lia ].

Lemma pack_from_ascii (cs : list ascii) :
  (List.length cs <= 4)%nat ->
  Forall (fun c => char_code c < 128) cs ->
  pack_from 0 cs 0 = big_endian cs.
Proof.
  intros Hlen Hascii.
  destruct cs as [| c0 [| c1 [| c2 [| c3 [| c4 rest]]]]];
    try (simpl in Hlen; lia);
    repeat match goal with
           | H : Forall _ (_ :: _) |- _ => inversion H; subst; clear H
           end;
    unfold big_endian, byte_at; cbn [pack_from nth_error];
    rewrite ?char_to_uint32_ascii by assumption;
    change (24 - 0 * 8) with 24; change (24 - (0 + 1) * 8) with 16;
    change (24 - (0 + 1 + 1) * 8) with 8;
    change (24 - (0 + 1 + 1 + 1) * 8) with 0;
    repeat pack_byte;
    change (2 ^ 0) with 1; lia.
Qed.

Lemma get_nth_error (s : string) :
  forall k, String.get k s = nth_error (list_ascii_of_string s) k.
Proof.
  induction s as [| c s IH]; intros [| k]; simpl; auto.
Qed.

Lemma nth_error_firstn_lt {A : Type} (n : nat) (l : list A) :
  forall k, (k < n)%nat -> nth_error (firstn n l) k = nth_error l k.
Proof.
  revert l. induction n as [| n IH]; intros l k Hk; [lia |].
  destruct l as [| x l]; [reflexivity |].
  destruct k as [| k]; [reflexivity |].
  simpl. apply IH. lia.
Qed.

Lemma byte_at_range (cs : list ascii) (k : nat) : 0 <= byte_at cs k < 256.
Proof.
  unfold byte_at. destruct (nth_error cs k); [apply char_code_range | lia].
Qed.

Lemma big_endian_bytes (cs : list ascii) (k : nat) :
  (k < 4)%nat ->
  Z.land (Z.shiftr (big_endian cs) (24 - 8 * Z.of_nat k)) 255 = byte_at cs k.
Proof.
  intros Hk. unfold big_endian.
  pose proof (byte_at_range cs 0). pose proof (byte_at_range cs 1).
  pose proof (byte_at_range cs 2). pose proof (byte_at_range cs 3).
  change 255 with (Z.ones 8). rewrite Z.land_ones by lia.
  destruct k as [| [| [| [| k]]]]; try lia;
    cbn [Z.of_nat Pos.of_succ_nat Pos.succ Z.mul Pos.mul Z.sub Z.add Z.opp
         Z.pos_sub Pos.pred_double Z.succ_double Z.pred_double Z.double];
    rewrite Z.shiftr_div_pow2 by lia;
    change (2 ^ 24) with 16777216; change (2 ^ 16) with 65536;
    change (2 ^ 8) with 256; change (2 ^ 0) with 1;
    Z.div_mod_to_equations; lia.
Qed.

End SymbolCodes.

(** C6 as stated fails: the harness packs ["AAPL"] into [0x4141504C]
    (the last byte is ['L'] = 0x4C), not into the [0x41415054] that the
    generator's table carries. *)
Lemma symbol_code_AAPL_is_not_generator_code :
  FPGATradingSystemTest.symbol_code "AAPL" <> 0x41415054 /\
  FPGATradingSystemTest.symbol_code "AAPL" = 0x4141504C /\
  map MarketDataGenerator.code MarketDataGenerator.initializeSymbols
  <> map FPGATradingSystemTest.symbol_code FPGATradingSystemTest.symbols.
Proof.
  split; [ | split]; [ | reflexivity | ]; vm_compute; discriminate.
Qed.

(** C6, amended: for a symbol whose first four characters are ASCII
    (character codes below 128), the harness computes the entity code by
    packing up to those four characters big-endian into a 32-bit word: byte
    [k] from the top is character [k], or zero past the end of the symbol.
    In particular ["AAPL"] yields [0x4141504C], and the harness table is as
    listed.  The condition is needed: a character of code 128 or more is
    sign-extended, and the symbol of the two characters ['A'] and 0xC9
    yields [0xFFC90000], whose top byte is not ['A']. *)
Theorem symbol_code_big_endian (symbol : string) :
  (forall k c, (k < 4)%nat -> String.get k symbol = Some c -> char_code c < 128) ->
  0 <= FPGATradingSystemTest.symbol_code symbol < 2 ^ 32 /\
  (forall k, (k < 4)%nat ->
     Z.land (Z.shiftr (FPGATradingSystemTest.symbol_code symbol)
               (24 - 8 * Z.of_nat k)) 255
     = match String.get k symbol with
       | Some c => char_code c
       | None => 0
       end) /\
  FPGATradingSystemTest.symbol_code "AAPL" = 0x4141504C /\
  map FPGATradingSystemTest.symbol_code FPGATradingSystemTest.symbols
  = [0x4141504C; 0x474f4f47; 0x4d534654; 0x54534c41; 0x4e564441] /\
  FPGATradingSystemTest.symbol_code
    (String "A" (String (ascii_of_N 201) EmptyString)) = 0xFFC90000.
Proof.
  intros Hascii.
  set (cs := firstn 4 (list_ascii_of_string symbol)).
  assert (Hcode : FPGATradingSystemTest.symbol_code symbol = big_endian cs).
  { rewrite symbol_code_firstn. apply pack_from_ascii.
    - apply firstn_le_length.
    - apply Forall_forall. intros c Hin.
      apply In_nth_error in Hin. destruct Hin as [k Hk].
      assert (Hlt : (k < 4)%nat).
      { assert (nth_error cs k <> None) as Hsome by congruence.
        apply nth_error_Some in Hsome.
        pose proof (firstn_le_length 4 (list_ascii_of_string symbol)).
        fold cs in H. lia. }
      apply (Hascii k c Hlt).
      rewrite get_nth_error. unfold cs in Hk.
      rewrite nth_error_firstn_lt in Hk by exact Hlt. exact Hk. }
  split.
  { rewrite Hcode. unfold big_endian.
    pose proof (byte_at_range cs 0). pose proof (byte_at_range cs 1).
    pose proof (byte_at_range cs 2). pose proof (byte_at_range cs 3).
    lia. }
  split; [ | split; [reflexivity | split; reflexivity]].
  intros k Hk. rewrite Hcode, big_endian_bytes by exact Hk.
  unfold byte_at, cs. rewrite nth_error_firstn_lt by exact Hk.
  rewrite get_nth_error. reflexivity.
Qed.

(** ["GOOGL"]: only its first four characters are packed. *)
Lemma symbol_code_big_endian_witness :
  FPGATradingSystemTest.symbol_code "GOOGL" = 0x474f4f47 /\
  0 <= FPGATradingSystemTest.symbol_code "GOOGL" < 2 ^ 32.
Proof.
  split; [reflexivity |].
  refine (proj1 (symbol_code_big_endian "GOOGL" _)).
  intros k c Hk Hget.
  destruct k as [| [| [| [| k]]]]; try lia;
    simpl in Hget; inversion Hget; subst c; vm_compute; reflexivity.
Defined.

(** ** The statistics engine *)
Section Statistics.

Import FPGATradingSystemTest.

Lemma insert_sorted_perm (x : Z) (l : list Z) :
  Permutation (x :: l) (insert_sorted x l).
Proof.
  induction l as [| y l IH]; simpl; [reflexivity |].
  destruct (x <=? y); [reflexivity |].
  rewrite perm_swap. constructor. exact IH.
Qed.

Lemma std_sort_perm (l : list Z) : Permutation l (std_sort l).
Proof.
  induction l as [| x l IH]; simpl; [constructor |].
  rewrite <- insert_sorted_perm. constructor. exact IH.
Qed.

Lemma insert_sorted_Sorted (x : Z) (l : list Z) :
  Sorted Z.le l -> Sorted Z.le (insert_sorted x l).
Proof.
  induction l as [| y l IH]; intros Hs; simpl.
  - repeat constructor.
  - destruct (x <=? y) eqn:E.
    + apply Z.leb_le in E. constructor; [exact Hs | constructor; exact E].
    + apply Z.leb_gt in E. inversion Hs as [| ? ? Hs' Hhd]; subst.
      constructor; [apply IH; exact Hs' |].
      destruct l as [| z l]; simpl.
      * constructor. lia.
      * inversion Hhd; subst. destruct (x <=? z); constructor; lia.
Qed.

Lemma std_sort_Sorted (l : list Z) : Sorted Z.le (std_sort l).
Proof.
  induction l as [| x l IH]; simpl; [constructor |].
  apply insert_sorted_Sorted. exact IH.
Qed.

Lemma std_sort_length (l : list Z) : List.length (std_sort l) = List.length l.
Proof. symmetry. apply Permutation_length, std_sort_perm. Qed.

Lemma check_upto_sound (P : Z -> bool) (n : nat) :
  check_upto n P = true ->
  forall z, 1 <= z <= Z.of_nat n -> P z = true.
Proof.
  induction n as [| n IH]; intros Hall z Hz; [lia |].
  cbn [check_upto] in Hall. apply andb_prop in Hall. destruct Hall as [Hn Hrest].
  destruct (Z.eq_dec z (Z.of_nat (S n))) as [-> | Hne]; [exact Hn |].
  apply IH; [exact Hrest | lia].
Qed.

(** For every size the benchmark can reach, the binary64 product truncated
    to [size_t] is the exact integer quotient. *)
Lemma percentile_index_floor (q : float) (percent size : Z) :
  check_upto 1000 (percentile_index_exact q percent) = true ->
  1 <= size <= 1000 ->
  percentile_index size q = Some (size * percent / 100).
Proof.
  intros Hall Hsize.
  pose proof (check_upto_sound _ _ Hall size ltac:(lia)) as H.
  unfold percentile_index_exact in H.
  destruct (percentile_index size q) as [i |]; [ | discriminate].
  apply Z.eqb_eq in H. congruence.
Qed.

Lemma p95_checked : check_upto 1000 (percentile_index_exact 0.95 95) = true.
Proof. vm_compute. reflexivity. Qed.

Lemma p99_checked : check_upto 1000 (percentile_index_exact 0.99 99) = true.
Proof. vm_compute. reflexivity. Qed.

Lemma at_index_nth (l : list Z) (i : nat) :
  (i < List.length l)%nat ->
  at_index l (Z.of_nat i) = Some (nth i l 0).
Proof.
  intros Hi. unfold at_index. rewrite Nat2Z.id.
  apply nth_error_nth'. exact Hi.
Qed.

Lemma fold_wrap64_sum (l : list Z) (acc : Z) :
  fold_left (fun sum lat => wrap64 (sum + lat)) l (wrap64 acc)
  = wrap64 (fold_left Z.add l acc).
Proof.
  revert acc. induction l as [| x l IH]; intros acc; simpl; [reflexivity |].
  rewrite wrap64_add_l. apply IH.
Qed.

(** C3: on a non-empty latency vector (of at most the 1000 samples the
    benchmark collects) the statistics block sorts ascending and reports
    min = sorted[0], max = sorted[N-1], P50 = sorted[N/2] (integer
    division), P95 = sorted[floor(N*0.95)] = sorted[N*95/100],
    P99 = sorted[floor(N*0.99)] = sorted[N*99/100] and mean = sum/N in
    binary64, where sum is the (64-bit) sum of the samples; every index is in
    range.  For {2,4,4,4,5,5,7,9}: mean 5.0, P50 index 4 and value 5, min 2,
    max 9. *)
Theorem latency_statistics_sorted_percentiles :
  (forall latencies : list Z,
     latencies <> [] ->
     (List.length latencies <= 1000)%nat ->
     let sorted := std_sort latencies in
     let N := List.length latencies in
     let sum := wrap64 (fold_left Z.add sorted 0) in
     Sorted Z.le sorted /\
     Permutation latencies sorted /\
     (N / 2 < N)%nat /\ (N * 95 / 100 < N)%nat /\ (N * 99 / 100 < N)%nat /\
     latency_statistics latencies
     = Some {| avg_latency := (Double.of_u64 sum / Double.of_u64 (Z.of_nat N))%float;
               p50_latency := nth (N / 2) sorted 0;
               p95_latency := nth (N * 95 / 100) sorted 0;
               p99_latency := nth (N * 99 / 100) sorted 0;
               front := nth 0 sorted 0;
               back := nth (N - 1) sorted 0 |}) /\
  latency_statistics [2; 4; 4; 4; 5; 5; 7; 9]
  = Some {| avg_latency := 5.0; p50_latency := 5; p95_latency := 9;
            p99_latency := 9; front := 2; back := 9 |} /\
  (List.length [2; 4; 4; 4; 5; 5; 7; 9] / 2)%nat = 4%nat /\
  nth 4 (std_sort [2; 4; 4; 4; 5; 5; 7; 9]) 0 = 5.
Proof.
  split; [ | split; [vm_compute; reflexivity | split; reflexivity]].
  intros latencies Hne Hlen sorted N sum.
  assert (HN : (0 < N)%nat).
  { subst N. destruct latencies; [congruence | simpl; lia]. }
  assert (Hsl : List.length sorted = N) by apply std_sort_length.
  assert (H50 : (N / 2 < N)%nat) by (apply Nat.div_lt; lia).
  assert (H95 : (N * 95 / 100 < N)%nat)
    by (apply Nat.Div0.div_lt_upper_bound; lia).
  assert (H99 : (N * 99 / 100 < N)%nat)
    by (apply Nat.Div0.div_lt_upper_bound; lia).
  split; [apply std_sort_Sorted |].
  split; [apply std_sort_perm |].
  do 3 (split; [assumption |]).
  unfold latency_statistics. fold sorted. rewrite Hsl.
  change 0 with (wrap64 0) at 1. rewrite fold_wrap64_sum. fold sum.
  replace (Z.of_nat N / 2) with (Z.of_nat (N / 2))
    by (rewrite Nat2Z.inj_div; reflexivity).
  rewrite at_index_nth by lia. cbn [bind].
  rewrite (percentile_index_floor 0.95 95) by (exact p95_checked || lia).
  cbn [bind].
  replace (Z.of_nat N * 95 / 100) with (Z.of_nat (N * 95 / 100))
    by (rewrite Nat2Z.inj_div, Nat2Z.inj_mul; reflexivity).
  rewrite at_index_nth by lia. cbn [bind].
  rewrite (percentile_index_floor 0.99 99) by (exact p99_checked || lia).
  cbn [bind].
  replace (Z.of_nat N * 99 / 100) with (Z.of_nat (N * 99 / 100))
    by (rewrite Nat2Z.inj_div, Nat2Z.inj_mul; reflexivity).
  rewrite at_index_nth by lia. cbn [bind].
  replace (Z.of_nat N - 1) with (Z.of_nat (N - 1)) by lia.
  rewrite at_index_nth by lia.
  destruct sorted as [| x rest] eqn:Es; [simpl in Hsl; lia |].
  reflexivity.
Qed.

(** The same eight samples, unsorted. *)
Lemma latency_statistics_sorted_percentiles_witness :
  latency_statistics [9; 4; 5; 2; 7; 4; 5; 4]
  = Some {| avg_latency := 5.0; p50_latency := 5; p95_latency := 9;
            p99_latency := 9; front := 2; back := 9 |}.
Proof.
  destruct (proj1 latency_statistics_sorted_percentiles
              [9; 4; 5; 2; 7; 4; 5; 4] ltac:(discriminate) ltac:(simpl; lia))
    as (_ & _ & _ & _ & _ & ->).
  vm_compute. reflexivity.
Defined.

End Statistics.

(** ** The pricing unit: one evaluation *)
Section DeviceFacts.

Import Vhjb_calculator.

Lemma act_region_closed (v : root) :
  eval_act_region 102 (set_VactContinue true (set_VactIterCount 0 v))
  = Some (act_settled v).
Proof.
  destruct v as [c r en dn st pc pr ac inv lat cc ic mp vol ob oa rp sp ta tn di].
  destruct c, r, pc, pr; reflexivity.
Qed.

(** The clocked process writes outputs and internal registers only. *)
Lemma nba_sequent_frame (v : root) :
  let w := nba_sequent__TOP__0 v in
  clk w = clk v /\ rst_n w = rst_n v /\ calculate_en w = calculate_en v /\
  prev_clk w = prev_clk v /\ prev_rst_n w = prev_rst_n v /\
  inventory w = inventory v /\ mid_price w = mid_price v /\
  volatility w = volatility v /\ VnbaTriggered w = VnbaTriggered v /\
  Vm_didInit w = Vm_didInit v.
Proof.
  destruct v as [c r en dn st pc pr ac inv lat cc ic mp vol ob oa rp sp ta tn di].
  unfold nba_sequent__TOP__0.
  cbn [rst_n state calculate_en].
  repeat match goal with
         | |- context [if ?b then _ else _] => destruct b
         end; cbn; repeat split; reflexivity.
Qed.

Lemma eval_root_closed (v : root) : eval_root v = Some (eval_closed v).
Proof.
  unfold eval_root, eval_closed.
  change 102%nat with (S (S 100)) at 1.
  cbn [eval_nba_region].
  change (0x64 <? 0) with false. cbv iota.
  rewrite act_region_closed. cbn [bind].
  unfold eval_phase__nba, eval_nba.
  destruct (trig_any (VnbaTriggered (act_settled v))) eqn:Epending.
  - change (0x64 <? wrap32 (1 + 0)) with false. cbv iota.
    rewrite act_region_closed. cbn [bind].
    set (w := set_VnbaTriggered trig_clear (nba_sequent__TOP__0 (act_settled v))).
    assert (Hquiet : trig_any (VnbaTriggered (act_settled w)) = false).
    { destruct (nba_sequent_frame (act_settled v))
        as (Hc & Hr & _ & Hpc & Hpr & _).
      unfold act_settled at 1. cbn [VnbaTriggered].
      assert (Hedge : edge w = trig_clear).
      { unfold edge, w. cbn [clk rst_n prev_clk prev_rst_n set_VnbaTriggered].
        rewrite Hc, Hr, Hpc, Hpr. cbn [clk rst_n prev_clk prev_rst_n act_settled].
        destruct (clk v), (rst_n v); reflexivity. }
      rewrite Hedge. reflexivity. }
    rewrite Hquiet. reflexivity.
  - reflexivity.
Qed.

Lemma trig_any_false (t : VlTriggerVec) : trig_any t = false -> t = trig_clear.
Proof.
  destruct t as [a b]. unfold trig_any. cbn.
  destruct a, b; intros H; try discriminate H. reflexivity.
Qed.

(** [eval()] never aborts, leaves the input ports alone, and leaves the
    model settled. *)
Lemma eval_spec (v : root) :
  exists v',
    eval v = Some v' /\
    clk v' = clk v /\ rst_n v' = rst_n v /\ calculate_en v' = calculate_en v /\
    inventory v' = inventory v /\ mid_price v' = mid_price v /\
    volatility v' = volatility v /\
    settled v'.
Proof.
  unfold eval. rewrite eval_root_closed.
  set (u := if negb (Vm_didInit v) then eval_static (set_Vm_didInit true v) else v).
  assert (Hu : clk u = clk v /\ rst_n u = rst_n v /\
               calculate_en u = calculate_en v /\ inventory u = inventory v /\
               mid_price u = mid_price v /\ volatility u = volatility v /\
               Vm_didInit u = true).
  { subst u. destruct (Vm_didInit v) eqn:E; cbn; rewrite ?E; repeat split. }
  destruct Hu as (Hc & Hr & Hen & Hinv & Hmp & Hvol & Hdi).
  eexists. split; [reflexivity |].
  unfold eval_closed.
  destruct (trig_any (VnbaTriggered (act_settled u))) eqn:Epending.
  - destruct (nba_sequent_frame (act_settled u))
      as (Hc' & Hr' & Hen' & Hpc' & Hpr' & Hinv' & Hmp' & Hvol' & Hnba' & Hdi').
    set (w := set_VnbaTriggered trig_clear (nba_sequent__TOP__0 (act_settled u))).
    assert (Hedge : edge w = trig_clear).
    { unfold edge, w. cbn [clk rst_n prev_clk prev_rst_n set_VnbaTriggered].
      rewrite Hc', Hr', Hpc', Hpr'. cbn [clk rst_n prev_clk prev_rst_n act_settled].
      destruct (clk u), (rst_n u); reflexivity. }
    unfold act_settled at 1 2 3 4 5 6 7. unfold settled.
    cbn [clk rst_n calculate_en inventory mid_price volatility Vm_didInit
         prev_clk prev_rst_n VnbaTriggered].
    rewrite Hedge. subst w.
    cbn [clk rst_n calculate_en inventory mid_price volatility Vm_didInit
         prev_clk prev_rst_n VnbaTriggered set_VnbaTriggered trig_any
         posedge_clk negedge_rst_n trig_clear orb].
    rewrite Hc', Hr', Hen', Hinv', Hmp', Hvol', Hdi'.
    cbn [clk rst_n calculate_en inventory mid_price volatility Vm_didInit
         act_settled].
    repeat split; assumption.
  - apply trig_any_false in Epending.
    unfold settled. rewrite Epending.
    cbn [clk rst_n calculate_en inventory mid_price volatility Vm_didInit
         prev_clk prev_rst_n act_settled].
    repeat split; assumption.
Qed.

(** On a settled model whose clock and reset have not moved, [eval()] runs
    no process: only the loop bookkeeping changes. *)
Lemma eval_settled (v : root) :
  settled v -> eval v = Some (act_settled v).
Proof.
  intros (Hdi & Hpc & Hpr & Hnba).
  unfold eval. rewrite Hdi. cbn [negb]. rewrite eval_root_closed.
  unfold eval_closed.
  assert (Hedge : edge v = trig_clear).
  { unfold edge. rewrite Hpc, Hpr. destruct (clk v), (rst_n v); reflexivity. }
  unfold act_settled at 1. cbn [VnbaTriggered]. rewrite Hedge, Hnba.
  reflexivity.
Qed.

Lemma act_settled_settled (v : root) :
  settled v -> settled (act_settled v).
Proof.
  intros (Hdi & Hpc & Hpr & Hnba).
  assert (Hedge : edge v = trig_clear).
  { unfold edge. rewrite Hpc, Hpr. destruct (clk v), (rst_n v); reflexivity. }
  unfold settled, act_settled.
  cbn [clk rst_n Vm_didInit prev_clk prev_rst_n VnbaTriggered].
  rewrite Hedge, Hnba, Hdi. repeat split.
Qed.

End DeviceFacts.

(** ** The bridge *)
Section BridgeFacts.

Import Vhjb_calculator hjb_wrapper.

Lemma toggle_clock_spec (m : root) (t : Z) :
  exists m',
    toggle_clock (m, t) = Some (m', wrap64 (t + 1)) /\
    eval (set_clk (negb (clk m)) m) = Some m' /\
    calculate_en m' = calculate_en m /\ rst_n m' = rst_n m /\
    clk m' = negb (clk m) /\ settled m'.
Proof.
  destruct (eval_spec (set_clk (negb (clk m)) m))
    as (m' & Heval & Hc & Hr & Hen & _ & _ & _ & Hs).
  exists m'. unfold toggle_clock. rewrite Heval. cbn [bind].
  destruct m. cbn in Hc, Hr, Hen.
  split; [reflexivity |]. split; [reflexivity |].
  repeat split; first [assumption | apply Hs].
Qed.

(** The clocking loop with [n] ticks of its budget left: it returns, after
    [j <= n] passes; it has used the whole budget when the done signal is
    still low. *)
Lemma clock_until_done_spec (start_time : Z) (n : nat) :
  forall (fuel : nat) (m : root) (t : Z),
    (n <= fuel)%nat ->
    wrap64 (t - start_time) + Z.of_nat n = 1000 ->
    exists (m' : root) (t' : Z) (j : nat),
      clock_until_done fuel start_time (m, t) = Some (m', t') /\
      clock_until_done n start_time (m, t) = Some (m', t') /\
      (j <= n)%nat /\
      wrap64 (t' - start_time) = wrap64 (t - start_time) + Z.of_nat j /\
      calculate_en m' = calculate_en m /\
      rst_n m' = rst_n m /\
      (calculation_done m' = false -> j = n) /\
      (settled m -> settled m') /\
      (j = 0%nat -> m' = m /\ t' = t).
Proof.
  induction n as [| n IH]; intros fuel m t Hfuel Hbudget.
  - exists m, t, 0%nat.
    assert (Hguard : (wrap64 (t - start_time) <? 1000) = false)
      by (apply Z.ltb_ge; lia).
    split.
    { destruct fuel; cbn [clock_until_done fst snd];
        rewrite Hguard, andb_false_r; reflexivity. }
    split.
    { cbn [clock_until_done fst snd]. rewrite Hguard, andb_false_r. reflexivity. }
    split; [lia |]. split; [lia |]. split; [reflexivity |].
    split; [reflexivity |]. split; [reflexivity |]. auto.
  - destruct fuel as [| fuel]; [lia |].
    destruct (calculation_done m) eqn:Edone.
    + exists m, t, 0%nat.
      cbn [clock_until_done fst snd]. rewrite Edone. cbn [negb andb].
      split; [reflexivity |]. split; [reflexivity |].
      split; [lia |]. split; [lia |]. split; [reflexivity |].
      split; [reflexivity |].
      split; [intros H; discriminate H | auto].
    + assert (Hguard : (wrap64 (t - start_time) <? 1000) = true)
        by (apply Z.ltb_lt; lia).
      destruct (toggle_clock_spec m t) as (m1 & Htog & _ & Hen1 & Hr1 & _ & Hs1).
      assert (Hel : wrap64 (wrap64 (t + 1) - start_time)
                    = wrap64 (t - start_time) + 1).
      { rewrite wrap64_elapsed. apply wrap64_small.
        pose proof (wrap64_range (t - start_time)). lia. }
      destruct (IH fuel m1 (wrap64 (t + 1)) ltac:(lia) ltac:(lia))
        as (m' & t' & j & Hrun & Hrun' & Hj & Helapsed & Hen & Hr & Hlow & Hs & _).
      exists m', t', (S j).
      cbn [clock_until_done fst snd]. rewrite Edone, Hguard. cbn [negb andb].
      rewrite Htog. cbn [bind].
      split; [exact Hrun |]. split; [exact Hrun' |].
      split; [lia |].
      split; [lia |].
      split; [congruence |].
      split; [congruence |].
      split; [intros H; specialize (Hlow H); lia |].
      split; [intros _; apply Hs, Hs1 | intros H; discriminate H].
Qed.

Lemma drive_request_fields (mid : Double.double) (inv : Z) (vol : Double.double)
    (m : root) :
  let m1 := drive_request mid inv vol m in
  calculate_en m1 = true /\ rst_n m1 = rst_n m /\ clk m1 = clk m /\
  calculation_done m1 = calculation_done m /\
  optimal_bid m1 = optimal_bid m /\ optimal_ask m1 = optimal_ask m /\
  latency_cycles m1 = latency_cycles m /\
  (settled m -> settled m1).
Proof.
  destruct m. unfold settled. cbn. intuition auto.
Qed.

(** [hjb_calculate] on a live handle: it always returns; at most 1000 clock
    toggles pass; it either succeeds, or fails with [-1] after the whole
    budget with compute-enable left high and the caller's structure
    untouched. *)
Lemma hjb_calculate_live (fuel : nat) (mid : Double.double) (inv : Z)
    (vol : Double.double)
    (res : HJBResult) (m : root) (t : Z) :
  (1000 <= fuel)%nat ->
  exists (rc : Z) (res' : HJBResult) (m' : root) (t' : Z) (j : nat),
    hjb_calculate fuel mid inv vol res (mkBridge (Some m) t)
    = Some (rc, res', mkBridge (Some m') t') /\
    hjb_calculate CALCULATE_BOUND mid inv vol res (mkBridge (Some m) t)
    = Some (rc, res', mkBridge (Some m') t') /\
    (j <= 1000)%nat /\
    wrap64 (t' - t) = Z.of_nat j /\
    settled m' /\
    rst_n m' = rst_n m /\
    ((rc = 0 /\ calculation_done m' = true /\ calculate_en m' = false /\
      res' = result_of m') \/
     (rc = -1 /\ calculation_done m' = false /\ calculate_en m' = true /\
      res' = res /\ j = 1000%nat)).
Proof.
  intros Hfuel.
  unfold hjb_calculate. cbn [hjb_module main_time].
  fold (drive_request mid inv vol m).
  destruct (drive_request_fields mid inv vol m)
    as (Hen1 & Hr1 & _ & _ & _ & _ & _ & _).
  destruct (eval_spec (drive_request mid inv vol m))
    as (m2 & Heval2 & _ & Hr2 & Hen2 & _ & _ & _ & Hs2).
  rewrite Heval2. cbn [bind].
  assert (Hzero : wrap64 (t - t) = 0) by (rewrite Z.sub_diag; reflexivity).
  destruct (clock_until_done_spec t 1000 fuel m2 t Hfuel ltac:(lia))
    as (m3 & t3 & j & Hrun & Hrun' & Hj & Hel & Hen3 & Hr3 & Hlow & Hs3 & _).
  unfold CALCULATE_BOUND.
  rewrite Hrun, Hrun'. cbn [bind].
  destruct (calculation_done m3) eqn:Edone.
  - assert (Hs4 : settled (set_calculate_en false m3)) by exact (Hs3 Hs2).
    rewrite (eval_settled _ Hs4). cbn [bind].
    exists 0, (result_of m3), (act_settled (set_calculate_en false m3)), t3, j.
    split; [reflexivity |]. split; [reflexivity |].
    split; [exact Hj |].
    split; [lia |].
    split; [apply act_settled_settled; exact Hs4 |].
    split.
    { change (rst_n (act_settled (set_calculate_en false m3))) with (rst_n m3).
      congruence. }
    left. split; [reflexivity |]. split; [exact Edone |].
    split; reflexivity.
  - exists (-1), res, m3, t3, j.
    split; [reflexivity |]. split; [reflexivity |].
    split; [exact Hj |].
    split; [lia |].
    split; [apply Hs3; exact Hs2 |].
    split; [congruence |].
    right. split; [reflexivity |]. split; [exact Edone |].
    split; [congruence |]. split; [reflexivity | apply Hlow; reflexivity].
Qed.

(** [hjb_calculate] on a settled model whose done signal is already high:
    no clock toggle, and the outputs that are there come back. *)
Lemma hjb_calculate_already_done (fuel : nat) (mid : Double.double) (inv : Z)
    (vol : Double.double) (res : HJBResult) (m : root) (t : Z) :
  settled m ->
  calculation_done m = true ->
  exists m',
    hjb_calculate fuel mid inv vol res (mkBridge (Some m) t)
    = Some (0, result_of m, mkBridge (Some m') t) /\
    clk m' = clk m /\
    settled m' /\
    calculation_done m' = true /\
    result_of m' = result_of m.
Proof.
  intros Hs Hdone.
  unfold hjb_calculate. cbn [hjb_module main_time].
  fold (drive_request mid inv vol m).
  destruct (drive_request_fields mid inv vol m)
    as (_ & _ & _ & Hd1 & Hb1 & Ha1 & Hl1 & Hs1).
  specialize (Hs1 Hs).
  rewrite (eval_settled _ Hs1). cbn [bind].
  set (m2 := act_settled (drive_request mid inv vol m)).
  assert (Hd2 : calculation_done m2 = true)
    by (subst m2; cbn [act_settled calculation_done]; congruence).
  assert (Hloop : clock_until_done fuel t (m2, t) = Some (m2, t)).
  { destruct fuel; cbn [clock_until_done fst snd]; rewrite Hd2; reflexivity. }
  rewrite Hloop. cbn [bind]. rewrite Hd2.
  assert (Hs2 : settled m2) by (apply act_settled_settled; exact Hs1).
  assert (Hs3 : settled (set_calculate_en false m2)) by exact Hs2.
  rewrite (eval_settled _ Hs3). cbn [bind].
  assert (Hres : result_of m2 = result_of m).
  { subst m2. unfold result_of.
    cbn [act_settled optimal_bid optimal_ask latency_cycles].
    rewrite Hb1, Ha1, Hl1. reflexivity. }
  exists (act_settled (set_calculate_en false m2)).
  split; [rewrite <- Hres; reflexivity |].
  split; [reflexivity |].
  split; [apply act_settled_settled; exact Hs3 |].
  split; [exact Hd2 |].
  rewrite <- Hres. reflexivity.
Qed.


Lemma iter_tick_pos (n : nat) (t : Z) :
  Nat.iter (S n) tick t = wrap64 (t + Z.of_nat (S n)).
Proof.
  induction n as [| n IH]; [reflexivity |].
  change (Nat.iter (S (S n)) tick t) with (tick (Nat.iter (S n) tick t)).
  rewrite IH. unfold tick. rewrite wrap64_succ. f_equal. lia.
Qed.

Lemma repeatM_toggle_clock (n : nat) :
  forall (m : root) (t : Z),
    repeatM n toggle_clock (m, t)
    = (m' <- run_toggles n m ;; Some (m', Nat.iter n tick t)).
Proof.
  induction n as [| n IH]; intros m t; [reflexivity |].
  cbn [repeatM run_toggles]. unfold toggle_clock at 1.
  destruct (eval (set_clk (negb (clk m)) m)) as [m1 |]; [ | reflexivity].
  cbn [bind]. rewrite IH.
  destruct (run_toggles n m1) as [m' |]; [ | reflexivity].
  cbn [bind]. f_equal. f_equal.
  clear. induction n as [| n IH]; [reflexivity |].
  change (Nat.iter (S n) tick (wrap64 (t + 1)))
    with (tick (Nat.iter n tick (wrap64 (t + 1)))).
  rewrite IH. reflexivity.
Qed.

(** The reset sequence of [hjb_init] on any fresh model. *)
Lemma reset_sequence (m0 : root) :
  Vm_didInit m0 = false ->
  VactTriggered m0 = trig_clear ->
  VnbaTriggered m0 = trig_clear ->
  (m1 <- eval (set_calculate_en false (set_clk false (set_rst_n false m0))) ;;
   m2 <- run_toggles 5 m1 ;;
   eval (set_rst_n true m2))
  = Some (after_reset m0).
Proof.
  destruct m0 as [c r en dn st pc pr ac inv lat cc ic mp vol ob oa rp sp ta tn di].
  cbn [Vm_didInit VactTriggered VnbaTriggered].
  intros -> -> ->. vm_compute. reflexivity.
Qed.

Lemma hjb_init_fresh (rnd : Z -> Z) (t : Z) :
  hjb_init rnd (mkBridge None t)
  = Some (0, mkBridge (Some (after_reset (ctor_var_reset rnd))) (wrap64 (t + 5))).
Proof.
  pose proof (reset_sequence (ctor_var_reset rnd) eq_refl eq_refl eq_refl) as Hseq.
  apply bind_inv in Hseq. destruct Hseq as (m1 & E1 & Hseq).
  apply bind_inv in Hseq. destruct Hseq as (m2 & E2 & E3).
  unfold hjb_init. cbn [hjb_module main_time].
  rewrite E1, bind_Some. cbv beta.
  rewrite repeatM_toggle_clock, E2, !bind_Some. cbv beta iota.
  rewrite E3, bind_Some.
  rewrite (iter_tick_pos 4 t). reflexivity.
Qed.

Lemma iter_tick_shift (n : nat) (t : Z) :
  Nat.iter n tick (tick t) = Nat.iter (S n) tick t.
Proof.
  induction n as [| n IH]; [reflexivity |].
  change (Nat.iter (S n) tick (tick t)) with (tick (Nat.iter n tick (tick t))).
  rewrite IH. reflexivity.
Qed.

(** The clocking loop when the done signal rises after exactly [n] toggles
    within the budget. *)
Lemma clock_until_done_run (start_time : Z) (n : nat) :
  forall (fuel : nat) (m : root) (t : Z) (m' : root),
    (n <= fuel)%nat ->
    wrap64 (t - start_time) + Z.of_nat n <= 1000 ->
    quiet_run n m = Some m' ->
    calculation_done m' = true ->
    clock_until_done fuel start_time (m, t) = Some (m', Nat.iter n tick t).
Proof.
  induction n as [| n IH]; intros fuel m t m' Hfuel Hbudget Hrun Hdone.
  - cbn [quiet_run] in Hrun. injection Hrun as ->.
    destruct fuel; cbn [clock_until_done fst snd]; rewrite Hdone; reflexivity.
  - destruct fuel as [| fuel]; [lia |].
    cbn [quiet_run] in Hrun.
    destruct (calculation_done m) eqn:Elow; [discriminate Hrun |].
    apply bind_inv in Hrun. destruct Hrun as (m1 & E1 & Hrun).
    pose proof (wrap64_range (t - start_time)) as Hrange.
    assert (Hguard : (wrap64 (t - start_time) <? 1000) = true)
      by (apply Z.ltb_lt; lia).
    cbn [clock_until_done fst snd]. rewrite Elow, Hguard. cbn [negb andb].
    unfold toggle_clock at 1. rewrite E1, !bind_Some.
    rewrite <- iter_tick_shift.
    apply IH; try assumption; [lia |].
    unfold tick. rewrite wrap64_elapsed, wrap64_small; lia.
Qed.

(** The clocking loop with [n] ticks of its budget left: it makes [j <= n]
    toggles, each with the done signal low before it, and stops at the first
    state with the done signal high, or else when the budget is used up. *)
Lemma clock_until_done_stops (start_time : Z) (n : nat) :
  forall (fuel : nat) (m : root) (t : Z),
    (n <= fuel)%nat ->
    wrap64 (t - start_time) + Z.of_nat n = 1000 ->
    exists (m' : root) (j : nat),
      (j <= n)%nat /\
      quiet_run j m = Some m' /\
      (calculation_done m' = true \/ j = n) /\
      calculate_en m' = calculate_en m /\
      clock_until_done fuel start_time (m, t) = Some (m', Nat.iter j tick t).
Proof.
  induction n as [| n IH]; intros fuel m t Hfuel Hbudget.
  - exists m, 0%nat.
    assert (Hguard : (wrap64 (t - start_time) <? 1000) = false)
      by (apply Z.ltb_ge; lia).
    split; [lia |]. split; [reflexivity |]. split; [right; reflexivity |].
    split; [reflexivity |].
    destruct fuel; cbn [clock_until_done fst snd];
      rewrite Hguard, andb_false_r; reflexivity.
  - destruct fuel as [| fuel]; [lia |].
    destruct (calculation_done m) eqn:Edone.
    + exists m, 0%nat.
      split; [lia |]. split; [reflexivity |]. split; [left; exact Edone |].
      split; [reflexivity |].
      cbn [clock_until_done fst snd]. rewrite Edone. reflexivity.
    + assert (Hguard : (wrap64 (t - start_time) <? 1000) = true)
        by (apply Z.ltb_lt; lia).
      destruct (toggle_clock_spec m t) as (m1 & Htog & Heval & Hen1 & _).
      assert (Hel : wrap64 (wrap64 (t + 1) - start_time)
                    = wrap64 (t - start_time) + 1).
      { rewrite wrap64_elapsed. apply wrap64_small.
        pose proof (wrap64_range (t - start_time)). lia. }
      destruct (IH fuel m1 (wrap64 (t + 1)) ltac:(lia) ltac:(lia))
        as (m' & j & Hj & Hrun & Hstop & Hen & Hloop).
      exists m', (S j).
      split; [lia |].
      split.
      { cbn [quiet_run]. rewrite Edone, Heval, bind_Some. exact Hrun. }
      split; [destruct Hstop as [Hd | ->]; [left; exact Hd | right; reflexivity] |].
      split; [congruence |].
      cbn [clock_until_done fst snd]. rewrite Edone, Hguard. cbn [negb andb].
      rewrite Htog, bind_Some, Hloop.
      change (wrap64 (t + 1)) with (tick t). rewrite iter_tick_shift. reflexivity.
Qed.

(** The stopping point of the loop is determined by the model. *)
Lemma quiet_run_stop_unique (j : nat) :
  forall (j' n : nat) (m m3 m3' : root),
    quiet_run j m = Some m3 ->
    quiet_run j' m = Some m3' ->
    calculation_done m3 = true \/ j = n ->
    calculation_done m3' = true \/ j' = n ->
    (j <= n)%nat -> (j' <= n)%nat ->
    j' = j /\ m3' = m3.
Proof.
  induction j as [| j IH]; intros j' n m m3 m3' Hrun Hrun' Hstop Hstop' Hj Hj'.
  - cbn [quiet_run] in Hrun. injection Hrun as ->.
    destruct j' as [| j'].
    + cbn [quiet_run] in Hrun'. injection Hrun' as ->. auto.
    + destruct Hstop as [Hd | Hn]; [| lia].
      cbn [quiet_run] in Hrun'. rewrite Hd in Hrun'. discriminate Hrun'.
  - cbn [quiet_run] in Hrun.
    destruct (calculation_done m) eqn:Ed; [discriminate Hrun |].
    apply bind_inv in Hrun. destruct Hrun as (m1 & E1 & Hrun).
    destruct j' as [| j'].
    + cbn [quiet_run] in Hrun'. injection Hrun' as <-.
      destruct Hstop' as [Hd | Hn]; [congruence | lia].
    + cbn [quiet_run] in Hrun'. rewrite Ed, E1, bind_Some in Hrun'.
      destruct n as [| n]; [lia |].
      destruct (IH j' n m1 m3 m3' Hrun Hrun') as (-> & ->); try lia; auto.
      * destruct Hstop as [Hd | Hn]; [left; exact Hd | right; lia].
      * destruct Hstop' as [Hd | Hn]; [left; exact Hd | right; lia].
Qed.

(** Of [n] toggles at most every second one is a rising edge. *)
Lemma rising_edges_half (n : nat) :
  forall c, 2 * rising_edges n c = Z.of_nat n + (if c then 0 else 1) * (Z.of_nat n mod 2)
            - (if c then 1 else 0) * (Z.of_nat n mod 2).
Proof.
  unfold rising_edges.
  induction n as [| n IH]; intros c; [destruct c; reflexivity |].
  cbn [driven_levels count_occ].
  specialize (IH (negb c)).
  replace (Z.of_nat (S n)) with (Z.of_nat n + 1) by lia.
  destruct c; cbn [negb] in *;
    destruct (Bool.bool_dec _ true) as [E | E]; try discriminate E;
    try (exfalso; apply E; reflexivity);
    rewrite ?Nat2Z.inj_succ; Z.div_mod_to_equations; lia.
Qed.

(** [hjb_calculate] when the model answers after exactly [n] toggles. *)
Lemma hjb_calculate_run (fuel n : nat) (mid : Double.double) (inv : Z)
    (vol : Double.double)
    (res : HJBResult) (m m2 m3 m4 : root) (t : Z) :
  (n <= fuel)%nat -> (n <= 1000)%nat ->
  eval (drive_request mid inv vol m) = Some m2 ->
  quiet_run n m2 = Some m3 ->
  calculation_done m3 = true ->
  eval (set_calculate_en false m3) = Some m4 ->
  hjb_calculate fuel mid inv vol res (mkBridge (Some m) t)
  = Some (0, result_of m3, mkBridge (Some m4) (Nat.iter n tick t)).
Proof.
  intros Hfuel Hn E2 Hrun Hdone E4.
  unfold hjb_calculate. cbn [hjb_module main_time].
  fold (drive_request mid inv vol m).
  rewrite E2, bind_Some.
  rewrite (clock_until_done_run t n fuel m2 t m3 Hfuel); try assumption.
  - rewrite bind_Some. cbv beta iota. rewrite Hdone, E4, bind_Some. reflexivity.
  - rewrite Z.sub_diag. change (wrap64 0) with 0. lia.
Qed.

Lemma eval_pure_eq (v : root) : eval v = Some (eval_pure v).
Proof. unfold eval, eval_pure. apply eval_root_closed. Qed.

Lemma quiet_run_toggles (n : nat) :
  forall m, quiet_run n m = quiet_toggles n m.
Proof.
  induction n as [| n IH]; intros m; [reflexivity |].
  cbn [quiet_run quiet_toggles].
  destruct (calculation_done m); [reflexivity |].
  rewrite eval_pure_eq, bind_Some. apply IH.
Qed.

(** The first request after reset, for any input bit patterns: the model
    walks through its four computing states and raises done after ten
    toggles (five rising edges). *)
Lemma first_request_sequence (m0 : root) (mid inventory volatility : Z) :
  let m1 := set_calculate_en true
              (set_volatility volatility
                 (set_inventory inventory
                    (set_mid_price mid (after_reset m0)))) in
  exists m2,
    eval m1 = Some m2 /\
    quiet_run 10 m2 = Some (after_first_request true 1 mid inventory volatility) /\
    eval (set_calculate_en false
            (after_first_request true 1 mid inventory volatility))
    = Some (after_first_request false 1 mid inventory volatility).
Proof.
  destruct m0 as [c r en dn st pc pr ac inv lat cc ic mp vol ob oa rp sp ta tn di].
  eexists.
  split; [apply eval_pure_eq |].
  split.
  - rewrite quiet_run_toggles.
    lazy -[wrap64 wrap32 Z.add Z.sub VL_SHIFTL_QQI VL_SHIFTR_QQI].
    reflexivity.
  - rewrite eval_pure_eq.
    lazy -[wrap64 wrap32 Z.add Z.sub VL_SHIFTL_QQI VL_SHIFTR_QQI].
    reflexivity.
Qed.

(** The first request after [hjb_init], for any arguments. *)
Lemma first_request (fuel : nat) (mid : Double.double) (inv : Z) (vol : Double.double)
    (res : HJBResult) (m0 : root) (t : Z) :
  (10 <= fuel)%nat ->
  hjb_calculate fuel mid inv vol res (mkBridge (Some (after_reset m0)) t)
  = Some (0,
          result_of (after_first_request true 1 (Double.to_bits mid)
                       (wrap32 inv) (Double.to_bits vol)),
          mkBridge
            (Some (after_first_request false 1 (Double.to_bits mid)
                     (wrap32 inv) (Double.to_bits vol)))
            (Nat.iter 10 tick t)).
Proof.
  intros Hfuel.
  destruct (first_request_sequence m0 (Double.to_bits mid) (wrap32 inv)
              (Double.to_bits vol)) as (m2 & E2 & Hrun & E4).
  apply (hjb_calculate_run fuel 10 mid inv vol res (after_reset m0) m2
           (after_first_request true 1 (Double.to_bits mid) (wrap32 inv)
              (Double.to_bits vol))); try assumption; try lia.
  reflexivity.
Qed.

End BridgeFacts.

(** ** The bridge: the claims *)

(** C5 as stated fails in its unit: the bound of [hjb_calculate] is 1000
    ticks of [main_time], which counts clock toggles, two to a clock cycle.
    On a pricing unit held in reset, which never raises done, the call times
    out after exactly 1000 toggles, in which the clock rose 500 times: after
    500 clock cycles, not 1000. *)
Lemma hjb_calculate_times_out_after_500_cycles :
  exists (m2 m3 : Vhjb_calculator.root),
    Vhjb_calculator.eval
      (drive_request (Double.of_float 150.0) 0 (Double.of_float 0.02)
         Examples.held_in_reset) = Some m2 /\
    quiet_run 1000 m2 = Some m3 /\
    Vhjb_calculator.calculation_done m3 = false /\
    hjb_wrapper.hjb_calculate hjb_wrapper.CALCULATE_BOUND
      (Double.of_float 150.0) 0 (Double.of_float 0.02) Examples.blank_result
      (hjb_wrapper.mkBridge (Some Examples.held_in_reset) 0)
    = Some (-1, Examples.blank_result, hjb_wrapper.mkBridge (Some m3) 1000) /\
    rising_edges 1000 (Vhjb_calculator.clk m2) = 500 /\
    500 < 1000.
Proof.
  eexists. eexists.
  split; [vm_compute; reflexivity |].
  split; [vm_compute; reflexivity |].
  split; [reflexivity |].
  split; [vm_compute; reflexivity |].
  split; [vm_compute; reflexivity | lia].
Qed.

(** C5, amended: on a live handle, whatever state the device is in,
    [hjb_calculate] returns (with any fuel of at least 1000, and always the
    same result).  After driving the request into the device it toggles the
    clock, one tick of [main_time] per toggle and with the done signal low
    before each toggle, and stops at the first state in which done is high,
    or after 1000 toggles, which are at most 500 clock cycles.  Stopped by
    done, it returns [0] with the outputs of that state and drops
    compute-enable; stopped by the bound it returns the failure status [-1]
    with compute-enable still high, the done signal low and the caller's
    structure untouched. *)
Theorem hjb_calculate_terminates
    (fuel : nat) (mid : Double.double) (inv : Z) (vol : Double.double)
    (res : hjb_wrapper.HJBResult) (m : Vhjb_calculator.root) (t : Z) :
  (1000 <= fuel)%nat ->
  exists (m2 m3 : Vhjb_calculator.root) (toggles : nat)
         (out : Z * hjb_wrapper.HJBResult * hjb_wrapper.Bridge),
    Vhjb_calculator.eval (drive_request mid inv vol m) = Some m2 /\
    (toggles <= 1000)%nat /\
    quiet_run toggles m2 = Some m3 /\
    (Vhjb_calculator.calculation_done m3 = true \/ toggles = 1000%nat) /\
    rising_edges toggles (Vhjb_calculator.clk m2) <= 500 /\
    Vhjb_calculator.calculate_en m3 = true /\
    hjb_wrapper.hjb_calculate fuel mid inv vol res
      (hjb_wrapper.mkBridge (Some m) t) = Some out /\
    hjb_wrapper.hjb_calculate hjb_wrapper.CALCULATE_BOUND mid inv vol res
      (hjb_wrapper.mkBridge (Some m) t) = Some out /\
    if Vhjb_calculator.calculation_done m3
    then exists m4,
           Vhjb_calculator.eval (Vhjb_calculator.set_calculate_en false m3)
           = Some m4 /\
           Vhjb_calculator.calculate_en m4 = false /\
           out = (0, result_of m3,
                  hjb_wrapper.mkBridge (Some m4) (Nat.iter toggles tick t))
    else toggles = 1000%nat /\
         out = (-1, res,
                hjb_wrapper.mkBridge (Some m3) (Nat.iter toggles tick t)).
Proof.
  intros Hfuel.
  destruct (drive_request_fields mid inv vol m) as (Hen1 & _).
  destruct (eval_spec (drive_request mid inv vol m))
    as (m2 & Heval2 & _ & _ & Hen2 & _).
  assert (Hzero : wrap64 (t - t) + Z.of_nat 1000 = 1000)
    by (rewrite Z.sub_diag; reflexivity).
  destruct (clock_until_done_stops t 1000 fuel m2 t Hfuel Hzero)
    as (m3 & j & Hj & Hrun & Hstop & Hen3 & Hloop).
  destruct (clock_until_done_stops t 1000 1000 m2 t (le_n _) Hzero)
    as (m3' & j' & Hj' & Hrun' & Hstop' & _ & Hloop').
  assert (Hsame : j' = j /\ m3' = m3)
    by (apply (quiet_run_stop_unique j j' 1000 m2); assumption).
  destruct Hsame as (-> & ->).
  assert (Hedges : rising_edges j (Vhjb_calculator.clk m2) <= 500).
  { pose proof (rising_edges_half j (Vhjb_calculator.clk m2)) as H.
    destruct (Vhjb_calculator.clk m2); Z.div_mod_to_equations; lia. }
  assert (Hen : Vhjb_calculator.calculate_en m3 = true) by congruence.
  assert (Hcall : forall f,
            hjb_wrapper.clock_until_done f t (m2, t) = Some (m3, Nat.iter j tick t) ->
            hjb_wrapper.hjb_calculate f mid inv vol res
              (hjb_wrapper.mkBridge (Some m) t)
            = (if Vhjb_calculator.calculation_done m3
               then m4 <- Vhjb_calculator.eval
                            (Vhjb_calculator.set_calculate_en false m3) ;;
                    Some (0, result_of m3,
                          hjb_wrapper.mkBridge (Some m4) (Nat.iter j tick t))
               else Some (-1, res,
                          hjb_wrapper.mkBridge (Some m3) (Nat.iter j tick t)))).
  { intros f Hf. unfold hjb_wrapper.hjb_calculate.
    cbn [hjb_wrapper.hjb_module hjb_wrapper.main_time].
    fold (drive_request mid inv vol m).
    rewrite Heval2, bind_Some, Hf, bind_Some. reflexivity. }
  destruct (Vhjb_calculator.calculation_done m3) eqn:Edone.
  - destruct (eval_spec (Vhjb_calculator.set_calculate_en false m3))
      as (m4 & Heval4 & _ & _ & Hen4 & _).
    exists m2, m3, j,
      (0, result_of m3, hjb_wrapper.mkBridge (Some m4) (Nat.iter j tick t)).
    split; [exact Heval2 |]. split; [exact Hj |]. split; [exact Hrun |].
    split; [left; exact Edone |]. split; [exact Hedges |]. split; [exact Hen |].
    split; [rewrite (Hcall fuel Hloop), Heval4; reflexivity |].
    split; [unfold hjb_wrapper.CALCULATE_BOUND;
            rewrite (Hcall 1000%nat Hloop'), Heval4; reflexivity |].
    rewrite Edone.
    exists m4. split; [exact Heval4 |]. split; [rewrite Hen4 |]; reflexivity.
  - destruct Hstop as [Hd | ->]; [discriminate Hd |].
    exists m2, m3, 1000%nat,
      (-1, res, hjb_wrapper.mkBridge (Some m3) (Nat.iter 1000 tick t)).
    split; [exact Heval2 |]. split; [exact Hj |]. split; [exact Hrun |].
    split; [right; reflexivity |]. split; [exact Hedges |]. split; [exact Hen |].
    split; [exact (Hcall fuel Hloop) |].
    split; [exact (Hcall 1000%nat Hloop') |].
    rewrite Edone. split; reflexivity.
Qed.

(** A first request after [hjb_init], with the budget of the code. *)
Lemma hjb_calculate_terminates_witness :
  (1000 <= 1000)%nat /\
  exists m2 m3 toggles out,
    Vhjb_calculator.eval
      (drive_request (Double.of_float 150.0) 0 (Double.of_float 0.02)
         (after_reset (Vhjb_calculator.ctor_var_reset Examples.rand_zeros)))
    = Some m2 /\
    (toggles <= 1000)%nat /\
    quiet_run toggles m2 = Some m3 /\
    (Vhjb_calculator.calculation_done m3 = true \/ toggles = 1000%nat) /\
    hjb_wrapper.hjb_calculate 1000 (Double.of_float 150.0) 0 (Double.of_float 0.02)
      Examples.blank_result
      (hjb_wrapper.mkBridge
         (Some (after_reset (Vhjb_calculator.ctor_var_reset Examples.rand_zeros))) 5)
    = Some out.
Proof.
  split; [apply le_n |].
  destruct (hjb_calculate_terminates 1000 (Double.of_float 150.0) 0
              (Double.of_float 0.02) Examples.blank_result
              (after_reset (Vhjb_calculator.ctor_var_reset Examples.rand_zeros)) 5
              (le_n 1000))
    as (m2 & m3 & toggles & out & E2 & Hj & Hrun & Hstop & _ & _ & Hcall & _).
  exists m2, m3, toggles, out.
  repeat (split; [assumption |]). assumption.
Defined.



(** C9: once a call of [hjb_calculate] has succeeded, the device's done
    output stays high (compute-enable was dropped with an [eval()] and no
    clock edge), so the next call, whatever its arguments, toggles the clock
    zero times ([main_time] and [clk] unchanged) and returns the bid, ask and
    latency of the previous request; done is high again afterwards. *)
Theorem stale_result_after_success
    (fuel1 fuel2 : nat) (mid1 mid2 : Double.double) (inv1 inv2 : Z)
    (vol1 vol2 : Double.double)
    (res1 res2 : hjb_wrapper.HJBResult) (m : Vhjb_calculator.root) (t : Z)
    (r1 : hjb_wrapper.HJBResult) (b1 : hjb_wrapper.Bridge) :
  (1000 <= fuel1)%nat ->
  hjb_wrapper.hjb_calculate fuel1 mid1 inv1 vol1 res1
    (hjb_wrapper.mkBridge (Some m) t) = Some (0, r1, b1) ->
  exists m1 m2 : Vhjb_calculator.root,
    b1 = hjb_wrapper.mkBridge (Some m1) (hjb_wrapper.main_time b1) /\
    Vhjb_calculator.calculation_done m1 = true /\
    Vhjb_calculator.calculate_en m1 = false /\
    hjb_wrapper.hjb_calculate fuel2 mid2 inv2 vol2 res2 b1
    = Some (0, r1, hjb_wrapper.mkBridge (Some m2) (hjb_wrapper.main_time b1)) /\
    Vhjb_calculator.clk m2 = Vhjb_calculator.clk m1 /\
    Vhjb_calculator.calculation_done m2 = true.
Proof.
  intros Hfuel Hfirst.
  destruct (hjb_calculate_live fuel1 mid1 inv1 vol1 res1 m t Hfuel)
    as (rc & res' & m1 & t1 & j & Hrun & _ & _ & _ & Hs & _ & Hcases).
  rewrite Hfirst in Hrun. injection Hrun as Hrc Hres Hb. subst rc res' b1.
  destruct Hcases as [(_ & Hdone & Hen & Hr1) | (Hrc & _)]; [ | discriminate Hrc].
  destruct (hjb_calculate_already_done fuel2 mid2 inv2 vol2 res2 m1 t1 Hs Hdone)
    as (m2 & Hsecond & Hclk & _ & Hdone2 & _).
  exists m1, m2. cbn [hjb_wrapper.main_time].
  split; [reflexivity |]. split; [exact Hdone |]. split; [exact Hen |].
  split; [rewrite Hr1; exact Hsecond |].
  split; assumption.
Qed.

(** After the request (150.0, 0, 0.02), the request (200.0, 7, 0.5) gets the
    answer to the first one. *)
Lemma stale_result_after_success_witness :
  exists m1 m2 : Vhjb_calculator.root,
    Vhjb_calculator.calculation_done m1 = true /\
    hjb_wrapper.hjb_calculate 1000 (Double.of_float 200.0) 7 (Double.of_float 0.5)
      Examples.blank_result (hjb_wrapper.mkBridge (Some m1) 15)
    = Some (0, hjb_wrapper.mkResult (Double.of_float 9.18212890625)
                 (Double.of_float 2449.375) 16,
            hjb_wrapper.mkBridge (Some m2) 15).
Proof.
  destruct (stale_result_after_success 1000 1000
              (Double.of_float 150.0) (Double.of_float 200.0) 0 7
              (Double.of_float 0.02) (Double.of_float 0.5)
              Examples.blank_result Examples.blank_result
              (after_reset (Vhjb_calculator.ctor_var_reset Examples.rand_zeros)) 5
              (hjb_wrapper.mkResult (Double.of_float 9.18212890625)
                 (Double.of_float 2449.375) 16)
              (hjb_wrapper.mkBridge
                 (Some (after_first_request false 1
                          (Double.to_bits (Double.of_float 150.0)) 0
                          (Double.to_bits (Double.of_float 0.02)))) 15))
    as (m1 & m2 & Hb & Hdone & _ & Hsecond & _).
  - apply le_n.
  - vm_compute. reflexivity.
  - exists m1, m2. split; [exact Hdone |].
    injection Hb as Hm. rewrite Hm in Hsecond. exact Hsecond.
Defined.

(** C8 as stated fails: a call without a handle and a call that times out
    (here on a pricing unit held in reset) return the same status, [-1]; the
    two failures cannot be told apart by the code. *)
Lemma misuse_status_equals_timeout_status :
  let misuse :=
    status_of (hjb_wrapper.hjb_calculate 1000 (Double.of_float 150.0) 0
                 (Double.of_float 0.02) Examples.blank_result
                 Examples.no_handle) in
  let timeout :=
    status_of (hjb_wrapper.hjb_calculate 1000 (Double.of_float 150.0) 0
                 (Double.of_float 0.02) Examples.blank_result
                 (hjb_wrapper.mkBridge (Some Examples.held_in_reset) 0)) in
  misuse = Some (-1) /\ timeout = Some (-1) /\ ~ misuse <> timeout.
Proof.
  cbv zeta.
  assert (H1 : status_of (hjb_wrapper.hjb_calculate 1000 (Double.of_float 150.0) 0
                 (Double.of_float 0.02)
                            Examples.blank_result Examples.no_handle)
               = Some (-1)) by reflexivity.
  assert (H2 : status_of (hjb_wrapper.hjb_calculate 1000 (Double.of_float 150.0) 0
                 (Double.of_float 0.02)
                            Examples.blank_result
                            (hjb_wrapper.mkBridge (Some Examples.held_in_reset) 0))
               = Some (-1)) by (vm_compute; reflexivity).
  split; [exact H1 |]. split; [exact H2 |].
  intros Hne. apply Hne. rewrite H1, H2. reflexivity.
Qed.

(** C8, amended: without a live handle (before [hjb_init], or after
    [hjb_cleanup], which nulls the handle) [hjb_calculate] fails for that
    call only: it returns [-1] and touches neither the statics nor the
    caller's structure, and a later [hjb_init] followed by [hjb_calculate]
    succeeds, for any arguments.  The status [-1] differs from the success
    status [0]; it is the only failure status of [hjb_calculate], the one a
    timeout returns too. *)
Theorem misuse_fails_that_call_only
    (fuel : nat) (mid : Double.double) (inv : Z) (vol : Double.double)
    (res : hjb_wrapper.HJBResult) (t : Z) :
  hjb_wrapper.hjb_calculate fuel mid inv vol res (hjb_wrapper.mkBridge None t)
  = Some (-1, res, hjb_wrapper.mkBridge None t) /\
  (forall b : hjb_wrapper.Bridge,
     hjb_wrapper.hjb_cleanup b
     = hjb_wrapper.mkBridge None (hjb_wrapper.main_time b)) /\
  (forall (rnd : Z -> Z) (mid' : Double.double) (inv' : Z) (vol' : Double.double)
          (res' : hjb_wrapper.HJBResult),
     exists b1 r b2,
       hjb_wrapper.hjb_init rnd (hjb_wrapper.mkBridge None t) = Some (0, b1) /\
       hjb_wrapper.hjb_calculate hjb_wrapper.CALCULATE_BOUND mid' inv' vol' res' b1
       = Some (0, r, b2)) /\
  -1 <> 0 /\
  (forall (fuel' : nat) (m : Vhjb_calculator.root) (t0 : Z) (mid' : Double.double)
          (inv' : Z) (vol' : Double.double) (res' : hjb_wrapper.HJBResult),
     (1000 <= fuel')%nat ->
     status_of (hjb_wrapper.hjb_calculate fuel' mid' inv' vol' res'
                  (hjb_wrapper.mkBridge (Some m) t0)) = Some 0 \/
     status_of (hjb_wrapper.hjb_calculate fuel' mid' inv' vol' res'
                  (hjb_wrapper.mkBridge (Some m) t0)) = Some (-1)).
Proof.
  split; [reflexivity |].
  split.
  { intros [[m |] t0]; reflexivity. }
  split.
  { intros rnd mid' inv' vol' res'.
    eexists. eexists. eexists.
    split; [apply hjb_init_fresh |].
    apply first_request. unfold hjb_wrapper.CALCULATE_BOUND. lia. }
  split; [discriminate |].
  intros fuel' m t0 mid' inv' vol' res' Hfuel.
  destruct (hjb_calculate_live fuel' mid' inv' vol' res' m t0 Hfuel)
    as (rc & r & m' & t' & j & Hrun & _ & _ & _ & _ & _ & Hcases).
  rewrite Hrun. cbn [status_of].
  destruct Hcases as [(-> & _) | (-> & _)]; [left | right]; reflexivity.
Qed.

(** ** The reset protocols *)

(** C4 as stated fails for the bridge: [hjb_init] leaves the three data
    inputs of a fresh model as they were (here all ones), and it toggles the
    clock five times in all, reset held, with no toggle after the release:
    neither the twelve toggles of six full periods nor, counting one toggle
    as a cycle, six.  With a model that starts all zeros the toggle count
    alone refutes it. *)
Lemma hjb_init_is_not_the_harness_protocol :
  ~ bridge_reset_as_harness 2 Examples.rand_ones Examples.no_handle /\
  ~ bridge_reset_as_harness 2 Examples.rand_zeros Examples.no_handle /\
  ~ bridge_reset_as_harness 1 Examples.rand_zeros Examples.no_handle /\
  (exists m,
     hjb_wrapper.hjb_init Examples.rand_ones Examples.no_handle
     = Some (0, hjb_wrapper.mkBridge (Some m) 5) /\
     Vhjb_calculator.mid_price m = 2 ^ 64 - 1 /\
     Vhjb_calculator.inventory m = 2 ^ 32 - 1 /\
     Vhjb_calculator.volatility m = 2 ^ 64 - 1 /\
     Vhjb_calculator.clk m = true).
Proof.
  assert (Hones : hjb_wrapper.hjb_init Examples.rand_ones Examples.no_handle
                  = Some (0, hjb_wrapper.mkBridge
                               (Some (after_reset
                                        (Vhjb_calculator.ctor_var_reset
                                           Examples.rand_ones))) 5))
    by apply hjb_init_fresh.
  assert (Hzeros : hjb_wrapper.hjb_init Examples.rand_zeros Examples.no_handle
                   = Some (0, hjb_wrapper.mkBridge
                                (Some (after_reset
                                         (Vhjb_calculator.ctor_var_reset
                                            Examples.rand_zeros))) 5))
    by apply hjb_init_fresh.
  split; [ | split; [ | split]].
  - intros (m & t' & Hinit & Hmid & _).
    rewrite Hones in Hinit. injection Hinit as Hm Ht. subst m.
    vm_compute in Hmid. discriminate Hmid.
  - intros (m & t' & Hinit & _ & _ & _ & _ & Hticks).
    rewrite Hzeros in Hinit. injection Hinit as Hm Ht. subst t'.
    vm_compute in Hticks. discriminate Hticks.
  - intros (m & t' & Hinit & _ & _ & _ & _ & Hticks).
    rewrite Hzeros in Hinit. injection Hinit as Hm Ht. subst t'.
    vm_compute in Hticks. discriminate Hticks.
  - eexists. split; [exact Hones |]. repeat split.
Qed.

(** C4, amended.  The harness's [reset] clears all five device inputs, runs
    five full clock cycles with reset asserted, releases reset and runs one
    more full cycle: the device sees exactly the twelve half-period input
    states listed, the cycle counter advances by six and no session counter
    moves.  The bridge's [hjb_init] on a missing handle drives only [rst_n],
    [clk] and [calculate_en] low on the fresh model (the three data inputs
    keep what the model held), evaluates, toggles the clock five times with
    reset asserted, then releases reset and evaluates again without a clock
    edge; [main_time] advances by five.  Immediately afterwards the pricing
    unit's done output is low and its state, cycle counter, latency and
    price outputs are zero. *)
Theorem reset_protocols :
  (forall (Dut : Type)
          (eval : FPGATradingSystemTest.Inputs -> Dut -> Dut)
          (h : FPGATradingSystemTest.Harness Dut),
     let h' := FPGATradingSystemTest.reset Dut eval h in
     let held c := FPGATradingSystemTest.mkInputs c false false 0 0 in
     let released c := FPGATradingSystemTest.mkInputs c true false 0 0 in
     FPGATradingSystemTest.inputs Dut h' = released true /\
     (exists samples,
        FPGATradingSystemTest.trace Dut h'
        = FPGATradingSystemTest.trace Dut h ++ samples /\
        map (FPGATradingSystemTest.ports Dut) samples
        = [held false; held true; held false; held true; held false; held true;
           held false; held true; held false; held true;
           released false; released true]) /\
     FPGATradingSystemTest.cycle_count Dut h'
     = wrap64 (FPGATradingSystemTest.cycle_count Dut h + 6) /\
     FPGATradingSystemTest.total_ticks Dut h'
     = FPGATradingSystemTest.total_ticks Dut h /\
     FPGATradingSystemTest.total_executions Dut h'
     = FPGATradingSystemTest.total_executions Dut h /\
     FPGATradingSystemTest.total_latency Dut h'
     = FPGATradingSystemTest.total_latency Dut h /\
     FPGATradingSystemTest.max_latency Dut h'
     = FPGATradingSystemTest.max_latency Dut h /\
     FPGATradingSystemTest.min_latency Dut h'
     = FPGATradingSystemTest.min_latency Dut h) /\
  (forall (rnd : Z -> Z) (t : Z),
     let fresh := Vhjb_calculator.ctor_var_reset rnd in
     exists m,
       hjb_wrapper.hjb_init rnd (hjb_wrapper.mkBridge None t)
       = Some (0, hjb_wrapper.mkBridge (Some m) (wrap64 (t + 5))) /\
       (m1 <- Vhjb_calculator.eval
                (Vhjb_calculator.set_calculate_en false
                   (Vhjb_calculator.set_clk false
                      (Vhjb_calculator.set_rst_n false fresh))) ;;
        m2 <- run_toggles 5 m1 ;;
        Vhjb_calculator.eval (Vhjb_calculator.set_rst_n true m2)) = Some m /\
       Vhjb_calculator.rst_n m = true /\
       Vhjb_calculator.clk m = true /\
       Vhjb_calculator.calculate_en m = false /\
       Vhjb_calculator.mid_price m = Vhjb_calculator.mid_price fresh /\
       Vhjb_calculator.inventory m = Vhjb_calculator.inventory fresh /\
       Vhjb_calculator.volatility m = Vhjb_calculator.volatility fresh /\
       Vhjb_calculator.calculation_done m = false /\
       Vhjb_calculator.state m = 0 /\
       Vhjb_calculator.cycle_counter m = 0 /\
       Vhjb_calculator.latency_cycles m = 0 /\
       Vhjb_calculator.optimal_bid m = 0 /\
       Vhjb_calculator.optimal_ask m = 0).
Proof.
  split.
  - intros Dut eval h. apply reset_spec.
  - intros rnd t fresh. exists (after_reset fresh).
    split; [apply hjb_init_fresh |].
    split; [apply reset_sequence; reflexivity |].
    repeat split.
Qed.

(** * Further properties of the code *)

(** ** The pricing unit *)

(** The active region is passed once, and once more after a trigger. *)
Lemma act_settled_passes (u : Vhjb_calculator.root) :
  Vhjb_calculator.VactIterCount (act_settled u) = 1 \/
  Vhjb_calculator.VactIterCount (act_settled u) = 2.
Proof.
  unfold act_settled. cbn [Vhjb_calculator.VactIterCount].
  destruct (Vhjb_calculator.trig_any (edge u)); auto.
Qed.

(** X1: [eval()] of the pricing unit returns from every model state: the
    "did not converge" aborts of its two loops are never reached (the active
    region is passed once or twice, against a limit of 100).  It leaves the
    six input ports as the caller set them, and afterwards no trigger is
    pending. *)
Theorem eval_always_converges (v : Vhjb_calculator.root) :
  exists v',
    Vhjb_calculator.eval v = Some v' /\
    (Vhjb_calculator.VactIterCount v' = 1 \/
     Vhjb_calculator.VactIterCount v' = 2) /\
    Vhjb_calculator.clk v' = Vhjb_calculator.clk v /\
    Vhjb_calculator.rst_n v' = Vhjb_calculator.rst_n v /\
    Vhjb_calculator.calculate_en v' = Vhjb_calculator.calculate_en v /\
    Vhjb_calculator.inventory v' = Vhjb_calculator.inventory v /\
    Vhjb_calculator.mid_price v' = Vhjb_calculator.mid_price v /\
    Vhjb_calculator.volatility v' = Vhjb_calculator.volatility v /\
    settled v'.
Proof.
  destruct (eval_spec v) as (v' & E & Hc & Hr & Hen & Hinv & Hmp & Hvol & Hs).
  exists v'. split; [exact E |].
  split; [ | repeat (split; [assumption |]); assumption].
  rewrite eval_pure_eq in E. injection E as <-.
  unfold eval_pure, eval_closed. cbv zeta.
  destruct (Vhjb_calculator.trig_any
              (Vhjb_calculator.VnbaTriggered (act_settled _)));
    apply act_settled_passes.
Qed.

(** An evaluation that sees no trigger runs no process. *)
Lemma eval_quiet (u : Vhjb_calculator.root) :
  Vhjb_calculator.Vm_didInit u = true ->
  edge u = Vhjb_calculator.trig_clear ->
  Vhjb_calculator.VnbaTriggered u = Vhjb_calculator.trig_clear ->
  Vhjb_calculator.eval u = Some (act_settled u).
Proof.
  intros Hdi Hedge Hnba.
  unfold Vhjb_calculator.eval. rewrite Hdi. cbn [negb].
  rewrite eval_root_closed. unfold eval_closed.
  unfold act_settled at 1. cbn [Vhjb_calculator.VnbaTriggered].
  rewrite Hedge, Hnba. reflexivity.
Qed.

(** X2: the design computes on rising clock edges only.  On a model in
    which nothing is pending, an [eval()] after the clock was driven low, or
    left where it was, changes no register and no output, whatever was
    written to the data inputs and to compute-enable. *)
Theorem only_rising_clock_edges_compute (v : Vhjb_calculator.root) (c : bool) :
  settled v ->
  c = false \/ c = Vhjb_calculator.clk v ->
  exists v',
    Vhjb_calculator.eval (Vhjb_calculator.set_clk c v) = Some v' /\
    Vhjb_calculator.clk v' = c /\
    Vhjb_calculator.state v' = Vhjb_calculator.state v /\
    Vhjb_calculator.cycle_counter v' = Vhjb_calculator.cycle_counter v /\
    Vhjb_calculator.reservation_price v' = Vhjb_calculator.reservation_price v /\
    Vhjb_calculator.spread v' = Vhjb_calculator.spread v /\
    Vhjb_calculator.calculation_done v' = Vhjb_calculator.calculation_done v /\
    Vhjb_calculator.latency_cycles v' = Vhjb_calculator.latency_cycles v /\
    Vhjb_calculator.optimal_bid v' = Vhjb_calculator.optimal_bid v /\
    Vhjb_calculator.optimal_ask v' = Vhjb_calculator.optimal_ask v /\
    settled v'.
Proof.
  intros (Hdi & Hpc & Hpr & Hnba) Hc.
  exists (act_settled (Vhjb_calculator.set_clk c v)).
  assert (Hedge : edge (Vhjb_calculator.set_clk c v) = Vhjb_calculator.trig_clear).
  { unfold edge.
    change (Vhjb_calculator.clk (Vhjb_calculator.set_clk c v)) with c.
    change (Vhjb_calculator.prev_clk (Vhjb_calculator.set_clk c v))
      with (Vhjb_calculator.prev_clk v).
    change (Vhjb_calculator.rst_n (Vhjb_calculator.set_clk c v))
      with (Vhjb_calculator.rst_n v).
    change (Vhjb_calculator.prev_rst_n (Vhjb_calculator.set_clk c v))
      with (Vhjb_calculator.prev_rst_n v).
    rewrite Hpc, Hpr.
    destruct Hc as [-> | ->];
      destruct (Vhjb_calculator.clk v), (Vhjb_calculator.rst_n v); reflexivity. }
  split; [apply eval_quiet; assumption |].
  do 9 (split; [reflexivity |]).
  unfold settled, act_settled.
  cbn [Vhjb_calculator.Vm_didInit Vhjb_calculator.prev_clk Vhjb_calculator.clk
       Vhjb_calculator.prev_rst_n Vhjb_calculator.rst_n
       Vhjb_calculator.VnbaTriggered].
  rewrite Hedge.
  change (Vhjb_calculator.Vm_didInit (Vhjb_calculator.set_clk c v))
    with (Vhjb_calculator.Vm_didInit v).
  change (Vhjb_calculator.VnbaTriggered (Vhjb_calculator.set_clk c v))
    with (Vhjb_calculator.VnbaTriggered v).
  repeat split; assumption.
Qed.

(** A falling edge after the first request has been answered. *)
Lemma only_rising_clock_edges_compute_witness :
  exists v',
    Vhjb_calculator.eval
      (Vhjb_calculator.set_clk false (after_first_request false 1 7 8 9))
    = Some v' /\
    Vhjb_calculator.state v' = 4 /\
    Vhjb_calculator.calculation_done v' = true.
Proof.
  destruct (only_rising_clock_edges_compute
              (after_first_request false 1 7 8 9) false)
    as (v' & E & _ & Hst & _ & _ & _ & Hdone & _).
  - repeat split.
  - left. reflexivity.
  - exists v'. split; [exact E |]. split; assumption.
Defined.

Section ResetBehaviour.

Import Vhjb_calculator.

(** X3: reset is sampled on the rising clock edge.  With [rst_n] low, a
    rising edge returns the state machine to idle and zeroes the cycle
    counter and the four outputs, from whatever state it was in; the two
    internal data registers (reservation price, spread) keep their
    contents. *)
Theorem reset_on_rising_edge (v : root) :
  settled v ->
  clk v = false ->
  rst_n v = false ->
  exists v',
    eval (set_clk true v) = Some v' /\
    state v' = 0 /\ cycle_counter v' = 0 /\
    calculation_done v' = false /\ latency_cycles v' = 0 /\
    optimal_bid v' = 0 /\ optimal_ask v' = 0 /\
    reservation_price v' = reservation_price v /\
    spread v' = spread v.
Proof.
  destruct v as [c r en dn st pc pr ac inv lat cc it mp vol ob oa rp sp ta tn di].
  unfold settled. cbn [Vm_didInit prev_clk clk prev_rst_n rst_n VnbaTriggered].
  intros (-> & -> & -> & ->) -> ->.
  rewrite eval_pure_eq. eexists. split; [reflexivity |].
  lazy -[wrap64 wrap32 Z.add Z.sub VL_SHIFTL_QQI VL_SHIFTR_QQI].
  repeat split.
Qed.

(** A rising edge with reset asserted, after a request has been answered. *)
Lemma reset_on_rising_edge_witness :
  exists v',
    eval (set_clk true
            (set_prev false false
               (set_rst_n false (set_clk false (after_first_request false 1 7 8 9)))))
    = Some v' /\
    state v' = 0 /\ calculation_done v' = false /\ optimal_bid v' = 0.
Proof.
  destruct (reset_on_rising_edge
              (set_prev false false
                 (set_rst_n false (set_clk false (after_first_request false 1 7 8 9)))))
    as (v' & E & Hst & _ & Hdone & _ & Hbid & _).
  - repeat split.
  - reflexivity.
  - reflexivity.
  - exists v'. repeat split; assumption.
Defined.

(** X4: reset is asynchronous as well.  Driving [rst_n] from high to low
    and calling [eval()], without any clock edge, already returns the state
    machine to idle and zeroes the cycle counter and the outputs. *)
Theorem reset_is_asynchronous (v : root) :
  settled v ->
  rst_n v = true ->
  exists v',
    eval (set_rst_n false v) = Some v' /\
    clk v' = clk v /\
    state v' = 0 /\ cycle_counter v' = 0 /\
    calculation_done v' = false /\ latency_cycles v' = 0 /\
    optimal_bid v' = 0 /\ optimal_ask v' = 0 /\
    reservation_price v' = reservation_price v /\
    spread v' = spread v.
Proof.
  destruct v as [c r en dn st pc pr ac inv lat cc it mp vol ob oa rp sp ta tn di].
  unfold settled. cbn [Vm_didInit prev_clk clk prev_rst_n rst_n VnbaTriggered].
  intros (-> & -> & -> & ->) ->.
  rewrite eval_pure_eq. eexists. split; [reflexivity |].
  destruct c;
    lazy -[wrap64 wrap32 Z.add Z.sub VL_SHIFTL_QQI VL_SHIFTR_QQI];
    repeat split.
Qed.

(** Reset asserted between clock edges, after a request has been answered. *)
Lemma reset_is_asynchronous_witness :
  exists v',
    eval (set_rst_n false (after_first_request false 1 7 8 9)) = Some v' /\
    clk v' = true /\ state v' = 0 /\ calculation_done v' = false.
Proof.
  destruct (reset_is_asynchronous (after_first_request false 1 7 8 9))
    as (v' & E & Hclk & Hst & _ & Hdone & _).
  - repeat split.
  - reflexivity.
  - exists v'. repeat split; assumption.
Defined.

End ResetBehaviour.

(** ** The handshake of the pricing unit *)

Section Handshake.

Import Vhjb_calculator.

Lemma clock_period_pure (v : root) :
  clock_period v = Some (eval_pure (set_clk true (eval_pure (set_clk false v)))).
Proof.
  unfold clock_period. rewrite eval_pure_eq, bind_Some. apply eval_pure_eq.
Qed.

(** X5: how the answer is held and released.  In the done state (4) a
    clock period keeps done asserted and the quotes unchanged, and latches
    the cycle counter as the latency; the state machine stays there as long
    as compute-enable is high.  With compute-enable low that period returns
    it to idle with done still asserted, and only the period after that
    clears done (the quotes stay). *)
Theorem done_is_held_until_released (v : root) :
  settled v ->
  rst_n v = true ->
  state v = 4 ->
  exists v1,
    clock_period v = Some v1 /\
    calculation_done v1 = true /\
    latency_cycles v1 = cycle_counter v /\
    optimal_bid v1 = optimal_bid v /\
    optimal_ask v1 = optimal_ask v /\
    state v1 = (if calculate_en v then 4 else 0) /\
    (calculate_en v = false ->
     exists v2,
       clock_period v1 = Some v2 /\
       state v2 = 0 /\
       calculation_done v2 = false /\
       cycle_counter v2 = 0 /\
       optimal_bid v2 = optimal_bid v /\
       optimal_ask v2 = optimal_ask v).
Proof.
  destruct v as [c r en dn st pc pr ac inv lat cc it mp vol ob oa rp sp ta tn di].
  unfold settled. cbn [Vm_didInit prev_clk clk prev_rst_n rst_n VnbaTriggered state].
  intros (-> & -> & -> & ->) -> ->.
  rewrite clock_period_pure. eexists. split; [reflexivity |].
  destruct c, en;
    lazy -[wrap64 wrap32 Z.add Z.sub VL_SHIFTL_QQI VL_SHIFTR_QQI clock_period];
    (do 5 (split; [reflexivity |]));
    intros Hen; try discriminate Hen;
    rewrite clock_period_pure; (eexists; split; [reflexivity |]);
    lazy -[wrap64 wrap32 Z.add Z.sub VL_SHIFTL_QQI VL_SHIFTR_QQI];
    repeat split.
Qed.

(** The model after the first request, still enabled and then released. *)
Lemma done_is_held_until_released_witness :
  exists v1 v2,
    clock_period (after_first_request false 1 7 8 9) = Some v1 /\
    calculation_done v1 = true /\
    clock_period v1 = Some v2 /\
    calculation_done v2 = false /\
    optimal_bid v2 = priced_bid 7 8.
Proof.
  destruct (done_is_held_until_released (after_first_request false 1 7 8 9))
    as (v1 & E1 & Hdone & _ & _ & _ & _ & Hrel).
  - repeat split.
  - reflexivity.
  - reflexivity.
  - destruct (Hrel eq_refl) as (v2 & E2 & _ & Hdone2 & _ & Hbid & _).
    exists v1, v2. repeat split; assumption.
Defined.

(** X6: the three unused encodings of the state register (5, 6, 7) are
    left within one clock period: the state machine returns to idle and
    touches nothing else, neither the outputs nor the counter nor the data
    registers. *)
Theorem unused_states_recover (v : root) :
  settled v ->
  rst_n v = true ->
  state v = 5 \/ state v = 6 \/ state v = 7 ->
  exists v1,
    clock_period v = Some v1 /\
    state v1 = 0 /\
    cycle_counter v1 = cycle_counter v /\
    calculation_done v1 = calculation_done v /\
    latency_cycles v1 = latency_cycles v /\
    optimal_bid v1 = optimal_bid v /\
    optimal_ask v1 = optimal_ask v /\
    reservation_price v1 = reservation_price v /\
    spread v1 = spread v.
Proof.
  destruct v as [c r en dn st pc pr ac inv lat cc it mp vol ob oa rp sp ta tn di].
  unfold settled. cbn [Vm_didInit prev_clk clk prev_rst_n rst_n VnbaTriggered state].
  intros (-> & -> & -> & ->) -> Hst.
  rewrite clock_period_pure. eexists. split; [reflexivity |].
  destruct Hst as [-> | [-> | ->]]; destruct c;
    lazy -[wrap64 wrap32 Z.add Z.sub VL_SHIFTL_QQI VL_SHIFTR_QQI];
    repeat split.
Qed.

Lemma unused_states_recover_witness :
  exists v1,
    clock_period (set_state 6 (after_first_request false 1 7 8 9)) = Some v1 /\
    state v1 = 0 /\
    calculation_done v1 = true.
Proof.
  destruct (unused_states_recover (set_state 6 (after_first_request false 1 7 8 9)))
    as (v1 & E & Hst & _ & Hdone & _).
  - repeat split.
  - reflexivity.
  - right. left. reflexivity.
  - exists v1. split; [exact E |]. split; [exact Hst | exact Hdone].
Defined.

Lemma run_periods_cons (mid inv : Z) (en : bool) (rest : list (Z * Z * bool))
    (v : root) :
  run_periods ((mid, inv, en) :: rest) v
  = run_periods rest
      (eval_pure
         (set_clk true
            (eval_pure
               (set_clk false
                  (set_calculate_en en (set_inventory inv (set_mid_price mid v))))))).
Proof.
  cbn [run_periods]. rewrite clock_period_pure, bind_Some. reflexivity.
Qed.

Lemma wrap32_add_r (a x : Z) : wrap32 (a + wrap32 x) = wrap32 (a + x).
Proof. unfold wrap32. apply Zplus_mod_idemp_r. Qed.

Lemma wrap32_succ (x : Z) : wrap32 (1 + wrap32 x) = wrap32 (1 + x).
Proof. apply wrap32_add_r. Qed.

(** X7: when the pricing unit reads its inputs.  From idle, a request
    started by a clock period with compute-enable high has its quotes after
    four periods and raises done in the fifth.  The inventory is read in the
    second period only and the mid price in the second (reservation price)
    and the third (spread): what the inputs hold in the first, fourth and
    fifth period, and compute-enable after the first, does not matter.  The
    reported latency is the cycle counter at the start plus four, which is
    four only if the counter was zero. *)
Theorem request_reads_inputs_late (v : root)
    (m1 m2 m3 m4 m5 i1 i2 i3 i4 i5 : Z) (e2 e3 e4 e5 : bool) :
  settled v ->
  rst_n v = true ->
  state v = 0 ->
  exists v4 v5,
    run_periods [(m1, i1, true); (m2, i2, e2); (m3, i3, e3); (m4, i4, e4)] v
    = Some v4 /\
    run_periods [(m5, i5, e5)] v4 = Some v5 /\
    state v4 = 4 /\
    calculation_done v4 = false /\
    calculation_done v5 = true /\
    latency_cycles v5 = wrap32 (cycle_counter v + 4) /\
    optimal_bid v5
    = wrap64 (wrap64 (m2 - VL_SHIFTL_QQI (wrap32 i2) 10)
              - VL_SHIFTR_QQI (VL_SHIFTR_QQI m3 7) 1) /\
    optimal_ask v5
    = wrap64 (wrap64 (m2 - VL_SHIFTL_QQI (wrap32 i2) 10)
              + VL_SHIFTR_QQI (VL_SHIFTR_QQI m3 7) 1) /\
    optimal_bid v4 = optimal_bid v5 /\
    optimal_ask v4 = optimal_ask v5.
Proof.
  destruct v as [c r en dn st pc pr ac inv lat cc it mp vol ob oa rp sp ta tn di].
  unfold settled. cbn [Vm_didInit prev_clk clk prev_rst_n rst_n VnbaTriggered state
                       cycle_counter].
  intros (-> & -> & -> & ->) -> ->.
  eexists. eexists.
  rewrite !run_periods_cons. cbn [run_periods].
  split; [reflexivity |].
  split; [reflexivity |].
  destruct c, e5;
    lazy -[wrap64 wrap32 Z.add Z.sub VL_SHIFTL_QQI VL_SHIFTR_QQI];
    (repeat split);
    rewrite !wrap32_succ, !Z.add_assoc, wrap32_add_r; f_equal; lia.
Qed.

(** A request whose inputs change in every period. *)
Lemma request_reads_inputs_late_witness :
  exists v4 v5,
    run_periods [(11, 1, true); (1000000, 2, false); (25600, 3, false); (14, 4, false)]
      (after_reset (ctor_var_reset Examples.rand_ones)) = Some v4 /\
    run_periods [(15, 5, false)] v4 = Some v5 /\
    calculation_done v5 = true /\
    latency_cycles v5 = 4 /\
    optimal_bid v5 = 1000000 - 2048 - 100 /\
    optimal_ask v5 = 1000000 - 2048 + 100.
Proof.
  destruct (request_reads_inputs_late
              (after_reset (ctor_var_reset Examples.rand_ones))
              11 1000000 25600 14 15 1 2 3 4 5 false false false false)
    as (v4 & v5 & E4 & E5 & _ & _ & Hdone & Hlat & Hbid & Hask & _).
  - repeat split.
  - reflexivity.
  - reflexivity.
  - exists v4, v5. split; [exact E4 |]. split; [exact E5 |].
    split; [exact Hdone |]. split; [exact Hlat |].
    split; [rewrite Hbid; reflexivity | rewrite Hask; reflexivity].
Defined.

End Handshake.

(** ** The bridge over whole sessions *)

Section Sessions.

Import Vhjb_calculator hjb_wrapper.

(** The bit patterns of the quotes as plain arithmetic modulo 2^64. *)
Lemma priced_bid_formula (mid inv : Z) :
  priced_bid mid inv = (mid - 1024 * (inv mod 2 ^ 32) - mid / 256) mod 2 ^ 64.
Proof.
  unfold priced_bid, VL_SHIFTL_QQI, VL_SHIFTR_QQI, wrap64, wrap32.
  cbn [Z.ltb Z.compare Pos.compare Pos.compare_cont].
  rewrite Z.shiftl_mul_pow2 by lia. rewrite !Z.shiftr_div_pow2 by lia.
  rewrite Z.div_div by lia.
  rewrite Zminus_mod_idemp_r, Zminus_mod_idemp_l.
  f_equal. change (2 ^ 7 * 2 ^ 1) with 256. change (2 ^ 10) with 1024. lia.
Qed.

Lemma priced_ask_formula (mid inv : Z) :
  priced_ask mid inv = (mid - 1024 * (inv mod 2 ^ 32) + mid / 256) mod 2 ^ 64.
Proof.
  unfold priced_ask, VL_SHIFTL_QQI, VL_SHIFTR_QQI, wrap64, wrap32.
  cbn [Z.ltb Z.compare Pos.compare Pos.compare_cont].
  rewrite Z.shiftl_mul_pow2 by lia. rewrite !Z.shiftr_div_pow2 by lia.
  rewrite Z.div_div by lia.
  rewrite Zminus_mod_idemp_r, Zplus_mod_idemp_l.
  f_equal. change (2 ^ 7 * 2 ^ 1) with 256. change (2 ^ 10) with 1024. lia.
Qed.

Lemma wrap64_diff (a k : Z) : wrap64 (wrap64 (a + k) - a) = wrap64 k.
Proof. unfold wrap64. rewrite Zminus_mod_idemp_l. f_equal. lia. Qed.

Lemma wrap32_mod (z : Z) : wrap32 z mod 2 ^ 32 = z mod 2 ^ 32.
Proof. unfold wrap32. apply Z.mod_mod. discriminate. Qed.

(** X8: the first request after [hjb_init] succeeds for all arguments,
    after ten clock toggles, and reports 16 ns.  With m the 64 bits of the
    mid price as the caller passed it (be it a number, an infinity or any
    NaN) and q the inventory read as an unsigned 32-bit number, the
    bid is the double whose bit pattern is m - 1024 q - m/256 modulo 2^64 and
    the ask the one of m - 1024 q + m/256: integer arithmetic on the IEEE
    encoding, in which neither the volatility nor the start contents of the
    model take part. *)
Theorem first_request_is_priced (rnd : Z -> Z) (t : Z) (mid : Double.double) (inv : Z)
    (vol : Double.double) (res : HJBResult) :
  let m := Double.to_bits mid in
  let q := inv mod 2 ^ 32 in
  exists b1 b2,
    hjb_init rnd (mkBridge None t) = Some (0, b1) /\
    hjb_calculate CALCULATE_BOUND mid inv vol res b1
    = Some (0,
            mkResult
              (Double.of_bits ((m - 1024 * q - m / 256) mod 2 ^ 64))
              (Double.of_bits ((m - 1024 * q + m / 256) mod 2 ^ 64))
              16,
            b2) /\
    wrap64 (main_time b2 - main_time b1) = 10.
Proof.
  intros m q.
  eexists. eexists.
  split; [apply hjb_init_fresh |].
  split.
  - rewrite (first_request CALCULATE_BOUND) by (unfold CALCULATE_BOUND; lia).
    unfold result_of, after_first_request.
    cbn [optimal_bid optimal_ask latency_cycles].
    rewrite priced_bid_formula, priced_ask_formula, wrap32_mod.
    reflexivity.
  - cbn [main_time]. rewrite (iter_tick_pos 9).
    rewrite wrap64_diff. reflexivity.
Qed.

(** The bits of a NaN reach the device as they are: the negative quiet NaN
    [0xFFF8000000000000] as mid price is priced from these very bits. *)
Lemma first_request_nan_payload :
  exists b1 b2,
    hjb_init Examples.rand_zeros Examples.no_handle = Some (0, b1) /\
    hjb_calculate CALCULATE_BOUND (Double.of_bits 0xFFF8000000000000) 0
      (Double.of_float 0.02) Examples.blank_result b1
    = Some (0,
            mkResult (Double.of_bits 0xFEF8080000000000)
              (Double.of_bits 0x00F7F80000000000) 16,
            b2).
Proof.
  eexists. eexists.
  split; [apply hjb_init_fresh |].
  rewrite (first_request CALCULATE_BOUND) by (unfold CALCULATE_BOUND; lia).
  vm_compute. reflexivity.
Qed.

(** What [machine_run] says of one more call. *)
Lemma machine_run_cons (res : HJBResult) (a : handle_state) (c : api_call)
    (rest : list api_call) :
  machine_run res a (c :: rest)
  = (fst (fst (machine_step res a c))
       :: fst (fst (machine_run res (snd (fst (machine_step res a c))) rest)),
     snd (fst (machine_run res (snd (fst (machine_step res a c))) rest)),
     snd (machine_step res a c)
     + snd (machine_run res (snd (fst (machine_step res a c))) rest)).
Proof.
  cbn [machine_run].
  destruct (machine_step res a c) as [[r a'] n]. cbn [fst snd].
  destruct (machine_run res a' rest) as [[rs a''] n']. reflexivity.
Qed.

Lemma priced_result (mid : Double.double) (inv : Z) (vol : Double.double)
    (en : bool) (it : Z) :
  result_of (after_first_request en it (Double.to_bits mid) (wrap32 inv)
               (Double.to_bits vol))
  = priced mid inv.
Proof. reflexivity. Qed.

Lemma run_calls_machine (fuel : nat) (res : HJBResult) :
  (10 <= fuel)%nat ->
  forall (calls : list api_call) (a : handle_state) (b : Bridge),
    stands a b ->
    exists b',
      run_calls fuel res calls b
      = Some (fst (fst (machine_run res a calls)), b') /\
      stands (snd (fst (machine_run res a calls))) b' /\
      wrap64 (main_time b')
      = wrap64 (main_time b + snd (machine_run res a calls)).
Proof.
  intros Hfuel calls.
  induction calls as [| c rest IH]; intros a b Hst.
  - exists b. cbn [run_calls machine_run fst snd].
    split; [reflexivity |]. split; [exact Hst |]. f_equal. lia.
  - rewrite machine_run_cons. cbn [fst snd].
    destruct c as [rnd | mid inv vol |].
    + (* hjb_init *)
      destruct a as [| | first].
      * destruct b as [o t]. cbn [stands hjb_module] in Hst. subst o.
        cbn [run_calls]. rewrite hjb_init_fresh, bind_Some. cbn [fst snd].
        destruct (IH Fresh
                    (mkBridge (Some (after_reset (ctor_var_reset rnd)))
                       (wrap64 (t + 5))))
          as (b' & E & Hst' & Ht).
        { eexists. reflexivity. }
        cbn [machine_step fst snd].
        rewrite E, bind_Some. cbn [fst snd].
        exists b'. split; [reflexivity |]. split; [exact Hst' |].
        rewrite Ht. cbn [main_time]. rewrite wrap64_add_l. f_equal. lia.
      * destruct b as [o t]. destruct Hst as (m0 & Hm). cbn [hjb_module] in Hm.
        subst o.
        cbn [run_calls]. unfold hjb_init at 1. cbn [hjb_module].
        rewrite bind_Some. cbn [fst snd machine_step].
        destruct (IH Fresh (mkBridge (Some (after_reset m0)) t))
          as (b' & E & Hst' & Ht).
        { eexists. reflexivity. }
        rewrite E, bind_Some. cbn [fst snd].
        exists b'. split; [reflexivity |]. split; [exact Hst' |].
        rewrite Ht. f_equal.
      * destruct b as [o t]. destruct Hst as (m & Hm & Hs). cbn [hjb_module] in Hm.
        subst o.
        cbn [run_calls]. unfold hjb_init at 1. cbn [hjb_module].
        rewrite bind_Some. cbn [fst snd machine_step].
        destruct (IH (Answered first) (mkBridge (Some m) t))
          as (b' & E & Hst' & Ht).
        { exists m. split; [reflexivity | exact Hs]. }
        rewrite E, bind_Some. cbn [fst snd].
        exists b'. split; [reflexivity |]. split; [exact Hst' |].
        rewrite Ht. f_equal.
    + (* hjb_calculate *)
      destruct a as [| | first].
      * destruct b as [o t]. cbn [stands hjb_module] in Hst. subst o.
        cbn [run_calls]. unfold hjb_calculate at 1. cbn [hjb_module].
        rewrite bind_Some. cbn [fst snd machine_step].
        destruct (IH NoHandle (mkBridge None t)) as (b' & E & Hst' & Ht).
        { reflexivity. }
        rewrite E, bind_Some. cbn [fst snd].
        exists b'. split; [reflexivity |]. split; [exact Hst' |].
        rewrite Ht. f_equal.
      * destruct b as [o t]. destruct Hst as (m0 & Hm). cbn [hjb_module] in Hm.
        subst o.
        cbn [run_calls]. rewrite (first_request fuel) by exact Hfuel.
        rewrite bind_Some. cbn [fst snd machine_step].
        rewrite priced_result.
        destruct (IH (Answered (priced mid inv))
                    (mkBridge
                       (Some (after_first_request false 1 (Double.to_bits mid)
                                (wrap32 inv) (Double.to_bits vol)))
                       (Nat.iter 10 tick t)))
          as (b' & E & Hst' & Ht).
        { eexists. split; [reflexivity |].
          split; [repeat split |]. split; reflexivity. }
        rewrite E, bind_Some. cbn [fst snd].
        exists b'. split; [reflexivity |]. split; [exact Hst' |].
        rewrite Ht. cbn [main_time]. rewrite (iter_tick_pos 9).
        rewrite wrap64_add_l. f_equal. lia.
      * destruct b as [o t]. destruct Hst as (m & Hm & Hs & Hdone & Hres).
        cbn [hjb_module] in Hm. subst o.
        destruct (hjb_calculate_already_done fuel mid inv vol res m t Hs Hdone)
          as (m' & Ecalc & _ & Hs' & Hdone' & Hres').
        cbn [run_calls]. rewrite Ecalc, bind_Some. cbn [fst snd machine_step].
        destruct (IH (Answered first) (mkBridge (Some m') t))
          as (b' & E & Hst' & Ht).
        { exists m'. split; [reflexivity |]. split; [exact Hs' |].
          split; [exact Hdone' |]. rewrite Hres'. exact Hres. }
        rewrite E, bind_Some. cbn [fst snd]. rewrite Hres.
        exists b'. split; [reflexivity |]. split; [exact Hst' |].
        rewrite Ht. f_equal.
    + (* hjb_cleanup *)
      cbn [run_calls].
      assert (Hc : stands NoHandle (hjb_cleanup b) /\
                   main_time (hjb_cleanup b) = main_time b).
      { unfold hjb_cleanup. destruct (hjb_module b) eqn:Eb; split;
          try reflexivity; exact Eb. }
      destruct Hc as (Hc & Hct).
      assert (Ha : machine_step res a Cleanup = (Cleaned, NoHandle, 0))
        by (destruct a; reflexivity).
      rewrite Ha. cbn [fst snd].
      destruct (IH NoHandle (hjb_cleanup b) Hc) as (b' & E & Hst' & Ht).
      rewrite E, bind_Some. cbn [fst snd].
      exists b'. split; [reflexivity |]. split; [exact Hst' |].
      rewrite Ht, Hct. f_equal.
Qed.

(** X9: seen through its three entry points, the bridge is the three-state
    machine [machine_step].  Over any sequence of calls, starting without a
    handle: no call aborts; [hjb_init] returns 0 and does something only
    when there is no handle; [hjb_calculate] returns -1 exactly when there
    is no handle and then leaves the caller's structure alone; the first
    request on a new handle is priced, and every later request on that
    handle returns 0 with the answer to that first request, whatever its
    arguments, until [hjb_cleanup]; a timeout never occurs.  [main_time]
    advances by five for a real [hjb_init], by ten for a priced request and
    not otherwise. *)
Theorem bridge_is_three_state_machine (fuel : nat) (res : HJBResult)
    (calls : list api_call) (t : Z) :
  (10 <= fuel)%nat ->
  exists b',
    run_calls fuel res calls (mkBridge None t)
    = Some (fst (fst (machine_run res NoHandle calls)), b') /\
    (hjb_module b' = None <->
     snd (fst (machine_run res NoHandle calls)) = NoHandle) /\
    wrap64 (main_time b') = wrap64 (t + snd (machine_run res NoHandle calls)).
Proof.
  intros Hfuel.
  destruct (run_calls_machine fuel res Hfuel calls NoHandle (mkBridge None t))
    as (b' & E & Hst & Ht).
  { reflexivity. }
  exists b'. split; [exact E |]. split; [| exact Ht].
  destruct (snd (fst (machine_run res NoHandle calls))) as [| | first];
    cbn [stands] in Hst.
  - split; intros _; [reflexivity | exact Hst].
  - destruct Hst as (m0 & Hm). rewrite Hm. split; discriminate.
  - destruct Hst as (m & Hm & _). rewrite Hm. split; discriminate.
Qed.

(** A session that calculates before and after [hjb_init], initialises
    twice, and starts over after [hjb_cleanup]. *)
Lemma bridge_is_three_state_machine_witness :
  let first := Calculate (Double.of_float 150.0) 7 (Double.of_float 0.2) in
  let other := Calculate (Double.of_float 300.0) 0 (Double.of_float 0.5) in
  exists b',
    run_calls CALCULATE_BOUND Examples.blank_result
      [first; Init Examples.rand_zeros; first;
       Init Examples.rand_ones; other; Cleanup;
       other; Init Examples.rand_ones; other]
      (mkBridge None 0)
    = Some ([CalculateStatus (-1) Examples.blank_result; InitStatus 0;
             CalculateStatus 0 (priced (Double.of_float 150.0) 7); InitStatus 0;
             CalculateStatus 0 (priced (Double.of_float 150.0) 7); Cleaned;
             CalculateStatus (-1) Examples.blank_result; InitStatus 0;
             CalculateStatus 0 (priced (Double.of_float 300.0) 0)], b') /\
    wrap64 (main_time b') = 30.
Proof.
  intros first other.
  destruct (bridge_is_three_state_machine CALCULATE_BOUND Examples.blank_result
              [first; Init Examples.rand_zeros; first;
               Init Examples.rand_ones; other; Cleanup;
               other; Init Examples.rand_ones; other]
              0)
    as (b' & E & _ & Ht).
  - unfold CALCULATE_BOUND. lia.
  - exists b'. split; [exact E | exact Ht].
Defined.

End Sessions.

(** ** The scenarios of the harness *)

Section ScenarioFacts.

Import FPGATradingSystemTest.

Context {Dut : Type}.
Variable eval : Inputs -> Dut -> Dut.
Variable order_execution_valid : Dut -> bool.
Variable overflow : Z -> Z.

#[local] Abbreviation Harness := (Harness Dut).
#[local] Abbreviation clockCycle := (clockCycle Dut eval).
#[local] Abbreviation sendMarketData := (sendMarketData Dut eval).
#[local] Abbreviation waitForExecution :=
  (waitForExecution Dut eval order_execution_valid).
#[local] Abbreviation wait_loop := (wait_loop Dut eval order_execution_valid).

Lemma counts_to_refl (c : Z) : counts_to c c 0.
Proof. split; [rewrite Z.add_0_r; reflexivity | auto]. Qed.

Lemma counts_to_wrap (c k : Z) : counts_to c (wrap64 (c + k)) k.
Proof. split; [apply wrap64_idem | intros _; apply wrap64_range]. Qed.

Lemma counts_to_trans (a b c k j : Z) :
  counts_to a b k -> counts_to b c j -> counts_to a c (k + j).
Proof.
  intros (Hb & Rb) (Hc & Rc). split; [| auto].
  rewrite Hc, <- wrap64_add_l, Hb, wrap64_add_l. f_equal. lia.
Qed.

Lemma counts_to_exact (c c' k : Z) :
  counts_to c c' k -> 0 <= c -> 0 <= k -> c + k < 2 ^ 64 -> c' = c + k.
Proof.
  intros (Hc & Rc) H0 Hk Hlt.
  rewrite <- (wrap64_small c') by (apply Rc; lia).
  rewrite Hc. apply wrap64_small. lia.
Qed.

(** The difference the harness computes between two readings of a
    counter. *)
Lemma counts_to_elapsed (c c' k : Z) :
  counts_to c c' k -> 0 <= k < 2 ^ 64 -> wrap64 (c' - c) = k.
Proof.
  intros (Hc & _) Hk. unfold wrap64 in *.
  rewrite <- Zminus_mod_idemp_l, Hc, Zminus_mod_idemp_l.
  replace (c + k - c) with k by lia. apply Z.mod_small. exact Hk.
Qed.

Lemma cycle_times_wrap (n : nat) :
  forall c, cycle_times (wrap64 c) n = cycle_times c n.
Proof.
  induction n as [| n IH]; intros c; [reflexivity |].
  cbn [cycle_times].
  assert (Hm : wrap64 (wrap64 c * CLOCK_PERIOD) = wrap64 (c * CLOCK_PERIOD)).
  { unfold wrap64. apply Zmult_mod_idemp_l. }
  rewrite Hm. f_equal. f_equal.
  rewrite <- (IH (wrap64 c + 1)), wrap64_add_l. apply IH.
Qed.

Lemma cycle_times_congr (a b : Z) (n : nat) :
  wrap64 a = wrap64 b -> cycle_times a n = cycle_times b n.
Proof.
  intros Hab. rewrite <- (cycle_times_wrap n a), Hab. apply cycle_times_wrap.
Qed.

Lemma cycle_times_app (n1 n2 : nat) :
  forall c,
    cycle_times c (n1 + n2)
    = cycle_times c n1 ++ cycle_times (c + Z.of_nat n1) n2.
Proof.
  induction n1 as [| n1 IH]; intros c.
  - cbn [Nat.add cycle_times app Z.of_nat]. rewrite Z.add_0_r. reflexivity.
  - cbn [Nat.add cycle_times app]. rewrite IH.
    replace (c + 1 + Z.of_nat n1) with (c + Z.of_nat (S n1)) by lia.
    reflexivity.
Qed.

Lemma clocked_refl (h : Harness) : clocked 0 h h.
Proof.
  split; [lia |]. exists []. split; [symmetry; apply app_nil_r | reflexivity].
Qed.

Lemma clocked_trans (k1 k2 : Z) (h h1 h2 : Harness) :
  counts_to (cycle_count Dut h) (cycle_count Dut h1) k1 ->
  clocked k1 h h1 -> clocked k2 h1 h2 -> clocked (k1 + k2) h h2.
Proof.
  intros (Hc & _) (Hk1 & s1 & T1 & P1) (Hk2 & s2 & T2 & P2).
  split; [lia |].
  exists (s1 ++ s2). split.
  - rewrite T2, T1. symmetry. apply app_assoc.
  - rewrite map_app, P1, P2, Z2Nat.inj_add, cycle_times_app by lia.
    f_equal. apply cycle_times_congr.
    rewrite Z2Nat.id by lia. exact Hc.
Qed.

Lemma advances_refl (h : Harness) : advances 0 0 0 h h.
Proof.
  split; [apply counts_to_refl |].
  split; [apply counts_to_refl |].
  split; [apply counts_to_refl |].
  split; [reflexivity | apply clocked_refl].
Qed.

Lemma advances_trans (k1 n1 e1 k2 n2 e2 : Z) (h h1 h2 : Harness) :
  advances k1 n1 e1 h h1 ->
  advances k2 n2 e2 h1 h2 ->
  advances (k1 + k2) (n1 + n2) (e1 + e2) h h2.
Proof.
  intros (Hc1 & Ht1 & He1 & Hs1 & Hk1) (Hc2 & Ht2 & He2 & Hs2 & Hk2).
  split; [exact (counts_to_trans _ _ _ _ _ Hc1 Hc2) |].
  split; [exact (counts_to_trans _ _ _ _ _ Ht1 Ht2) |].
  split; [exact (counts_to_trans _ _ _ _ _ He1 He2) |].
  split; [rewrite Hs2; exact Hs1 |].
  exact (clocked_trans _ _ _ _ _ Hc1 Hk1 Hk2).
Qed.

Lemma advances_codes (k n e : Z) (h h' : Harness) :
  advances k n e h h' -> symbol_codes Dut h' = symbol_codes Dut h.
Proof. intros (_ & _ & _ & Hs & _). exact Hs. Qed.

(** A step that runs no clock cycle. *)
Lemma advances_frame (n e : Z) (h h' : Harness) :
  trace Dut h' = trace Dut h ->
  cycle_count Dut h' = cycle_count Dut h ->
  counts_to (total_ticks Dut h) (total_ticks Dut h') n ->
  counts_to (total_executions Dut h) (total_executions Dut h') e ->
  symbol_codes Dut h' = symbol_codes Dut h ->
  advances 0 n e h h'.
Proof.
  intros Ht Hc Hn He Hs.
  split; [rewrite Hc; apply counts_to_refl |].
  split; [exact Hn |]. split; [exact He |]. split; [exact Hs |].
  split; [lia |]. exists []. rewrite Ht.
  split; [symmetry; apply app_nil_r | reflexivity].
Qed.

Lemma unrecorded_refl (h : Harness) : unrecorded h h.
Proof. repeat split. Qed.

Lemma unrecorded_trans (h h1 h2 : Harness) :
  unrecorded h h1 -> unrecorded h1 h2 -> unrecorded h h2.
Proof.
  intros (A1 & B1 & C1 & D1) (A2 & B2 & C2 & D2).
  repeat split; congruence.
Qed.

Lemma drives_refl (h : Harness) : drives h h [].
Proof. exists []. split; [symmetry; apply app_nil_r | reflexivity]. Qed.

Lemma drives_trans (h h1 h2 : Harness) (ps qs : list Inputs) :
  drives h h1 ps -> drives h1 h2 qs -> drives h h2 (ps ++ qs).
Proof.
  intros (s1 & T1 & P1) (s2 & T2 & P2).
  exists (s1 ++ s2). split.
  - rewrite T2, T1. symmetry. apply app_assoc.
  - rewrite map_app, P1, P2. reflexivity.
Qed.

(** One clock cycle. *)
Lemma clockCycle_step (h : Harness) :
  advances 1 0 0 h (clockCycle h) /\
  unrecorded h (clockCycle h) /\
  drives h (clockCycle h)
    [set_clk false (inputs Dut h); set_clk true (inputs Dut h)] /\
  inputs Dut (clockCycle h) = set_clk true (inputs Dut h).
Proof.
  split.
  { split; [apply counts_to_wrap |].
    split; [apply counts_to_refl |].
    split; [apply counts_to_refl |].
    split; [reflexivity |].
    split; [lia |]. eexists. split.
    - cbn [FPGATradingSystemTest.clockCycle half_cycle trace].
      rewrite <- app_assoc. reflexivity.
    - reflexivity. }
  split; [repeat split |].
  split; [| reflexivity].
  destruct (clockCycle_trace eval h) as (s1 & s2 & T & P1 & P2).
  exists [s1; s2]. split; [exact T |].
  cbn [map]. rewrite P1, P2. reflexivity.
Qed.

(** Several clock cycles. *)
Lemma iter_clockCycle_step (n : nat) (h : Harness) :
  advances (Z.of_nat n) 0 0 h (Nat.iter n clockCycle h) /\
  unrecorded h (Nat.iter n clockCycle h) /\
  symbol_codes Dut (Nat.iter n clockCycle h) = symbol_codes Dut h.
Proof.
  induction n as [| n (IHa & IHu & IHs)].
  - cbn [Nat.iter]. split; [apply advances_refl |].
    split; [apply unrecorded_refl | reflexivity].
  - change (Nat.iter (S n) clockCycle h) with (clockCycle (Nat.iter n clockCycle h)).
    destruct (clockCycle_step (Nat.iter n clockCycle h)) as (Ha & Hu & _).
    split.
    + replace (Z.of_nat (S n)) with (Z.of_nat n + 1) by lia.
      exact (advances_trans _ _ _ _ _ _ _ _ _ IHa Ha).
    + split; [exact (unrecorded_trans _ _ _ IHu Hu) |].
      rewrite <- IHs. reflexivity.
Qed.

(** The end of [sendMarketData]: input-valid dropped, the tick counted. *)
Lemma tick_counted (i : Inputs) (t : Z) (x : Harness) :
  total_ticks Dut x = t ->
  advances 0 1 0 x
    (set_total_ticks Dut (wrap64 (t + 1)) (set_inputs Dut i x)).
Proof.
  intros <-. apply advances_frame; try reflexivity;
    [apply counts_to_wrap | apply counts_to_refl].
Qed.

(** One message. *)
Lemma sendMarketData_step (symbol_code price volume msg_type : Z) (h : Harness) :
  let h' := sendMarketData symbol_code price volume msg_type h in
  let r := rst_n (inputs Dut h) in
  let w := message_word symbol_code price in
  advances 1 1 0 h h' /\
  unrecorded h h' /\
  drives h h' (cycle_ports r true w msg_type) /\
  inputs Dut h' = mkInputs true r false w msg_type.
Proof.
  intros h' r w.
  assert (Hh' : h' = set_total_ticks Dut (wrap64 (total_ticks Dut h + 1))
            (set_inputs Dut (mkInputs true r false w msg_type)
               (clockCycle
                  (set_inputs Dut
                     (mkInputs (clk (inputs Dut h)) r true w msg_type) h)))).
  { reflexivity. }
  rewrite Hh'.
  split.
  { pose proof (advances_frame 0 0 h
                  (set_inputs Dut (mkInputs (clk (inputs Dut h)) r true w msg_type) h)
                  eq_refl eq_refl (counts_to_refl _) (counts_to_refl _) eq_refl)
      as A0.
    pose proof (proj1 (clockCycle_step
                         (set_inputs Dut
                            (mkInputs (clk (inputs Dut h)) r true w msg_type) h)))
      as A1.
    pose proof (tick_counted (mkInputs true r false w msg_type)
                  (total_ticks Dut h)
                  (clockCycle
                     (set_inputs Dut
                        (mkInputs (clk (inputs Dut h)) r true w msg_type) h))
                  eq_refl) as A2.
    exact (advances_trans _ _ _ _ _ _ _ _ _
             (advances_trans _ _ _ _ _ _ _ _ _ A0 A1) A2). }
  split; [repeat split |].
  split; [| reflexivity].
  destruct (clockCycle_trace eval
              (set_inputs Dut (mkInputs (clk (inputs Dut h)) r true w msg_type) h))
    as (s1 & s2 & T & P1 & P2).
  exists [s1; s2]. split; [exact T |].
  cbn [map]. rewrite P1, P2. reflexivity.
Qed.

(** The waiting loop stops at the first cycle in which the device shows a
    response, or when the budget is used up. *)
Lemma wait_loop_run (max_cycles : Z) :
  max_cycles < 2 ^ 32 ->
  forall (fuel : nat) (wait_cycles : Z) (h : Harness),
    0 <= wait_cycles <= max_cycles ->
    (Z.to_nat (max_cycles - wait_cycles) <= fuel)%nat ->
    exists k : nat,
      Z.of_nat k <= max_cycles - wait_cycles /\
      (forall j, (j < k)%nat ->
                 order_execution_valid (dut Dut (Nat.iter j clockCycle h)) = false) /\
      (order_execution_valid (dut Dut (Nat.iter k clockCycle h)) = true \/
       Z.of_nat k = max_cycles - wait_cycles) /\
      wait_loop fuel max_cycles wait_cycles h
      = Some (wait_cycles + Z.of_nat k, Nat.iter k clockCycle h).
Proof.
  intros Hmax fuel.
  induction fuel as [| fuel IH]; intros w h Hw Hfuel.
  - assert (w = max_cycles) by lia. subst w.
    exists 0%nat. cbn [Nat.iter Z.of_nat].
    split; [lia |]. split; [intros j Hj; lia |].
    split; [right; lia |].
    cbn [FPGATradingSystemTest.wait_loop].
    rewrite Z.ltb_irrefl, andb_false_r, Z.add_0_r. reflexivity.
  - cbn [FPGATradingSystemTest.wait_loop].
    destruct (order_execution_valid (dut Dut h)) eqn:Ev.
    { exists 0%nat. cbn [Nat.iter Z.of_nat negb andb].
      split; [lia |]. split; [intros j Hj; lia |].
      split; [left; exact Ev |]. rewrite Z.add_0_r. reflexivity. }
    cbn [negb andb].
    destruct (w <? max_cycles) eqn:Elt.
    + apply Z.ltb_lt in Elt.
      rewrite (wrap32_small (w + 1)) by lia.
      destruct (IH (w + 1) (clockCycle h)) as (k & Hk & Hsil & Hstop & E);
        [lia | lia |].
      exists (S k).
      rewrite (iter_clockCycle_shift eval).
      split; [lia |].
      split.
      { intros j Hj. destruct j as [| j]; [exact Ev |].
        rewrite (iter_clockCycle_shift eval). apply Hsil. lia. }
      split.
      { destruct Hstop as [Hv | Hend]; [left; exact Hv | right; lia]. }
      rewrite E. f_equal. f_equal. lia.
    + apply Z.ltb_ge in Elt. assert (w = max_cycles) by lia. subst w.
      exists 0%nat. cbn [Nat.iter Z.of_nat].
      split; [lia |]. split; [intros j Hj; lia |].
      split; [right; lia |]. rewrite Z.add_0_r. reflexivity.
Qed.

(** The latency that is recorded after [k] cycles of waiting. *)
Lemma elapsed_cycles (k : nat) (h : Harness) :
  Z.of_nat k < 2 ^ 64 ->
  wrap64 (cycle_count Dut (Nat.iter k clockCycle h) - cycle_count Dut h)
  = Z.of_nat k.
Proof.
  intros Hk.
  pose proof (iter_clockCycle_cycle_count eval k h) as Hc.
  unfold wrap64 in *.
  rewrite <- Zminus_mod_idemp_l, Hc, Zminus_mod_idemp_l.
  replace (cycle_count Dut h + Z.of_nat k - cycle_count Dut h) with (Z.of_nat k)
    by lia.
  apply Z.mod_small. lia.
Qed.

Lemma recorded_eq (latency : Z) (h : Harness) :
  mkHarness Dut (inputs Dut h) (dut Dut h) (trace Dut h) (cycle_count Dut h)
    (total_ticks Dut h)
    (wrap64 (total_executions Dut h + 1))
    (wrap64 (total_latency Dut h + latency))
    (if latency >? max_latency Dut h then latency else max_latency Dut h)
    (if latency <? min_latency Dut h then latency else min_latency Dut h)
    (symbol_codes Dut h)
  = recorded latency h.
Proof.
  unfold recorded. f_equal.
  - destruct (Z.gtb_spec latency (max_latency Dut h)); lia.
  - destruct (Z.ltb_spec latency (min_latency Dut h)); lia.
Qed.

Lemma waitForExecution_unfold (fuel : nat) (max_cycles : Z) (h : Harness) :
  waitForExecution fuel max_cycles h
  = (st <- wait_loop fuel max_cycles 0 h ;;
     if order_execution_valid (dut Dut (snd st))
     then Some (recorded (wrap64 (cycle_count Dut (snd st) - cycle_count Dut h))
                  (snd st))
     else Some (snd st)).
Proof.
  unfold FPGATradingSystemTest.waitForExecution.
  destruct (wait_loop fuel max_cycles 0 h) as [[w h'] |]; [| reflexivity].
  rewrite !bind_Some. cbn [snd].
  destruct (order_execution_valid (dut Dut h')); [| reflexivity].
  rewrite recorded_eq. reflexivity.
Qed.

(** [waitForExecution] over an arbitrary device. *)
Lemma waitForExecution_run (fuel : nat) (max_cycles : Z) (h : Harness) :
  0 <= max_cycles < 2 ^ 32 ->
  (Z.to_nat max_cycles <= fuel)%nat ->
  exists k : nat,
    Z.of_nat k <= max_cycles /\
    (forall j, (j < k)%nat ->
               order_execution_valid (dut Dut (Nat.iter j clockCycle h)) = false) /\
    ((order_execution_valid (dut Dut (Nat.iter k clockCycle h)) = true /\
      waitForExecution fuel max_cycles h
      = Some (recorded (Z.of_nat k) (Nat.iter k clockCycle h))) \/
     (order_execution_valid (dut Dut (Nat.iter k clockCycle h)) = false /\
      Z.of_nat k = max_cycles /\
      waitForExecution fuel max_cycles h = Some (Nat.iter k clockCycle h))).
Proof.
  intros Hmax Hfuel.
  destruct (wait_loop_run max_cycles (proj2 Hmax) fuel 0 h)
    as (k & Hk & Hsil & Hstop & E); [lia | rewrite Z.sub_0_r; exact Hfuel |].
  rewrite Z.sub_0_r in Hk, Hstop.
  exists k. split; [exact Hk |]. split; [exact Hsil |].
  rewrite waitForExecution_unfold, E, bind_Some. cbn [snd].
  destruct (order_execution_valid (dut Dut (Nat.iter k clockCycle h))) eqn:Ev.
  - left. split; [reflexivity |].
    rewrite elapsed_cycles by lia. reflexivity.
  - right. split; [reflexivity |].
    destruct Hstop as [Hv | Hend]; [discriminate Hv |].
    split; [exact Hend | reflexivity].
Qed.

End ScenarioFacts.

(** ** The statistics of the benchmark, once more *)

Section StatisticsOrder.

Import FPGATradingSystemTest.

(** The record the statistics block computes. *)
Lemma latency_statistics_closed (latencies : list Z) :
  latencies <> [] ->
  (List.length latencies <= 1000)%nat ->
  let sorted := std_sort latencies in
  let N := List.length latencies in
  latency_statistics latencies
  = Some {| avg_latency :=
              (Double.of_u64 (wrap64 (fold_left Z.add sorted 0%Z))
               / Double.of_u64 (Z.of_nat N))%float;
            p50_latency := nth (N / 2) sorted 0;
            p95_latency := nth (N * 95 / 100) sorted 0;
            p99_latency := nth (N * 99 / 100) sorted 0;
            front := nth 0 sorted 0;
            back := nth (N - 1) sorted 0 |}.
Proof.
  intros Hne Hlen sorted N.
  assert (HN : (0 < N)%nat).
  { subst N. destruct latencies; [congruence | simpl; lia]. }
  assert (Hsl : List.length sorted = N) by apply std_sort_length.
  assert (H50 : (N / 2 < N)%nat) by (apply Nat.div_lt; lia).
  assert (H95 : (N * 95 / 100 < N)%nat)
    by (apply Nat.Div0.div_lt_upper_bound; lia).
  assert (H99 : (N * 99 / 100 < N)%nat)
    by (apply Nat.Div0.div_lt_upper_bound; lia).
  unfold latency_statistics. fold sorted. rewrite Hsl.
  change 0 with (wrap64 0) at 1. rewrite fold_wrap64_sum.
  replace (Z.of_nat N / 2) with (Z.of_nat (N / 2))
    by (rewrite Nat2Z.inj_div; reflexivity).
  rewrite at_index_nth by lia. rewrite bind_Some.
  rewrite (percentile_index_floor 0.95 95) by (exact p95_checked || lia).
  rewrite bind_Some.
  replace (Z.of_nat N * 95 / 100) with (Z.of_nat (N * 95 / 100))
    by (rewrite Nat2Z.inj_div, Nat2Z.inj_mul; reflexivity).
  rewrite at_index_nth by lia. rewrite bind_Some.
  rewrite (percentile_index_floor 0.99 99) by (exact p99_checked || lia).
  rewrite bind_Some.
  replace (Z.of_nat N * 99 / 100) with (Z.of_nat (N * 99 / 100))
    by (rewrite Nat2Z.inj_div, Nat2Z.inj_mul; reflexivity).
  rewrite at_index_nth by lia. rewrite bind_Some.
  replace (Z.of_nat N - 1) with (Z.of_nat (N - 1)) by lia.
  rewrite at_index_nth by lia.
  destruct sorted as [| x rest] eqn:Es; [simpl in Hsl; lia |].
  reflexivity.
Qed.

(** In an ascending vector a later element is not smaller. *)
Lemma Sorted_nth_le (l : list Z) :
  Sorted Z.le l ->
  forall i j, (i <= j < List.length l)%nat -> nth i l 0 <= nth j l 0.
Proof.
  intros Hs. apply Sorted_StronglySorted in Hs; [| exact Z.le_trans].
  induction Hs as [| x l Hs IH Hall]; intros i j Hij; [simpl in Hij; lia |].
  destruct j as [| j].
  - assert (i = 0%nat) by lia. subst i. reflexivity.
  - destruct i as [| i].
    + cbn [nth]. rewrite Forall_forall in Hall. apply Hall.
      apply nth_In. simpl in Hij. lia.
    + cbn [nth]. apply IH. simpl in Hij. lia.
Qed.

(** The five indices the statistics block reads are in ascending order. *)
Lemma statistics_order (sorted : list Z) (N : nat) :
  Sorted Z.le sorted ->
  List.length sorted = N ->
  (0 < N)%nat ->
  nth 0 sorted 0 <= nth (N / 2) sorted 0 /\
  nth (N / 2) sorted 0 <= nth (N * 95 / 100) sorted 0 /\
  nth (N * 95 / 100) sorted 0 <= nth (N * 99 / 100) sorted 0 /\
  nth (N * 99 / 100) sorted 0 <= nth (N - 1) sorted 0.
Proof.
  intros Hs Hsl HN.
  assert (H50 : (N / 2 <= N * 95 / 100)%nat).
  { rewrite <- (Nat.Div0.div_mul_cancel_r N 2 50) by lia.
    apply Nat.Div0.div_le_mono. lia. }
  assert (H95 : (N * 95 / 100 <= N * 99 / 100)%nat)
    by (apply Nat.Div0.div_le_mono; lia).
  assert (H99 : (N * 99 / 100 < N)%nat)
    by (apply Nat.Div0.div_lt_upper_bound; lia).
  repeat split; apply Sorted_nth_le; try exact Hs; lia.
Qed.

(** The first and the last element of the sorted vector are samples, and
    bound every sample. *)
Lemma statistics_extremes (latencies : list Z) :
  latencies <> [] ->
  let sorted := std_sort latencies in
  let N := List.length latencies in
  In (nth 0 sorted 0) latencies /\
  In (nth (N - 1) sorted 0) latencies /\
  (forall x, In x latencies -> nth 0 sorted 0 <= x <= nth (N - 1) sorted 0).
Proof.
  intros Hne sorted N.
  assert (HN : (0 < N)%nat).
  { subst N. destruct latencies; [congruence | simpl; lia]. }
  assert (Hsl : List.length sorted = N) by apply std_sort_length.
  assert (Hs : Sorted Z.le sorted) by apply std_sort_Sorted.
  assert (Hp : Permutation latencies sorted) by apply std_sort_perm.
  split.
  { apply (Permutation_in _ (Permutation_sym Hp)). apply nth_In. lia. }
  split.
  { apply (Permutation_in _ (Permutation_sym Hp)). apply nth_In. lia. }
  intros x Hx.
  apply (Permutation_in _ Hp) in Hx.
  destruct (In_nth _ _ 0 Hx) as (i & Hi & <-).
  split; apply Sorted_nth_le; try exact Hs; lia.
Qed.

(** X10: on the samples the benchmark can collect (at least one, at most
    1000) the statistics block always prints, never indexing past the end,
    and what it prints is ordered: min <= P50 <= P95 <= P99 <= max, where
    min and max are samples and bound every sample. *)
Theorem latency_statistics_ordered (latencies : list Z) :
  latencies <> [] ->
  (List.length latencies <= 1000)%nat ->
  exists s,
    latency_statistics latencies = Some s /\
    front s <= p50_latency s /\
    p50_latency s <= p95_latency s /\
    p95_latency s <= p99_latency s /\
    p99_latency s <= back s /\
    In (front s) latencies /\
    In (back s) latencies /\
    (forall x, In x latencies -> front s <= x <= back s).
Proof.
  intros Hne Hlen.
  eexists. split; [apply latency_statistics_closed; assumption |].
  cbn [front p50_latency p95_latency p99_latency back].
  assert (HN : (0 < List.length latencies)%nat).
  { destruct latencies; [congruence | simpl; lia]. }
  destruct (statistics_order (std_sort latencies) (List.length latencies)
              (std_sort_Sorted latencies) (std_sort_length latencies) HN)
    as (H1 & H2 & H3 & H4).
  destruct (statistics_extremes latencies Hne) as (Hf & Hb & Hall).
  repeat (split; [assumption |]). exact Hall.
Qed.

(** Five samples in arrival order. *)
Lemma latency_statistics_ordered_witness :
  exists s,
    latency_statistics [7; 3; 12; 3; 5] = Some s /\
    front s = 3 /\ p50_latency s = 5 /\ p99_latency s = 12 /\ back s = 12.
Proof.
  destruct (latency_statistics_ordered [7; 3; 12; 3; 5])
    as (s & E & _); [discriminate | simpl; lia |].
  exists s. split; [exact E |].
  vm_compute in E. injection E as <-. repeat split.
Defined.

End StatisticsOrder.

(** ** The scenarios, run *)

Section ScenarioRuns.

Import FPGATradingSystemTest.

Context {Dut : Type}.
Variable eval : Inputs -> Dut -> Dut.
Variable order_execution_valid : Dut -> bool.
Variable overflow : Z -> Z.

#[local] Abbreviation Harness := (Harness Dut).
#[local] Abbreviation clockCycle := (clockCycle Dut eval).
#[local] Abbreviation sendMarketData := (sendMarketData Dut eval).
#[local] Abbreviation waitForExecution :=
  (waitForExecution Dut eval order_execution_valid).

(** X11: [waitForExecution] returns for every device.  It runs clock cycles
    until the first one after which the device shows a response, at most
    [max_cycles] of them, and none if a response is already showing.  With
    a response after k cycles it counts one execution, adds k to the latency
    total and folds k into the maximum and the minimum; without one it has
    run [max_cycles] cycles and recorded nothing.  The tick counter is not
    touched. *)
Theorem waitForExecution_first_response (fuel : nat) (max_cycles : Z) (h : Harness) :
  0 <= max_cycles < 2 ^ 32 ->
  (Z.to_nat max_cycles <= fuel)%nat ->
  exists (k : nat) (h' : Harness),
    waitForExecution fuel max_cycles h = Some h' /\
    Z.of_nat k <= max_cycles /\
    (forall j, (j < k)%nat ->
               order_execution_valid (dut Dut (Nat.iter j clockCycle h)) = false) /\
    dut Dut h' = dut Dut (Nat.iter k clockCycle h) /\
    trace Dut h' = trace Dut (Nat.iter k clockCycle h) /\
    cycle_count Dut h' = cycle_count Dut (Nat.iter k clockCycle h) /\
    total_ticks Dut h' = total_ticks Dut h /\
    if order_execution_valid (dut Dut h')
    then total_executions Dut h' = wrap64 (total_executions Dut h + 1) /\
         total_latency Dut h' = wrap64 (total_latency Dut h + Z.of_nat k) /\
         max_latency Dut h' = Z.max (Z.of_nat k) (max_latency Dut h) /\
         min_latency Dut h' = Z.min (Z.of_nat k) (min_latency Dut h)
    else Z.of_nat k = max_cycles /\ unrecorded h h'.
Proof.
  intros Hmax Hfuel.
  destruct (waitForExecution_run eval order_execution_valid fuel max_cycles h
              Hmax Hfuel)
    as (k & Hk & Hsil & Hcase).
  destruct (iter_clockCycle_counters eval k h) as (Htt & Hte & Htl & Hmx & Hmn).
  destruct Hcase as [(Ev & E) | (Ev & Hend & E)].
  - exists k, (recorded (Z.of_nat k) (Nat.iter k clockCycle h)).
    split; [exact E |]. split; [exact Hk |]. split; [exact Hsil |].
    do 3 (split; [reflexivity |]).
    split; [exact Htt |].
    change (dut Dut (recorded (Z.of_nat k) (Nat.iter k clockCycle h)))
      with (dut Dut (Nat.iter k clockCycle h)).
    rewrite Ev. unfold recorded.
    cbn [total_executions total_latency max_latency min_latency].
    rewrite Hte, Htl, Hmx, Hmn. repeat split.
  - exists k, (Nat.iter k clockCycle h).
    split; [exact E |]. split; [exact Hk |]. split; [exact Hsil |].
    do 3 (split; [reflexivity |]).
    split; [exact Htt |].
    rewrite Ev. split; [exact Hend |].
    repeat split; assumption.
Qed.


(** Recording a response changes the execution counter only among the three
    counters. *)
Lemma recorded_step (latency : Z) (h : Harness) :
  advances 0 0 1 h (recorded latency h).
Proof.
  apply advances_frame; try reflexivity;
    [apply counts_to_refl | apply counts_to_wrap].
Qed.

(** [waitForExecution] in terms of the counters. *)
Lemma waitForExecution_advances (fuel : nat) (max_cycles : Z) (h : Harness) :
  0 <= max_cycles < 2 ^ 32 ->
  (Z.to_nat max_cycles <= fuel)%nat ->
  exists (k e : Z) (hw : Harness),
    waitForExecution fuel max_cycles h = Some hw /\
    0 <= k <= max_cycles /\
    advances k 0 e h hw /\
    ((e = 1 /\ order_execution_valid (dut Dut hw) = true) \/
     (e = 0 /\ order_execution_valid (dut Dut hw) = false)).
Proof.
  intros Hmax Hfuel.
  destruct (waitForExecution_run eval order_execution_valid fuel max_cycles h
              Hmax Hfuel)
    as (k & Hk & _ & Hcase).
  destruct (iter_clockCycle_step eval k h) as (Ha & _ & _).
  destruct Hcase as [(Ev & E) | (Ev & _ & E)].
  - exists (Z.of_nat k), 1, (recorded (Z.of_nat k) (Nat.iter k clockCycle h)).
    split; [exact E |]. split; [lia |].
    split; [| left; split; [reflexivity | exact Ev]].
    pose proof (advances_trans _ _ _ _ _ _ _ _ _ Ha
                  (recorded_step (Z.of_nat k) (Nat.iter k clockCycle h))) as H.
    rewrite Z.add_0_r in H. exact H.
  - exists (Z.of_nat k), 0, (Nat.iter k clockCycle h).
    split; [exact E |]. split; [lia |].
    split; [exact Ha | right; split; [reflexivity | exact Ev]].
Qed.

Lemma collect_latencies_S (fuel n : nat) (i : Z) (h : Harness) (l : list Z) :
  collect_latencies Dut eval order_execution_valid fuel (S n) i (h, l)
  = (hw <- waitForExecution fuel 100
             (sendMarketData (nth 0 (symbol_codes Dut h) 0)
                (wrap32 (0x96000000 + i)) 0x64000000 0x41 h) ;;
     collect_latencies Dut eval order_execution_valid fuel n (i + 1)
       (Nat.iter 5 clockCycle hw,
        if order_execution_valid (dut Dut hw)
        then l ++ [wrap64 (cycle_count Dut hw - cycle_count Dut h)]
        else l)).
Proof. reflexivity. Qed.

(** The sampling loop of the benchmark over an arbitrary device. *)
Lemma collect_latencies_run (fuel : nat) :
  (100 <= fuel)%nat ->
  forall (n : nat) (i : Z) (h : Harness) (l : list Z),
    exists (h' : Harness) (new : list Z) (k : Z),
      collect_latencies Dut eval order_execution_valid fuel n i (h, l)
      = Some (h', l ++ new) /\
      Forall (fun x => 1 <= x <= 101) new /\
      advances k (Z.of_nat n) (Z.of_nat (List.length new)) h h' /\
      6 * Z.of_nat n <= k <= 106 * Z.of_nat n /\
      (List.length new <= n)%nat.
Proof.
  intros Hfuel n.
  induction n as [| n IH]; intros i h l.
  - exists h, [], 0. cbn [collect_latencies List.length Z.of_nat].
    rewrite app_nil_r.
    split; [reflexivity |]. split; [constructor |].
    split; [apply advances_refl | lia].
  - rewrite collect_latencies_S.
    set (h1 := sendMarketData (nth 0 (symbol_codes Dut h) 0)
                 (wrap32 (0x96000000 + i)) 0x64000000 0x41 h).
    destruct (sendMarketData_step eval (nth 0 (symbol_codes Dut h) 0)
                (wrap32 (0x96000000 + i)) 0x64000000 0x41 h) as (Ha1 & _).
    fold h1 in Ha1.
    destruct (waitForExecution_advances fuel 100 h1)
      as (k & e & hw & E & Hk & Haw & Hcase); [lia | simpl; lia |].
    rewrite E, bind_Some.
    pose proof (advances_trans _ _ _ _ _ _ _ _ _ Ha1 Haw) as Ha.
    destruct (iter_clockCycle_step eval 5 hw) as (Ha5 & _ & _).
    pose proof (advances_trans _ _ _ _ _ _ _ _ _ Ha Ha5) as Ha'.
    destruct Hcase as [(-> & Ev) | (-> & Ev)]; rewrite Ev.
    + destruct (IH (i + 1) (Nat.iter 5 clockCycle hw)
                  (l ++ [wrap64 (cycle_count Dut hw - cycle_count Dut h)]))
        as (h' & new & k' & E' & Hall & Hadv & Hk' & Hlen).
      exists h', (wrap64 (cycle_count Dut hw - cycle_count Dut h) :: new),
             (1 + k + Z.of_nat 5 + k').
      split; [rewrite E', <- app_assoc; reflexivity |].
      split.
      { constructor; [| exact Hall].
        rewrite (counts_to_elapsed _ _ (1 + k) (proj1 Ha)) by lia. lia. }
      split.
      { pose proof (advances_trans _ _ _ _ _ _ _ _ _ Ha' Hadv) as H.
        replace (Z.of_nat (S n)) with (1 + 0 + 0 + Z.of_nat n) by lia.
        replace (Z.of_nat (List.length
                   (wrap64 (cycle_count Dut hw - cycle_count Dut h) :: new)))
          with (0 + 1 + 0 + Z.of_nat (List.length new))
          by (cbn [List.length]; lia).
        exact H. }
      cbn [List.length]. lia.
    + destruct (IH (i + 1) (Nat.iter 5 clockCycle hw) l)
        as (h' & new & k' & E' & Hall & Hadv & Hk' & Hlen).
      exists h', new, (1 + k + Z.of_nat 5 + k').
      split; [exact E' |]. split; [exact Hall |].
      split.
      { pose proof (advances_trans _ _ _ _ _ _ _ _ _ Ha' Hadv) as H.
        replace (Z.of_nat (S n)) with (1 + 0 + 0 + Z.of_nat n) by lia.
        replace (Z.of_nat (List.length new))
          with (0 + 0 + 0 + Z.of_nat (List.length new)) by lia.
        exact H. }
      lia.
Qed.

(** [runLatencyBenchmark] in terms of the counters. *)
Lemma runLatencyBenchmark_advances (fuel : nat) (h : Harness) :
  (100 <= fuel)%nat ->
  exists (h' : Harness) (r : option LatencyStatistics) (k e : Z),
    runLatencyBenchmark Dut eval order_execution_valid fuel h = Some (h', r) /\
    advances k 1000 e h h' /\
    6000 <= k <= 106000 /\
    0 <= e <= 1000.
Proof.
  intros Hfuel.
  destruct (collect_latencies_run fuel Hfuel 1000 0 h [])
    as (h' & new & k & E & _ & Hadv & Hk & Hlen).
  cbn [app] in E.
  unfold runLatencyBenchmark. rewrite E, bind_Some. cbv beta iota zeta.
  destruct new as [| x new'] eqn:Enew.
  - exists h', None, k, 0.
    cbn [report_statistics]. rewrite bind_Some.
    split; [reflexivity |]. split; [exact Hadv |]. lia.
  - rewrite <- Enew in *.
    assert (Hne : new <> []) by (rewrite Enew; discriminate).
    pose proof (latency_statistics_closed new Hne Hlen) as Es. cbv zeta in Es.
    eexists h', (Some _), k, (Z.of_nat (List.length new)).
    split.
    { rewrite Enew in Es |- *. cbn [report_statistics].
      rewrite Es, !bind_Some. reflexivity. }
    split; [exact Hadv |]. lia.
Qed.

(** X12: [runLatencyBenchmark] returns for every device.  It sends 1000
    messages, takes between 6000 and 106000 cycles and counts at most 1000
    executions.  The statistics are printed exactly when at least one
    execution was counted, and then 1 <= min <= P50 <= P95 <= P99 <= max
    <= 101: a sample includes the cycle of its message and at most the 100
    cycles of the wait. *)
Theorem runLatencyBenchmark_bounds (fuel : nat) (h : Harness) :
  (100 <= fuel)%nat ->
  exists (h' : Harness) (r : option LatencyStatistics) (k e : Z),
    runLatencyBenchmark Dut eval order_execution_valid fuel h = Some (h', r) /\
    advances k 1000 e h h' /\
    6000 <= k <= 106000 /\
    0 <= e <= 1000 /\
    match r with
    | None => e = 0
    | Some s =>
        1 <= e /\
        1 <= front s /\ front s <= p50_latency s /\
        p50_latency s <= p95_latency s /\ p95_latency s <= p99_latency s /\
        p99_latency s <= back s /\ back s <= 101
    end.
Proof.
  intros Hfuel.
  destruct (collect_latencies_run fuel Hfuel 1000 0 h [])
    as (h' & new & k & E & Hall & Hadv & Hk & Hlen).
  cbn [app] in E.
  unfold runLatencyBenchmark. rewrite E, bind_Some. cbv beta iota zeta.
  destruct new as [| x new'] eqn:Enew.
  - exists h', None, k, 0.
    cbn [report_statistics]. rewrite bind_Some.
    split; [reflexivity |]. split; [exact Hadv |]. lia.
  - rewrite <- Enew in *.
    assert (Hne : new <> []) by (rewrite Enew; discriminate).
    assert (HN : (0 < List.length new)%nat)
      by (rewrite Enew; cbn [List.length]; lia).
    pose proof (latency_statistics_closed new Hne Hlen) as Es. cbv zeta in Es.
    destruct (statistics_order (std_sort new) (List.length new)
                (std_sort_Sorted new) (std_sort_length new) HN)
      as (H1 & H2 & H3 & H4).
    destruct (statistics_extremes new Hne) as (Hf & Hb & _).
    rewrite Forall_forall in Hall.
    pose proof (Hall _ Hf) as Hf'. pose proof (Hall _ Hb) as Hb'.
    eexists h', (Some _), k, (Z.of_nat (List.length new)).
    split.
    { rewrite Enew in Es |- *. cbn [report_statistics].
      rewrite Es, !bind_Some. reflexivity. }
    split; [exact Hadv |]. split; [lia |]. split; [lia |].
    cbn [front p50_latency p95_latency p99_latency back].
    split; [lia |]. split; [lia |].
    repeat (split; [assumption |]). lia.
Qed.

(** Cycles without a change of the inputs. *)
Lemma idle_cycles (n : nat) (h : Harness) (r v : bool) (w ty : Z) :
  inputs Dut h = mkInputs true r v w ty ->
  drives h (Nat.iter n clockCycle h)
    (List.concat (repeat (cycle_ports r v w ty) n)) /\
  inputs Dut (Nat.iter n clockCycle h) = mkInputs true r v w ty.
Proof.
  intros Hi.
  destruct (iter_clockCycle_trace eval n h) as (samples & T & P & _ & Hin).
  split.
  - exists samples. split; [exact T |]. rewrite P, Hi. reflexivity.
  - destruct n as [| n]; [exact Hi |].
    rewrite Hin by discriminate. rewrite Hi. reflexivity.
Qed.

Lemma symbol_code_at_nth (i : Z) (h : Harness) :
  (Z.to_nat i < List.length (symbol_codes Dut h))%nat ->
  symbol_code_at Dut i h = Some (nth (Z.to_nat i) (symbol_codes Dut h) 0).
Proof. intros Hi. unfold symbol_code_at. apply nth_error_nth'. exact Hi. Qed.

Lemma symbol_idx_at (i : Z) (h : Harness) :
  0 <= i ->
  (5 <= List.length (symbol_codes Dut h))%nat ->
  symbol_code_at Dut (wrap32 (i mod Z.of_nat (List.length symbols))) h
  = Some (nth (Z.to_nat (i mod 5)) (symbol_codes Dut h) 0).
Proof.
  intros Hi Hlen.
  change (Z.of_nat (List.length symbols)) with 5.
  pose proof (Z.mod_pos_bound i 5 ltac:(lia)) as Hm.
  rewrite wrap32_small by lia.
  apply symbol_code_at_nth. lia.
Qed.

Lemma multi_symbol_loop_S (n : nat) (i : Z) (h : Harness) :
  multi_symbol_loop Dut eval (S n) i h
  = (code <- symbol_code_at Dut i h ;;
     multi_symbol_loop Dut eval n (i + 1)
       (Nat.iter 5 clockCycle
          (sendMarketData code (wrap32 (0x96000000 + i * 0x01000000))
             (wrap32 (0x64000000 + i * 0x10000000)) 0x41 h))).
Proof. reflexivity. Qed.

Lemma multi_symbol_loop_run (n : nat) :
  forall (i : Z) (h : Harness),
    0 <= i ->
    (Z.to_nat i + n <= List.length (symbol_codes Dut h))%nat ->
    exists h',
      multi_symbol_loop Dut eval n i h = Some h' /\
      advances (6 * Z.of_nat n) (Z.of_nat n) 0 h h' /\
      unrecorded h h' /\
      rst_n (inputs Dut h') = rst_n (inputs Dut h) /\
      drives h h'
        (flat_map (multi_symbol_stimulus (rst_n (inputs Dut h)) (symbol_codes Dut h))
           (Z_range i n)).
Proof.
  induction n as [| n IH]; intros i h Hi Hlen.
  - exists h. cbn [multi_symbol_loop Z_range flat_map].
    split; [reflexivity |]. split; [apply advances_refl |].
    split; [apply unrecorded_refl |]. split; [reflexivity | apply drives_refl].
  - rewrite multi_symbol_loop_S.
    rewrite symbol_code_at_nth by lia. rewrite bind_Some.
    set (code := nth (Z.to_nat i) (symbol_codes Dut h) 0).
    set (price := wrap32 (0x96000000 + i * 0x01000000)).
    set (volume := wrap32 (0x64000000 + i * 0x10000000)).
    destruct (sendMarketData_step eval code price volume 0x41 h)
      as (Ha1 & Hu1 & Hd1 & Hi1).
    set (h1 := sendMarketData code price volume 0x41 h) in *.
    destruct (iter_clockCycle_step eval 5 h1) as (Ha5 & Hu5 & Hs5).
    destruct (idle_cycles 5 h1 _ _ _ _ Hi1) as (Hd5 & Hi5).
    set (h2 := Nat.iter 5 clockCycle h1) in *.
    assert (Hcodes : symbol_codes Dut h2 = symbol_codes Dut h).
    { rewrite Hs5. exact (advances_codes _ _ _ _ _ Ha1). }
    destruct (IH (i + 1) h2) as (h' & E & Ha & Hu & Hr & Hd);
      [lia | rewrite Hcodes; lia |].
    exists h'. split; [exact E |].
    split.
    { pose proof (advances_trans _ _ _ _ _ _ _ _ _
                    (advances_trans _ _ _ _ _ _ _ _ _ Ha1 Ha5) Ha) as H.
      replace (6 * Z.of_nat (S n)) with (1 + Z.of_nat 5 + 6 * Z.of_nat n) by lia.
      replace (Z.of_nat (S n)) with (1 + 0 + Z.of_nat n) by lia.
      exact H. }
    split; [exact (unrecorded_trans _ _ _ (unrecorded_trans _ _ _ Hu1 Hu5) Hu) |].
    split; [rewrite Hr, Hi5; reflexivity |].
    cbn [Z_range flat_map].
    rewrite Hi5, Hcodes in Hd. cbn [rst_n] in Hd.
    exact (drives_trans _ _ _ _ _ (drives_trans _ _ _ _ _ Hd1 Hd5) Hd).
Qed.

(** X13: given the five symbol codes, [runMultiSymbolTest] applies the same
    stimulus to every device: for symbol i = 0..4 the word made of its code
    and the price 0x96000000 + i * 0x01000000, kind Add, for one cycle with
    input-valid high and five cycles with input-valid low.  That takes 30
    cycles and counts 5 ticks; no response is looked for and none is
    recorded. *)
Theorem runMultiSymbolTest_stimulus (h : Harness) :
  (5 <= List.length (symbol_codes Dut h))%nat ->
  exists h',
    runMultiSymbolTest Dut eval h = Some h' /\
    advances 30 5 0 h h' /\
    unrecorded h h' /\
    drives h h'
      (flat_map (multi_symbol_stimulus (rst_n (inputs Dut h)) (symbol_codes Dut h))
         [0; 1; 2; 3; 4]).
Proof.
  intros Hlen.
  destruct (multi_symbol_loop_run 5 0 h) as (h' & E & Ha & Hu & _ & Hd);
    [lia | simpl; lia |].
  exists h'. split; [exact E |]. split; [exact Ha |].
  split; [exact Hu | exact Hd].
Qed.

Lemma high_frequency_loop_S (n : nat) (i : Z) (h : Harness) :
  high_frequency_loop Dut eval overflow (S n) i h
  = (code <- symbol_code_at Dut (wrap32 (i mod Z.of_nat (List.length symbols))) h ;;
     high_frequency_loop Dut eval overflow n (i + 1)
       (let h1 := sendMarketData code (wrap32 (0x96000000 + i mod 1000))
                    (wrap32 (int_result overflow
                               (0x64000000
                                + int_result overflow ((i mod 100) * 0x01000000))))
                    0x41 h in
        if i mod 100 =? 0 then clockCycle h1 else h1)).
Proof. reflexivity. Qed.

Lemma extra_cycles_S (i : Z) (n : nat) :
  extra_cycles i (S n)
  = (if i mod 100 =? 0 then 1 else 0) + extra_cycles (i + 1) n.
Proof.
  unfold extra_cycles. cbn [Z_range filter].
  destruct (i mod 100 =? 0); cbn [List.length]; lia.
Qed.

Lemma high_frequency_loop_run (n : nat) :
  forall (i : Z) (h : Harness),
    0 <= i ->
    (5 <= List.length (symbol_codes Dut h))%nat ->
    exists h',
      high_frequency_loop Dut eval overflow n i h = Some h' /\
      advances (Z.of_nat n + extra_cycles i n) (Z.of_nat n) 0 h h' /\
      unrecorded h h'.
Proof.
  induction n as [| n IH]; intros i h Hi Hlen.
  - exists h. split; [reflexivity |].
    split; [apply advances_refl | apply unrecorded_refl].
  - rewrite high_frequency_loop_S, symbol_idx_at, bind_Some by assumption.
    cbv zeta.
    set (code := nth (Z.to_nat (i mod 5)) (symbol_codes Dut h) 0).
    set (price := wrap32 (0x96000000 + i mod 1000)).
    set (volume := wrap32 (int_result overflow
                             (0x64000000
                              + int_result overflow ((i mod 100) * 0x01000000)))).
    destruct (sendMarketData_step eval code price volume 0x41 h)
      as (Ha1 & Hu1 & _).
    set (h1 := sendMarketData code price volume 0x41 h) in *.
    rewrite extra_cycles_S.
    destruct (i mod 100 =? 0).
    + destruct (clockCycle_step eval h1) as (Ha2 & Hu2 & _).
      pose proof (advances_trans _ _ _ _ _ _ _ _ _ Ha1 Ha2) as Ha12.
      destruct (IH (i + 1) (clockCycle h1)) as (h' & E & Ha & Hu);
        [lia | rewrite (advances_codes _ _ _ _ _ Ha12); exact Hlen |].
      exists h'. split; [exact E |].
      split; [| exact (unrecorded_trans _ _ _
                         (unrecorded_trans _ _ _ Hu1 Hu2) Hu)].
      pose proof (advances_trans _ _ _ _ _ _ _ _ _ Ha12 Ha) as H.
      replace (Z.of_nat (S n) + (1 + extra_cycles (i + 1) n))
        with (1 + 1 + (Z.of_nat n + extra_cycles (i + 1) n)) by lia.
      replace (Z.of_nat (S n)) with (1 + 0 + Z.of_nat n) by lia.
      exact H.
    + destruct (IH (i + 1) h1) as (h' & E & Ha & Hu);
        [lia | rewrite (advances_codes _ _ _ _ _ Ha1); exact Hlen |].
      exists h'. split; [exact E |].
      split; [| exact (unrecorded_trans _ _ _ Hu1 Hu)].
      pose proof (advances_trans _ _ _ _ _ _ _ _ _ Ha1 Ha) as H.
      replace (Z.of_nat (S n) + (0 + extra_cycles (i + 1) n))
        with (1 + (Z.of_nat n + extra_cycles (i + 1) n)) by lia.
      replace (Z.of_nat (S n)) with (1 + Z.of_nat n) by lia.
      exact H.
Qed.

Lemma extra_cycles_10000 : extra_cycles 0 (Z.to_nat 10000) = 100.
Proof. vm_compute. reflexivity. Qed.

(** X14: given the five symbol codes, [runHighFrequencyTest] sends 10000
    messages in 10100 cycles whatever the device does, records no response,
    and the average it prints is the constant 1.01 cycles per tick.  The
    [int] overflow in its unused volume expression has no influence. *)
Theorem runHighFrequencyTest_constant_average (h : Harness) :
  (5 <= List.length (symbol_codes Dut h))%nat ->
  exists h',
    runHighFrequencyTest Dut eval overflow h = Some (h', 1.01%float) /\
    advances 10100 10000 0 h h' /\
    unrecorded h h'.
Proof.
  intros Hlen.
  destruct (high_frequency_loop_run (Z.to_nat 10000) 0 h) as (h' & E & Ha & Hu);
    [lia | exact Hlen |].
  rewrite extra_cycles_10000 in Ha.
  rewrite Z2Nat.id in Ha by lia.
  change (10000 + 100) with 10100 in Ha.
  exists h'. unfold runHighFrequencyTest. rewrite E, bind_Some.
  rewrite (counts_to_elapsed _ _ 10100 (proj1 Ha)) by lia.
  split; [| split; assumption].
  f_equal.
Qed.

Lemma stress_loop_S (n : nat) (i : Z) (h : Harness) :
  stress_loop Dut eval overflow (S n) i h
  = (code <- symbol_code_at Dut (wrap32 (i mod Z.of_nat (List.length symbols))) h ;;
     stress_loop Dut eval overflow n (i + 1)
       (sendMarketData code (wrap32 (0x96000000 + i mod 10000))
          (wrap32 (int_result overflow
                     (0x64000000
                      + int_result overflow ((i mod 1000) * 0x01000000))))
          (stress_msg_type i) h)).
Proof. reflexivity. Qed.

Lemma stress_loop_run (n : nat) :
  forall (i : Z) (h : Harness),
    0 <= i ->
    (5 <= List.length (symbol_codes Dut h))%nat ->
    exists h',
      stress_loop Dut eval overflow n i h = Some h' /\
      advances (Z.of_nat n) (Z.of_nat n) 0 h h' /\
      unrecorded h h' /\
      rst_n (inputs Dut h') = rst_n (inputs Dut h) /\
      drives h h'
        (flat_map (stress_stimulus (rst_n (inputs Dut h)) (symbol_codes Dut h))
           (Z_range i n)).
Proof.
  induction n as [| n IH]; intros i h Hi Hlen.
  - exists h. cbn [stress_loop Z_range flat_map].
    split; [reflexivity |]. split; [apply advances_refl |].
    split; [apply unrecorded_refl |]. split; [reflexivity | apply drives_refl].
  - rewrite stress_loop_S, symbol_idx_at, bind_Some by assumption.
    set (code := nth (Z.to_nat (i mod 5)) (symbol_codes Dut h) 0).
    set (price := wrap32 (0x96000000 + i mod 10000)).
    set (volume := wrap32 (int_result overflow
                             (0x64000000
                              + int_result overflow ((i mod 1000) * 0x01000000)))).
    destruct (sendMarketData_step eval code price volume (stress_msg_type i) h)
      as (Ha1 & Hu1 & Hd1 & Hi1).
    set (h1 := sendMarketData code price volume (stress_msg_type i) h) in *.
    assert (Hcodes : symbol_codes Dut h1 = symbol_codes Dut h)
      by exact (advances_codes _ _ _ _ _ Ha1).
    destruct (IH (i + 1) h1) as (h' & E & Ha & Hu & Hr & Hd);
      [lia | rewrite Hcodes; exact Hlen |].
    exists h'. split; [exact E |].
    split.
    { pose proof (advances_trans _ _ _ _ _ _ _ _ _ Ha1 Ha) as H.
      replace (Z.of_nat (S n)) with (1 + Z.of_nat n) by lia.
      exact H. }
    split; [exact (unrecorded_trans _ _ _ Hu1 Hu) |].
    split; [rewrite Hr, Hi1; reflexivity |].
    cbn [Z_range flat_map].
    rewrite Hi1, Hcodes in Hd. cbn [rst_n] in Hd.
    exact (drives_trans _ _ _ _ _ Hd1 Hd).
Qed.

Lemma runStressTest_run (h : Harness) :
  (5 <= List.length (symbol_codes Dut h))%nat ->
  exists h',
    runStressTest Dut eval overflow h = Some h' /\
    advances 50000 50000 0 h h' /\
    unrecorded h h' /\
    drives h h'
      (flat_map (stress_stimulus (rst_n (inputs Dut h)) (symbol_codes Dut h))
         (Z_range 0 (Z.to_nat 50000))).
Proof.
  intros Hlen.
  destruct (stress_loop_run (Z.to_nat 50000) 0 h) as (h' & E & Ha & Hu & _ & Hd);
    [lia | exact Hlen |].
  rewrite Z2Nat.id in Ha by lia.
  exists h'. split; [exact E |]. split; [exact Ha |].
  split; [exact Hu | exact Hd].
Qed.

(** X15: given the five symbol codes, [runStressTest] applies the same
    stimulus to every device: message i = 0..49999 carries the code of
    symbol i mod 5, the price 0x96000000 + i mod 10000 and the kind
    [stress_msg_type i], for exactly one cycle each.  Input-valid is high at
    every one of the evaluations: the device never sees it low between two
    messages.  50000 ticks are counted in 50000 cycles, and no response is
    looked for or recorded. *)
Theorem runStressTest_stimulus (h : Harness) :
  (5 <= List.length (symbol_codes Dut h))%nat ->
  exists (h' : Harness) (samples : list (Sample Dut)),
    runStressTest Dut eval overflow h = Some h' /\
    advances 50000 50000 0 h h' /\
    unrecorded h h' /\
    trace Dut h' = trace Dut h ++ samples /\
    map (ports Dut) samples
    = flat_map (stress_stimulus (rst_n (inputs Dut h)) (symbol_codes Dut h))
        (Z_range 0 (Z.to_nat 50000)) /\
    Forall (fun s => market_data_valid (ports Dut s) = true) samples.
Proof.
  intros Hlen.
  destruct (runStressTest_run h Hlen) as (h' & E & Ha & Hu & samples & T & P).
  exists h', samples.
  split; [exact E |]. split; [exact Ha |]. split; [exact Hu |].
  split; [exact T |]. split; [exact P |].
  apply Forall_forall. intros s Hs.
  apply (in_map (ports Dut)) in Hs. rewrite P in Hs.
  apply in_flat_map in Hs. destruct Hs as (i & _ & Hin).
  destruct Hin as [<- | [<- | []]]; reflexivity.
Qed.

Lemma map_flat_map {A B C : Type} (g : B -> C) (f : A -> list B) (l : list A) :
  map g (flat_map f l) = flat_map (fun x => map g (f x)) l.
Proof.
  induction l as [| x l IH]; [reflexivity |].
  cbn [flat_map]. rewrite map_app, IH. reflexivity.
Qed.

Lemma flat_map_of_map {A B C : Type} (f : B -> list C) (g : A -> B) (l : list A) :
  flat_map f (map g l) = flat_map (fun x => f (g x)) l.
Proof.
  induction l as [| x l IH]; [reflexivity |].
  cbn [map flat_map]. rewrite IH. reflexivity.
Qed.

Lemma stress_msg_type_30 (i : Z) : i mod 30 = 0 -> stress_msg_type i = 0x58.
Proof.
  intros Hi. unfold stress_msg_type.
  replace (i mod 15) with 0 by (Z.div_mod_to_equations; lia).
  reflexivity.
Qed.

Lemma stress_kinds :
  Z.of_nat (count_occ Z.eq_dec (map stress_msg_type (Z_range 0 (Z.to_nat 50000))) 0x41)
  = 43333 /\
  Z.of_nat (count_occ Z.eq_dec (map stress_msg_type (Z_range 0 (Z.to_nat 50000))) 0x45)
  = 3333 /\
  Z.of_nat (count_occ Z.eq_dec (map stress_msg_type (Z_range 0 (Z.to_nat 50000))) 0x58)
  = 3334.
Proof. vm_compute. repeat split. Qed.

(** X16: the mix of message kinds in [runStressTest].  The kinds the device
    is shown, two evaluations per message, are those of [stress_msg_type]:
    of the 50000 messages 43333 are Add (0x41), 3333 Execute (0x45) and 3334
    Cancel (0x58), and there is no other kind.  Every multiple of 30 is a
    Cancel, as the test for 15 comes last. *)
Theorem runStressTest_message_mix (h : Harness) :
  (5 <= List.length (symbol_codes Dut h))%nat ->
  exists (h' : Harness) (samples : list (Sample Dut)),
    runStressTest Dut eval overflow h = Some h' /\
    trace Dut h' = trace Dut h ++ samples /\
    let sent := map stress_msg_type (Z_range 0 (Z.to_nat 50000)) in
    map (fun s => market_data_type (ports Dut s)) samples
    = flat_map (fun kind => [kind; kind]) sent /\
    Z.of_nat (List.length sent) = 50000 /\
    Z.of_nat (count_occ Z.eq_dec sent 0x41) = 43333 /\
    Z.of_nat (count_occ Z.eq_dec sent 0x45) = 3333 /\
    Z.of_nat (count_occ Z.eq_dec sent 0x58) = 3334 /\
    (forall i, i mod 30 = 0 -> stress_msg_type i = 0x58).
Proof.
  intros Hlen.
  destruct (runStressTest_run h Hlen) as (h' & E & _ & _ & samples & T & P).
  exists h', samples.
  split; [exact E |]. split; [exact T |].
  cbv zeta. split.
  { rewrite <- (map_map (ports Dut) market_data_type), P, map_flat_map.
    rewrite flat_map_of_map. reflexivity. }
  split; [vm_compute; reflexivity |].
  destruct stress_kinds as (A & B & C).
  split; [exact A |]. split; [exact B |]. split; [exact C |].
  exact stress_msg_type_30.
Qed.

Lemma runBasicFunctionalTest_advances (fuel : nat) (h : Harness) :
  (100 <= fuel)%nat ->
  (1 <= List.length (symbol_codes Dut h))%nat ->
  exists (h' : Harness) (k e : Z),
    runBasicFunctionalTest Dut eval order_execution_valid fuel h = Some h' /\
    advances k 1 e h h' /\
    11 <= k <= 111 /\
    0 <= e <= 1.
Proof.
  intros Hfuel Hlen.
  unfold runBasicFunctionalTest.
  rewrite symbol_code_at_nth by (simpl; lia). rewrite bind_Some.
  set (code := nth (Z.to_nat 0) (symbol_codes Dut h) 0).
  destruct (sendMarketData_step eval code 0x96000000 0x64000000 0x41 h)
    as (Ha1 & _).
  set (h1 := sendMarketData code 0x96000000 0x64000000 0x41 h) in *.
  destruct (waitForExecution_advances fuel 100 h1)
    as (k & e & hw & E & Hk & Haw & Hcase); [lia | simpl; lia |].
  rewrite E, bind_Some.
  destruct (iter_clockCycle_step eval 10 hw) as (Ha10 & _).
  exists (Nat.iter 10 clockCycle hw), (1 + k + Z.of_nat 10), e.
  split; [reflexivity |].
  split.
  { pose proof (advances_trans _ _ _ _ _ _ _ _ _
                  (advances_trans _ _ _ _ _ _ _ _ _ Ha1 Haw) Ha10) as H.
    replace e with (0 + e + 0) at 1 by lia. exact H. }
  split; [lia |].
  destruct Hcase as [(-> & _) | (-> & _)]; lia.
Qed.

Lemma set_inputs_frame (i : Inputs) (x : Harness) :
  advances 0 0 0 x (set_inputs Dut i x).
Proof. apply advances_frame; try reflexivity; apply counts_to_refl. Qed.

Lemma release_reset_frame (x : Harness) : advances 0 0 0 x (release_reset Dut x).
Proof. apply set_inputs_frame. Qed.

Lemma reset_advances (h : Harness) : advances 6 0 0 h (reset Dut eval h).
Proof.
  rewrite reset_unfold.
  pose proof (set_inputs_frame (mkInputs false false false 0 0) h) as A0.
  pose proof (proj1 (iter_clockCycle_step eval 5 (clear_inputs Dut h))) as A1.
  pose proof (release_reset_frame (Nat.iter 5 clockCycle (clear_inputs Dut h)))
    as A2.
  pose proof (proj1 (clockCycle_step eval
                       (release_reset Dut
                          (Nat.iter 5 clockCycle (clear_inputs Dut h))))) as A3.
  exact (advances_trans _ _ _ _ _ _ _ _ _
           (advances_trans _ _ _ _ _ _ _ _ _
              (advances_trans _ _ _ _ _ _ _ _ _ A0 A1) A2) A3).
Qed.

Lemma runAllTests_advances (fuel : nat) (h : Harness) :
  (100 <= fuel)%nat ->
  (5 <= List.length (symbol_codes Dut h))%nat ->
  exists (h' : Harness) (k e : Z),
    runAllTests Dut eval order_execution_valid overflow fuel h = Some h' /\
    advances k 61006 e h h' /\
    66147 <= k <= 166247 /\
    0 <= e <= 1001.
Proof.
  intros Hfuel Hlen.
  unfold runAllTests.
  pose proof (reset_advances h) as Ha0.
  set (h0 := reset Dut eval h) in *.
  assert (Hl0 : (5 <= List.length (symbol_codes Dut h0))%nat)
    by (rewrite (advances_codes _ _ _ _ _ Ha0); exact Hlen).
  destruct (runBasicFunctionalTest_advances fuel h0 Hfuel ltac:(lia))
    as (h1 & k1 & e1 & E1 & Ha1 & Hk1 & He1).
  rewrite E1, bind_Some.
  assert (Hl1 : (5 <= List.length (symbol_codes Dut h1))%nat)
    by (rewrite (advances_codes _ _ _ _ _ Ha1); exact Hl0).
  destruct (multi_symbol_loop_run 5 0 h1) as (h2 & E2 & Ha2 & _);
    [lia | simpl; lia |].
  unfold runMultiSymbolTest. change (List.length symbols) with 5%nat.
  rewrite E2, bind_Some.
  assert (Hl2 : (5 <= List.length (symbol_codes Dut h2))%nat)
    by (rewrite (advances_codes _ _ _ _ _ Ha2); exact Hl1).
  destruct (high_frequency_loop_run (Z.to_nat 10000) 0 h2) as (h3 & E3 & Ha3 & _);
    [lia | exact Hl2 |].
  rewrite extra_cycles_10000 in Ha3. rewrite Z2Nat.id in Ha3 by lia.
  unfold runHighFrequencyTest. rewrite E3, !bind_Some. cbn [fst].
  assert (Hl3 : (5 <= List.length (symbol_codes Dut h3))%nat)
    by (rewrite (advances_codes _ _ _ _ _ Ha3); exact Hl2).
  destruct (runLatencyBenchmark_advances fuel h3 Hfuel)
    as (h4 & r & k4 & e4 & E4 & Ha4 & Hk4 & He4).
  rewrite E4, bind_Some. cbn [fst].
  assert (Hl4 : (5 <= List.length (symbol_codes Dut h4))%nat)
    by (rewrite (advances_codes _ _ _ _ _ Ha4); exact Hl3).
  destruct (runStressTest_run h4 Hl4) as (h5 & E5 & Ha5 & _).
  exists h5, (6 + k1 + 6 * Z.of_nat 5 + (10000 + 100) + k4 + 50000), (e1 + e4).
  split; [exact E5 |].
  split; [| lia].
  pose proof (advances_trans _ _ _ _ _ _ _ _ _
                (advances_trans _ _ _ _ _ _ _ _ _
                   (advances_trans _ _ _ _ _ _ _ _ _
                      (advances_trans _ _ _ _ _ _ _ _ _
                         (advances_trans _ _ _ _ _ _ _ _ _ Ha0 Ha1) Ha2) Ha3)
                   Ha4) Ha5) as H.
  replace (e1 + e4) with (0 + e1 + 0 + 0 + e4 + 0) by lia.
  exact H.
Qed.

(** X17: the whole program.  On the harness as constructed, [runAllTests]
    returns for every device, has sent 61006 messages, has counted at most
    1001 executions (it looks for a response after 1001 of the messages
    only) and has run between 66147 and 166247 clock cycles. *)
Theorem runAllTests_totals (fuel : nat) (i : Inputs) (d : Dut) :
  (100 <= fuel)%nat ->
  exists h',
    runAllTests Dut eval order_execution_valid overflow fuel (construct Dut i d)
    = Some h' /\
    total_ticks Dut h' = 61006 /\
    0 <= total_executions Dut h' <= 1001 /\
    66147 <= cycle_count Dut h' <= 166247.
Proof.
  intros Hfuel.
  destruct (runAllTests_advances fuel (construct Dut i d) Hfuel)
    as (h' & k & e & E & (Hc & Ht & He & _) & Hk & He').
  { cbn. lia. }
  exists h'. split; [exact E |].
  change (cycle_count Dut (construct Dut i d)) with 0 in Hc.
  change (total_ticks Dut (construct Dut i d)) with 0 in Ht.
  change (total_executions Dut (construct Dut i d)) with 0 in He.
  apply counts_to_exact in Hc; [| lia ..].
  apply counts_to_exact in Ht; [| lia ..].
  apply counts_to_exact in He; [| lia ..].
  lia.
Qed.

Lemma check_from_sound (P : Z -> bool) (n : nat) :
  forall i, check_from n i P = true ->
            forall z, i <= z < i + Z.of_nat n -> P z = true.
Proof.
  induction n as [| n IH]; intros i Hall z Hz; [lia |].
  cbn [check_from] in Hall.
  destruct (P i) eqn:Ei; [| discriminate].
  destruct (Z.eq_dec z i) as [-> | Hne]; [exact Ei |].
  apply (IH (i + 1) Hall). lia.
Qed.

Lemma rate_checked : check_from 1002 0 rate_bounded = true.
Proof. vm_compute. reflexivity. Qed.

Lemma frequency_checked :
  check_from (Z.to_nat 100101) 66147 frequency_constant = true.
Proof. vm_compute. reflexivity. Qed.

(** X18: the report of the whole program.  On the harness as constructed,
    for every device, [generateReport] after [runAllTests] prints 61006
    ticks, an execution rate of at most 1.65 per cent, and an effective
    frequency of 250 MHz up to rounding: neither figure can tell one device
    from another.  The latency lines are printed exactly when an execution
    was counted. *)
Theorem generateReport_after_runAllTests (fuel : nat) (i : Inputs) (d : Dut) :
  (100 <= fuel)%nat ->
  exists h' rate,
    runAllTests Dut eval order_execution_valid overflow fuel (construct Dut i d)
    = Some h' /\
    report_ticks (generateReport Dut h') = 61006 /\
    execution_rate (generateReport Dut h') = Some rate /\
    (rate <=? 1.65)%float = true /\
    (249.999999 <? effective_frequency (generateReport Dut h'))%float = true /\
    (effective_frequency (generateReport Dut h') <? 250.000001)%float = true /\
    (average_latency_cycles (generateReport Dut h') = None <->
     total_executions Dut h' = 0).
Proof.
  intros Hfuel.
  destruct (runAllTests_advances fuel (construct Dut i d) Hfuel)
    as (h' & k & e & E & (Hc & Ht & He & _) & Hk & He').
  { cbn. lia. }
  change (cycle_count Dut (construct Dut i d)) with 0 in Hc.
  change (total_ticks Dut (construct Dut i d)) with 0 in Ht.
  change (total_executions Dut (construct Dut i d)) with 0 in He.
  apply counts_to_exact in Hc; [| lia ..].
  apply counts_to_exact in Ht; [| lia ..].
  apply counts_to_exact in He; [| lia ..].
  cbn [Z.add] in Hc, Ht, He.
  exists h'. eexists. split; [exact E |].
  unfold generateReport.
  cbn [report_ticks execution_rate effective_frequency average_latency_cycles].
  rewrite Hc, Ht, He.
  split; [reflexivity |].
  split; [reflexivity |].
  split.
  { exact (check_from_sound _ _ _ rate_checked e ltac:(lia)). }
  pose proof (check_from_sound _ _ _ frequency_checked k
                ltac:(rewrite Z2Nat.id by lia; lia)) as Hf.
  unfold frequency_constant in Hf. apply andb_prop in Hf.
  split; [exact (proj1 Hf) |]. split; [exact (proj2 Hf) |].
  destruct (Z.gtb_spec e 0) as [Hpos | Hzero]; split; intros Hnone;
    try discriminate; try lia.
  reflexivity.
Qed.
Lemma cycle_times_grid (n : nat) :
  forall c,
    0 <= c ->
    (c + Z.of_nat n) * 4 <= 2 ^ 64 ->
    cycle_times c n = flat_map (fun j => [4 * j; 4 * j + 2]) (Z_range c n).
Proof.
  induction n as [| n IH]; intros c Hc Hfit; [reflexivity |].
  cbn [cycle_times Z_range flat_map app].
  change CLOCK_PERIOD with 4. change (4 / 2) with 2.
  rewrite (wrap64_small (c * 4)) by lia.
  rewrite (wrap64_small (c * 4 + 2)) by lia.
  rewrite IH by lia.
  replace (c * 4) with (4 * c) by lia. reflexivity.
Qed.

Lemma length_cycle_times (n : nat) :
  forall c, List.length (cycle_times c n) = (2 * n)%nat.
Proof.
  induction n as [| n IH]; intros c; [reflexivity |].
  cbn [cycle_times List.length]. rewrite IH. lia.
Qed.

(** X19: the waveform of the whole program.  On the harness as
    constructed, for every device, the samples [runAllTests] has dumped are
    exactly two per clock cycle run, at the times 4 c and 4 c + 2 of cycle
    c = 0, 1, ..., in this order: the time stamps increase strictly and
    nothing is dumped outside [clockCycle]. *)
Theorem runAllTests_waveform (fuel : nat) (i : Inputs) (d : Dut) :
  (100 <= fuel)%nat ->
  exists h',
    runAllTests Dut eval order_execution_valid overflow fuel (construct Dut i d)
    = Some h' /\
    map (time Dut) (trace Dut h')
    = flat_map (fun c => [4 * c; 4 * c + 2])
        (Z_range 0 (Z.to_nat (cycle_count Dut h'))) /\
    Z.of_nat (List.length (trace Dut h')) = 2 * cycle_count Dut h'.
Proof.
  intros Hfuel.
  destruct (runAllTests_advances fuel (construct Dut i d) Hfuel)
    as (h' & k & e & E & (Hc & _ & _ & _ & _ & samples & T & P) & Hk & _).
  { cbn. lia. }
  change (cycle_count Dut (construct Dut i d)) with 0 in Hc, P.
  change (trace Dut (construct Dut i d)) with (@nil (Sample Dut)) in T.
  cbn [app] in T.
  apply counts_to_exact in Hc; [| lia ..].
  cbn [Z.add] in Hc.
  exists h'. split; [exact E |].
  rewrite T, Hc. split.
  - rewrite P. apply cycle_times_grid; [lia |].
    rewrite Z2Nat.id by lia. lia.
  - rewrite <- (length_map (time Dut)), P, length_cycle_times. lia.
Qed.

End ScenarioRuns.

(** A device that answers three rising edges after a message. *)
Lemma waitForExecution_first_response_witness :
  let eval := Examples.delay_eval 3 in
  let h := FPGATradingSystemTest.sendMarketData _ eval 0x4141504C 150000000 100 0x41
             (FPGATradingSystemTest.reset _ eval
                (FPGATradingSystemTest.construct _
                   (FPGATradingSystemTest.mkInputs false true false 0 0)
                   (None, false))) in
  exists h',
    FPGATradingSystemTest.waitForExecution _ eval Examples.delay_valid 100 100 h
    = Some h' /\
    FPGATradingSystemTest.total_executions _ h' = 1 /\
    FPGATradingSystemTest.total_latency _ h' = 3.
Proof.
  intros eval h.
  destruct (waitForExecution_first_response eval Examples.delay_valid 100 100 h)
    as (k & h' & E & _); [lia | simpl; lia |].
  exists h'. split; [exact E |].
  vm_compute in E. injection E as <-. split; reflexivity.
Defined.

(** The benchmark on the silent device. *)
Lemma runLatencyBenchmark_bounds_witness :
  exists h' r k e,
    FPGATradingSystemTest.runLatencyBenchmark unit Examples.silent_eval
      Examples.silent_valid 100 Examples.silent_harness = Some (h', r) /\
    advances k 1000 e Examples.silent_harness h' /\
    6000 <= k <= 106000.
Proof.
  destruct (runLatencyBenchmark_bounds Examples.silent_eval Examples.silent_valid
              100 Examples.silent_harness)
    as (h' & r & k & e & E & Ha & Hk & _); [lia |].
  exists h', r, k, e. split; [exact E |]. split; [exact Ha | exact Hk].
Defined.

(** The five symbols into the silent device. *)
Lemma runMultiSymbolTest_stimulus_witness :
  exists h',
    FPGATradingSystemTest.runMultiSymbolTest unit Examples.silent_eval
      Examples.silent_harness = Some h' /\
    FPGATradingSystemTest.cycle_count unit h' = 30 /\
    FPGATradingSystemTest.total_ticks unit h' = 5 /\
    map (fun s => FPGATradingSystemTest.market_data_in
                    (FPGATradingSystemTest.ports unit s))
      (firstn 2 (FPGATradingSystemTest.trace unit h'))
    = [0x4141504C96000000; 0x4141504C96000000].
Proof.
  destruct (runMultiSymbolTest_stimulus Examples.silent_eval
              Examples.silent_harness)
    as (h' & E & _); [simpl; lia |].
  exists h'. split; [exact E |].
  vm_compute in E. injection E as <-. repeat split.
Defined.

(** The high-frequency scenario on the silent device. *)
Lemma runHighFrequencyTest_constant_average_witness :
  exists h',
    FPGATradingSystemTest.runHighFrequencyTest unit Examples.silent_eval
      Examples.int_wraps Examples.silent_harness = Some (h', 1.01%float).
Proof.
  destruct (runHighFrequencyTest_constant_average Examples.silent_eval
              Examples.int_wraps Examples.silent_harness)
    as (h' & E & _); [simpl; lia |].
  exists h'. exact E.
Defined.

(** The stress scenario on the silent device. *)
Lemma runStressTest_stimulus_witness :
  exists h' samples,
    FPGATradingSystemTest.runStressTest unit Examples.silent_eval
      Examples.int_wraps Examples.silent_harness = Some h' /\
    FPGATradingSystemTest.trace unit h'
    = FPGATradingSystemTest.trace unit Examples.silent_harness ++ samples /\
    Forall (fun s => FPGATradingSystemTest.market_data_valid
                       (FPGATradingSystemTest.ports unit s) = true) samples.
Proof.
  destruct (runStressTest_stimulus Examples.silent_eval Examples.int_wraps
              Examples.silent_harness)
    as (h' & samples & E & _ & _ & T & _ & Hv); [simpl; lia |].
  exists h', samples. split; [exact E |]. split; [exact T | exact Hv].
Defined.

Lemma runStressTest_message_mix_witness :
  exists h' samples,
    FPGATradingSystemTest.runStressTest unit Examples.silent_eval
      Examples.int_wraps Examples.silent_harness = Some h' /\
    map (fun s => FPGATradingSystemTest.market_data_type
                    (FPGATradingSystemTest.ports unit s)) samples
    = flat_map (fun kind => [kind; kind])
        (map FPGATradingSystemTest.stress_msg_type (Z_range 0 (Z.to_nat 50000))).
Proof.
  destruct (runStressTest_message_mix Examples.silent_eval Examples.int_wraps
              Examples.silent_harness)
    as (h' & samples & E & _ & K & _); [simpl; lia |].
  exists h', samples. split; [exact E | exact K].
Defined.

(** The whole program on the silent device. *)
Lemma runAllTests_totals_witness :
  exists h',
    FPGATradingSystemTest.runAllTests unit Examples.silent_eval
      Examples.silent_valid Examples.int_wraps 100
      (FPGATradingSystemTest.construct unit
         (FPGATradingSystemTest.mkInputs false true false 0 0) tt) = Some h' /\
    FPGATradingSystemTest.total_ticks unit h' = 61006.
Proof.
  destruct (runAllTests_totals Examples.silent_eval Examples.silent_valid
              Examples.int_wraps 100
              (FPGATradingSystemTest.mkInputs false true false 0 0) tt)
    as (h' & E & Ht & _); [lia |].
  exists h'. split; [exact E | exact Ht].
Defined.

(** The waveform of the whole program on the silent device. *)
Lemma runAllTests_waveform_witness :
  exists h',
    FPGATradingSystemTest.runAllTests unit Examples.silent_eval
      Examples.silent_valid Examples.int_wraps 100
      (FPGATradingSystemTest.construct unit
         (FPGATradingSystemTest.mkInputs false true false 0 0) tt) = Some h' /\
    Z.of_nat (List.length (FPGATradingSystemTest.trace unit h'))
    = 2 * FPGATradingSystemTest.cycle_count unit h'.
Proof.
  destruct (runAllTests_waveform Examples.silent_eval Examples.silent_valid
              Examples.int_wraps 100
              (FPGATradingSystemTest.mkInputs false true false 0 0) tt)
    as (h' & E & _ & Hlen); [lia |].
  exists h'. split; [exact E | exact Hlen].
Defined.

(** The report on the silent device. *)
Lemma generateReport_after_runAllTests_witness :
  exists h' rate,
    FPGATradingSystemTest.runAllTests unit Examples.silent_eval
      Examples.silent_valid Examples.int_wraps 100
      (FPGATradingSystemTest.construct unit
         (FPGATradingSystemTest.mkInputs false true false 0 0) tt) = Some h' /\
    FPGATradingSystemTest.execution_rate
      (FPGATradingSystemTest.generateReport unit h') = Some rate /\
    (rate <=? 1.65)%float = true.
Proof.
  destruct (generateReport_after_runAllTests Examples.silent_eval
              Examples.silent_valid Examples.int_wraps 100
              (FPGATradingSystemTest.mkInputs false true false 0 0) tt)
    as (h' & rate & E & _ & Hrate & Hle & _); [lia |].
  exists h', rate. split; [exact E |]. split; [exact Hrate | exact Hle].
Defined.

(** ** The market data generator *)

Section GeneratorFacts.

Import MarketDataGenerator.

Context {World : Type}.
Variable price_change_dist : World -> float * World.
Variable volume_dist : World -> float * World.
Variable uniform_dist : World -> float * World.
Variable steady_clock_now : World -> Z * World.
Variable undefined_cast : float -> Z.

#[local] Abbreviation Generator := (Generator World).
#[local] Abbreviation generateTick :=
  (generateTick World price_change_dist volume_dist uniform_dist
     steady_clock_now undefined_cast).
#[local] Abbreviation burst_loop :=
  (burst_loop World price_change_dist volume_dist uniform_dist
     steady_clock_now undefined_cast).
#[local] Abbreviation generateBurst :=
  (generateBurst World price_change_dist volume_dist uniform_dist
     steady_clock_now undefined_cast).

(** The codes, and the members of a symbol that no tick changes. *)
#[local] Abbreviation codes_of g := (map (fun s => code (fst s)) (symbols World g)).
#[local] Abbreviation fixed_part s :=
  (fst s, volatility (snd s), avg_volume (snd s), tick_size (snd s)).
#[local] Abbreviation floored s := ((price (snd s) <? 1.0)%float = false).

Lemma msg_type_of_kinds (rand_val : float) :
  In (msg_type_of rand_val) [0x41; 0x45; 0x58; 0x44].
Proof.
  unfold msg_type_of.
  destruct (rand_val <? 0.7)%float; [left; reflexivity |].
  destruct (rand_val <? 0.85)%float; [right; left; reflexivity |].
  destruct (rand_val <? 0.95)%float; [right; right; left; reflexivity |].
  right; right; right; left; reflexivity.
Qed.

Lemma map_set_nth {A B : Type} (f : A -> B) (l : list A) :
  forall (i : nat) (x y : A),
    nth_error l i = Some y -> f x = f y -> map f (set_nth i x l) = map f l.
Proof.
  induction l as [| a l IH]; intros i x y Hy Hf; [destruct i; reflexivity |].
  destruct i as [| i]; cbn [set_nth map].
  - injection Hy as ->. rewrite Hf. reflexivity.
  - rewrite (IH i x y Hy Hf). reflexivity.
Qed.

Lemma Forall_set_nth {A : Type} (P : A -> Prop) (l : list A) :
  forall (i : nat) (x : A), Forall P l -> P x -> Forall P (set_nth i x l).
Proof.
  induction l as [| a l IH]; intros i x Hl Hx; [destruct i; constructor |].
  inversion Hl as [| ? ? Ha Hl']; subst.
  destruct i as [| i]; cbn [set_nth]; constructor; auto.
Qed.

Lemma length_set_nth {A : Type} (l : list A) :
  forall (i : nat) (x : A), List.length (set_nth i x l) = List.length l.
Proof.
  induction l as [| a l IH]; intros i x; [destruct i; reflexivity |].
  destruct i as [| i]; cbn [set_nth List.length]; [reflexivity |].
  rewrite IH. reflexivity.
Qed.

Lemma floor_kept (p : float) :
  ((if (p <? 1.0)%float then 1.0%float else p) <? 1.0)%float = false.
Proof. destruct (p <? 1.0)%float eqn:E; [reflexivity | exact E]. Qed.

(** One tick for a symbol of the table. *)
Lemma generateTick_run (idx : Z) (g : Generator) :
  0 <= idx < Z.of_nat (List.length (symbols World g)) ->
  exists tick g',
    generateTick idx g = Some (tick, g') /\
    symbol_code tick = nth (Z.to_nat idx) (codes_of g) 0 /\
    In (msg_type tick) [0x41; 0x45; 0x58; 0x44] /\
    map (fun s => fixed_part s) (symbols World g')
    = map (fun s => fixed_part s) (symbols World g) /\
    (Forall (fun s => floored s) (symbols World g) ->
     Forall (fun s => floored s) (symbols World g')).
Proof.
  intros Hidx.
  unfold MarketDataGenerator.generateTick.
  destruct (Z.geb_spec idx (Z.of_nat (List.length (symbols World g))));
    [lia |].
  destruct (nth_error (symbols World g) (Z.to_nat idx)) as [s |] eqn:Es.
  2: { apply nth_error_None in Es. lia. }
  rewrite bind_Some.
  destruct (price_change_dist (world World g)) as [z w1].
  destruct (volume_dist w1) as [v w2].
  destruct (uniform_dist w2) as [rand_val w3].
  destruct (steady_clock_now w3) as [now w4].
  cbv beta iota zeta.
  eexists. eexists. split; [reflexivity |].
  cbn [symbol_code msg_type symbols].
  split.
  { symmetry. apply nth_error_nth.
    rewrite nth_error_map, Es. reflexivity. }
  split; [apply msg_type_of_kinds |].
  split.
  { apply (map_set_nth _ _ _ _ s Es). destruct s as [sym q]. reflexivity. }
  intros Hall. apply Forall_set_nth; [exact Hall |].
  cbn [snd price]. apply floor_kept.
Qed.

Lemma burst_loop_S (n : nat) (i : Z) (g : Generator) (ticks : list MarketTick) :
  burst_loop (S n) i g ticks
  = (r <- generateTick (i mod Z.of_nat (List.length (symbols World g))) g ;;
     burst_loop n (i + 1) (snd r) (ticks ++ [fst r])).
Proof. reflexivity. Qed.

Lemma burst_loop_run (n : nat) :
  forall (i : Z) (g : Generator) (ticks : list MarketTick),
    symbols World g <> [] ->
    exists new g',
      burst_loop n i g ticks = Some (ticks ++ new, g') /\
      List.length new = n /\
      map symbol_code new
      = map (fun j => nth (Z.to_nat (j mod Z.of_nat (List.length (codes_of g))))
                        (codes_of g) 0)
          (Z_range i n) /\
      Forall (fun t => In (msg_type t) [0x41; 0x45; 0x58; 0x44]) new /\
      map (fun s => fixed_part s) (symbols World g')
      = map (fun s => fixed_part s) (symbols World g) /\
      (Forall (fun s => floored s) (symbols World g) ->
       Forall (fun s => floored s) (symbols World g')).
Proof.
  induction n as [| n IH]; intros i g ticks Hne.
  - exists [], g. cbn [MarketDataGenerator.burst_loop]. rewrite app_nil_r.
    split; [reflexivity |]. split; [reflexivity |]. split; [reflexivity |].
    split; [constructor |]. split; [reflexivity | auto].
  - assert (Hlen : 0 < Z.of_nat (List.length (symbols World g))).
    { destruct (symbols World g); [congruence | simpl; lia]. }
    pose proof (Z.mod_pos_bound i _ Hlen) as Hm.
    destruct (generateTick_run (i mod Z.of_nat (List.length (symbols World g))) g Hm)
      as (tick & g1 & E & Hcode & Hkind & Hfix & Hfloor).
    rewrite burst_loop_S, E, bind_Some. cbn [fst snd].
    assert (Hcodes : codes_of g1 = codes_of g).
    { pose proof (f_equal (map (fun x : Symbol * float * Z * Z =>
                                  code (fst (fst (fst x))))) Hfix) as H.
      rewrite !map_map in H. exact H. }
    assert (Hne1 : symbols World g1 <> []).
    { intros H0. apply (f_equal (@List.length _)) in Hfix.
      rewrite !length_map, H0 in Hfix.
      destruct (symbols World g); [congruence | discriminate]. }
    destruct (IH (i + 1) g1 (ticks ++ [tick]) Hne1)
      as (new & g' & E' & Hlen' & Hcodes' & Hkinds' & Hfix' & Hfloor').
    exists (tick :: new), g'.
    split; [rewrite E', <- app_assoc; reflexivity |].
    split; [cbn [List.length]; rewrite Hlen'; reflexivity |].
    split.
    { cbn [map Z_range]. rewrite Hcodes', Hcodes, Hcode.
      rewrite length_map. reflexivity. }
    split; [constructor; assumption |].
    split; [rewrite Hfix'; exact Hfix | auto].
Qed.

(** X20: [generateBurst(n)] returns n ticks, tick i for the symbol at
    index i mod size of the table (in turn, from the first), and every tick
    is of one of the four kinds Add, Execute, Cancel, Delete, whatever the
    random engine draws. *)
Theorem generateBurst_round_robin (n : nat) (g : Generator) :
  symbols World g <> [] ->
  let codes := map (fun s => code (fst s)) (symbols World g) in
  exists ticks g',
    generateBurst n g = Some (ticks, g') /\
    List.length ticks = n /\
    map symbol_code ticks
    = map (fun i => nth (Z.to_nat (i mod Z.of_nat (List.length codes))) codes 0)
        (Z_range 0 n) /\
    Forall (fun t => In (msg_type t) [0x41; 0x45; 0x58; 0x44]) ticks.
Proof.
  intros Hne codes.
  destruct (burst_loop_run n 0 g [] Hne)
    as (ticks & g' & E & Hlen & Hcodes & Hkinds & _).
  exists ticks, g'. split; [exact E |].
  split; [exact Hlen |]. split; [exact Hcodes | exact Hkinds].
Qed.

(** X21: a burst changes nothing in the symbol table but prices, and it
    keeps the price floor: when no stored price is below 1.0 before, none is
    afterwards, however far the draws push a price down. *)
Theorem generateBurst_keeps_table (n : nat) (g : Generator) :
  symbols World g <> [] ->
  exists ticks g',
    generateBurst n g = Some (ticks, g') /\
    map (fun s => (fst s, volatility (snd s), avg_volume (snd s), tick_size (snd s)))
      (symbols World g')
    = map (fun s => (fst s, volatility (snd s), avg_volume (snd s), tick_size (snd s)))
        (symbols World g) /\
    (Forall (fun s => (price (snd s) <? 1.0)%float = false) (symbols World g) ->
     Forall (fun s => (price (snd s) <? 1.0)%float = false) (symbols World g')).
Proof.
  intros Hne.
  destruct (burst_loop_run n 0 g [] Hne)
    as (ticks & g' & E & _ & _ & _ & Hfix & Hfloor).
  exists ticks, g'. split; [exact E |]. split; [exact Hfix | exact Hfloor].
Qed.

End GeneratorFacts.

(** Seven ticks with steeply falling prices. *)
Lemma generateBurst_round_robin_witness :
  exists ticks g',
    MarketDataGenerator.generateBurst nat Examples.falling_price
      Examples.steady_volume Examples.steady_uniform Examples.counting_clock
      Examples.cast_to_zero 7 Examples.fresh_generator = Some (ticks, g') /\
    map MarketDataGenerator.symbol_code ticks
    = [0x41415054; 0x474f4f47; 0x4d534654; 0x54534c41; 0x4e564441;
       0x41415054; 0x474f4f47].
Proof.
  destruct (generateBurst_round_robin Examples.falling_price
              Examples.steady_volume Examples.steady_uniform
              Examples.counting_clock Examples.cast_to_zero 7
              Examples.fresh_generator)
    as (ticks & g' & E & _ & Hcodes & _); [discriminate |].
  exists ticks, g'. split; [exact E |]. rewrite Hcodes. reflexivity.
Defined.

Lemma generateBurst_keeps_table_witness :
  exists ticks g',
    MarketDataGenerator.generateBurst nat Examples.falling_price
      Examples.steady_volume Examples.steady_uniform Examples.counting_clock
      Examples.cast_to_zero 7 Examples.fresh_generator = Some (ticks, g') /\
    Forall (fun s => (MarketDataGenerator.price (snd s) <? 1.0)%float = false)
      (MarketDataGenerator.symbols nat g') /\
    map (fun s => MarketDataGenerator.tick_price s) (firstn 6 ticks)
    = [1000000; 2550000000; 100000000; 400000000; 149999999; 1000000].
Proof.
  destruct (generateBurst_keeps_table Examples.falling_price
              Examples.steady_volume Examples.steady_uniform
              Examples.counting_clock Examples.cast_to_zero 7
              Examples.fresh_generator)
    as (ticks & g' & E & _ & Hfloor); [discriminate |].
  exists ticks, g'. split; [exact E |].
  split.
  - apply Hfloor. repeat constructor.
  - vm_compute in E. injection E as <- _. reflexivity.
Defined.
